(** * Incremental ticket-creation pipeline (task-3-ticket-creation)

    A shallow embedding of the Python sources
      transformer.py, mappers.py, form_mapping.py, tracking_manager.py,
      state_manager.py, jira_helpers.py, processor.py and main.py
    together with the properties of the pipeline that the specification
    states about them.

    Conventions of the model.
    - Python [str] is [string]: a character is a Unicode code point, and
      the model has the code points below 256 (ASCII and the Latin-1
      supplement). On these [str.isalnum], [str.isspace] (so [str.strip])
      and [str.lower] are Python's own, character by character.
    - A Python [dict] used as a map is a [gmap]; where the iteration order
      of a dict is observable (the per-question choice table, [DB_TO_QID])
      it is an association list with Python's insertion-order update.
    - [config.py] is not part of the sources: [DB_TO_QID] and the three
      Jira identifiers are section variables.
    - The mutable objects stored in the module-level [DEFAULT_STATE] are
      modelled as a small store, because [dict(DEFAULT_STATE)] is a shallow
      copy: the returned state shares them. *)

From Stdlib Require Import ZArith Ascii String List Bool Lia DecimalString.
From stdpp Require Import base option list gmap strings sorting.

Local Open Scope string_scope.
Local Open Scope list_scope.
Local Open Scope Z_scope.

(** ** Python string primitives *)

Module Py.

Definition code (c : ascii) : N := N_of_ascii c.

(** The decimal digits [0] to [9] (the only characters below 256 that
    [\d] matches). *)
Definition is_digit (c : ascii) : bool :=
  ((48 <=? code c) && (code c <=? 57))%N.

(** The letters [A] to [Z]. *)
Definition is_upper (c : ascii) : bool :=
  ((65 <=? code c) && (code c <=? 90))%N.

(** The letters [a] to [z]. *)
Definition is_lower (c : ascii) : bool :=
  ((97 <=? code c) && (code c <=? 122))%N.

(** The upper-case letters of the Latin-1 supplement: U+00C0 to U+00D6 and
    U+00D8 to U+00DE. *)
Definition is_latin1_upper (c : ascii) : bool :=
  (((192 <=? code c) && (code c <=? 214))
   || ((216 <=? code c) && (code c <=? 222)))%N.

(** The characters of the Latin-1 supplement that are letters or numerals:
    U+00AA, U+00B2, U+00B3, U+00B5, U+00B9, U+00BA, U+00BC to U+00BE,
    U+00C0 to U+00D6, U+00D8 to U+00F6 and U+00F8 to U+00FF. *)
Definition is_latin1_alnum (c : ascii) : bool :=
  ((code c =? 170) || ((178 <=? code c) && (code c <=? 179))
   || (code c =? 181) || ((185 <=? code c) && (code c <=? 186))
   || ((188 <=? code c) && (code c <=? 190))
   || ((192 <=? code c) && (code c <=? 214))
   || ((216 <=? code c) && (code c <=? 246))
   || (248 <=? code c))%N.

(** [ch.isalnum()] *)
Definition isalnum (c : ascii) : bool :=
  is_digit c || is_upper c || is_lower c || is_latin1_alnum c.

(** [ch.isspace()]: TAB, LF, VT, FF, CR, FS, GS, RS, US, SPACE, and in the
    Latin-1 supplement NEL (U+0085) and NBSP (U+00A0). *)
Definition isspace (c : ascii) : bool :=
  (((9 <=? code c) && (code c <=? 13))
   || ((28 <=? code c) && (code c <=? 32))
   || (code c =? 133) || (code c =? 160))%N.

(** [ch.lower()]: the lower-case letter is 32 code points up. *)
Definition lower_char (c : ascii) : ascii :=
  if is_upper c || is_latin1_upper c then ascii_of_N (code c + 32) else c.

(** [s.lower()] *)
Fixpoint lower (s : string) : string :=
  match s with
  | EmptyString => EmptyString
  | String c s' => String (lower_char c) (lower s')
  end.

(** [''.join(ch for ch in s if ch.isalnum())] *)
Fixpoint keep_alnum (s : string) : string :=
  match s with
  | EmptyString => EmptyString
  | String c s' =>
      if isalnum c then String c (keep_alnum s') else keep_alnum s'
  end.

(** [s.lstrip()] *)
Fixpoint lstrip (s : string) : string :=
  match s with
  | EmptyString => EmptyString
  | String c s' => if isspace c then lstrip s' else s
  end.

(** [s.rstrip()] *)
Fixpoint rstrip (s : string) : string :=
  match s with
  | EmptyString => EmptyString
  | String c s' =>
      match rstrip s' with
      | EmptyString => if isspace c then EmptyString else String c EmptyString
      | t => String c t
      end
  end.

(** [s.strip()] *)
Definition strip (s : string) : string := rstrip (lstrip s).

(** [s.split(sep)] for a one-character separator: the pieces between the
    separators, so that the empty string gives one empty piece. *)
Fixpoint split (sep : ascii) (s : string) : list string :=
  match s with
  | EmptyString => [EmptyString]
  | String c s' =>
      if Ascii.eqb c sep then EmptyString :: split sep s'
      else match split sep s' with
           | p :: ps => String c p :: ps
           | [] => [String c EmptyString]
           end
  end.

(** [bool(s)] for a string. *)
Definition nonempty (s : string) : bool :=
  match s with EmptyString => false | _ => true end.

(** [sub in s] on strings. *)
Definition contains (sub s : string) : bool :=
  match String.index 0 sub s with Some _ => true | None => false end.

(** [s[:n]] *)
Definition take (n : nat) (s : string) : string := String.substring 0 n s.

(** [a < b] and [a > b] on strings: lexicographic on code points. *)
Definition str_lt (a b : string) : bool := String.ltb a b.
Definition str_gt (a b : string) : bool := String.ltb b a.

(** [sep.join(parts)] *)
Definition join (sep : string) (parts : list string) : string :=
  String.concat sep parts.

(** One decimal digit as a character; [str(n)] for an integer. *)
Definition digit_char (n : Z) : ascii :=
  ascii_of_N (48 + Z.to_N (n mod 10)).

Definition digit_val (c : ascii) : Z := Z.of_N (code c) - 48.

End Py.

(** ** Calendar dates: [datetime.date], [isoformat], [strptime] *)

Definition is_leap (y : Z) : bool :=
  ((y mod 4 =? 0) && negb (y mod 100 =? 0)) || (y mod 400 =? 0).

Definition days_in_month (y m : Z) : Z :=
  if m =? 2 then (if is_leap y then 29 else 28)
  else if (m =? 4) || (m =? 6) || (m =? 9) || (m =? 11) then 30
  else 31.

(** The range check of the [date] constructor: MINYEAR = 1, MAXYEAR = 9999,
    a month of the year and a day of that month. *)
Definition valid_ymd (y m d : Z) : bool :=
  (1 <=? y) && (y <=? 9999) && (1 <=? m) && (m <=? 12)
  && (1 <=? d) && (d <=? days_in_month y m).

(** A [datetime.date] object: it cannot be built out of range. *)
Record date := mkDate {
  year : Z;
  month : Z;
  day : Z;
  date_ok : Is_true (valid_ymd year month day)
}.

Module Date.

(** [d1 < d2] on date objects. *)
Definition ltb (d1 d2 : date) : bool :=
  (year d1 <? year d2)
  || ((year d1 =? year d2)
      && ((month d1 <? month d2)
          || ((month d1 =? month d2) && (day d1 <? day d2)))).

(** [d1 > d2] on date objects. *)
Definition gtb (d1 d2 : date) : bool := ltb d2 d1.

(** The calendar order as a three-way comparison. *)
Definition compare (d1 d2 : date) : comparison :=
  match year d1 ?= year d2 with
  | Eq => match month d1 ?= month d2 with
          | Eq => day d1 ?= day d2
          | c => c
          end
  | c => c
  end.

(** [d1 == d2] on date objects. *)
Definition eqb (d1 d2 : date) : bool :=
  (year d1 =? year d2) && (month d1 =? month d2) && (day d1 =? day d2).

Definition pad2 (n : Z) : string :=
  String (Py.digit_char (n / 10)) (String (Py.digit_char n) EmptyString).

Definition pad4 (n : Z) : string :=
  String (Py.digit_char (n / 1000))
    (String (Py.digit_char (n / 100))
       (String (Py.digit_char (n / 10))
          (String (Py.digit_char n) EmptyString))).

(** [d.isoformat()], that is ["%04d-%02d-%02d"]. *)
Definition isoformat (d : date) : string :=
  pad4 (year d) +:+ "-" +:+ pad2 (month d) +:+ "-" +:+ pad2 (day d).

(** [date(y, m, d)]: [None] stands for the [ValueError] of the range check. *)
Definition make (y m d : Z) : option date :=
  match decide (Is_true (valid_ymd y m d)) with
  | left ok => Some (mkDate y m d ok)
  | right _ => None
  end.

(** The month group of [strptime]'s pattern, [(1[0-2]|0[1-9]|[1-9])],
    followed by the literal [-]; returns the month and what follows. *)
Definition parse_month (s : string) : option (Z * string) :=
  match s with
  | String a (String "-" rest) =>
      if Py.is_digit a && (1 <=? Py.digit_val a) then Some (Py.digit_val a, rest)
      else None
  | String a (String b (String "-" rest)) =>
      if Ascii.eqb a "1" && Py.is_digit b && (Py.digit_val b <=? 2)
      then Some (10 + Py.digit_val b, rest)
      else if Ascii.eqb a "0" && Py.is_digit b && (1 <=? Py.digit_val b)
      then Some (Py.digit_val b, rest)
      else None
  | _ => None
  end.

(** The day group, [(3[0-1]|[1-2]\d|0[1-9]|[1-9]| [1-9])]; the match has to
    reach the end of the text (otherwise "unconverted data remains"). *)
Definition parse_day (s : string) : option Z :=
  match s with
  | String a EmptyString =>
      if Py.is_digit a && (1 <=? Py.digit_val a) then Some (Py.digit_val a)
      else None
  | String a (String b EmptyString) =>
      if Ascii.eqb a "3" && Py.is_digit b && (Py.digit_val b <=? 1)
      then Some (30 + Py.digit_val b)
      else if (Ascii.eqb a "1" || Ascii.eqb a "2") && Py.is_digit b
      then Some (10 * Py.digit_val a + Py.digit_val b)
      else if (Ascii.eqb a "0" || Ascii.eqb a " ")
              && Py.is_digit b && (1 <=? Py.digit_val b)
      then Some (Py.digit_val b)
      else None
  | _ => None
  end.

(** [datetime.strptime(s, '%Y-%m-%d').date()]; [None] stands for the
    [ValueError] the call raises. *)
Definition strptime_ymd (s : string) : option date :=
  match s with
  | String y1 (String y2 (String y3 (String y4 (String "-" rest)))) =>
      if Py.is_digit y1 && Py.is_digit y2 && Py.is_digit y3 && Py.is_digit y4
      then
        match parse_month rest with
        | Some (m, rest') =>
            match parse_day rest' with
            | Some dd =>
                make (1000 * Py.digit_val y1 + 100 * Py.digit_val y2
                      + 10 * Py.digit_val y3 + Py.digit_val y4) m dd
            | None => None
            end
        | None => None
        end
      else None
  | _ => None
  end.

End Date.

(** Date literals for the examples. *)
Notation "'D(' y , m , d ')'" := (mkDate y m d I) (at level 0).

(** ** Rows, form questions, answers *)

(** A cell of a database row as psycopg2 delivers it: NULL, text, integer,
    date, timestamp (its time of day kept as rendered text) or an array of
    nullable text. *)
Inductive value :=
| VNone
| VStr (s : string)
| VInt (n : Z)
| VDate (d : date)
| VDateTime (d : date) (clock : string)
| VList (items : list (option string)).

Module Value.

(** [bool(v)] *)
Definition truthy (v : value) : bool :=
  match v with
  | VNone => false
  | VStr s => Py.nonempty s
  | VInt n => negb (n =? 0)
  | VDate _ | VDateTime _ _ => true
  | VList l => match l with [] => false | _ => true end
  end.

Definition is_none (v : value) : bool :=
  match v with VNone => true | _ => false end.

(** [a or b] *)
Definition or (a b : value) : value := if truthy a then a else b.

(** [str(n)] for an integer. *)
Definition str_int (n : Z) : string :=
  DecimalString.NilZero.string_of_int (Z.to_int n).

(** [str(v)]; the rendering of a list ([repr] of its items) is left to
    [repr_list]. *)
Definition str (repr_list : list (option string) -> string) (v : value) : string :=
  match v with
  | VNone => "None"
  | VStr s => s
  | VInt n => str_int n
  | VDate d => Date.isoformat d
  | VDateTime d c => Date.isoformat d +:+ " " +:+ c
  | VList l => repr_list l
  end.

End Value.

(** The three columns that can carry the identity key. *)
Definition identity_columns : list string := ["emailaddress"; "email"; "Email"].

Definition is_identity_column (c : string) : bool :=
  bool_decide (c ∈ identity_columns).

(** A row ([Dict[str, Any]]), as a typed view of the dict: the identity
    columns are text columns, which hold a string or NULL (no entry in
    [identity]); every other column holds a [value] (an entry of [cells]
    under the name of an identity column is not read). *)
Record row := mkRow {
  identity : gmap string string;
  cells : gmap string value
}.

(** [row.get(col)] *)
Definition row_get (r : row) (col : string) : value :=
  if is_identity_column col
  then match identity r !! col with Some s => VStr s | None => VNone end
  else default VNone (cells r !! col).

(** [a or b] on an optional string ([None] is Python's [None]). *)
Definition or_str (a b : option string) : option string :=
  match a with
  | Some s => if Py.nonempty s then a else b
  | None => b
  end.

(** [bool(email)] *)
Definition truthy_str (a : option string) : bool :=
  match a with Some s => Py.nonempty s | None => false end.

(** [row.get('emailaddress') or row.get('email') or row.get('Email')] *)
Definition get_email (r : row) : option string :=
  or_str (or_str (identity r !! "emailaddress") (identity r !! "email"))
         (identity r !! "Email").

(** One choice of a form question: [{'label': ..., 'id': ...}]; the id is
    kept as [str(id)] renders it. *)
Record choice := mkChoice {
  label : option string;
  choice_id : option string
}.

(** A question of the form definition. [qtype] is [qdef.get('type', '')]. *)
Record question := mkQuestion {
  qtype : string;
  choices : list choice
}.

(** An insertion-ordered [dict] with string keys. *)
Module ODict.

Definition t (V : Type) := list (string * V).

Fixpoint get {V} (k : string) (d : t V) : option V :=
  match d with
  | [] => None
  | (k', v) :: d' => if String.eqb k k' then Some v else get k d'
  end.

(** [d[k] = v]: an existing key keeps its position. *)
Fixpoint set {V} (k : string) (v : V) (d : t V) : t V :=
  match d with
  | [] => [(k, v)]
  | (k', v') :: d' =>
      if String.eqb k k' then (k, v) :: d' else (k', v') :: set k v d'
  end.

End ODict.

(** One entry of the answers payload. *)
Inductive answer :=
| AChoices (ids : list string)
| AText (s : string)
| ADate (s : string).

(** ** Tracking state and the objects of [DEFAULT_STATE] *)

(** A mutable object referenced from a tracking dict: either the very object
    stored in the module-level [DEFAULT_STATE] under the same key, or an
    object of the dict's own. *)
Inductive obj (A : Type) :=
| Dflt
| Own (a : A).
Arguments Dflt {A}.
Arguments Own {A} a.

(** The current contents of the three mutable objects of [DEFAULT_STATE]. *)
Record defaults := mkDefaults {
  d_processed : list string;
  d_issue : gmap string string;
  d_flagged : gmap (option string) string
}.

(** [DEFAULT_STATE] as the module defines it. *)
Definition DEFAULT_STATE : defaults := mkDefaults [] ∅ ∅.

(** The tracking dict: each documented key is absent ([None]) or present;
    [last_run_date] is then [None] or a string. Keys of [flagged_requests]
    are identity keys as [get_email] returns them. *)
Record tracking := mkTracking {
  last_run_date : option (option string);
  processed_emails_same_date : option (obj (list string));
  email_to_issue : option (obj (gmap string string));
  flagged_requests : option (obj (gmap (option string) string));
  other_keys : gmap string string
}.

Module Tracking.

(** [tracking.get('last_run_date')] *)
Definition watermark (t : tracking) : option string :=
  match last_run_date t with Some w => w | None => None end.

(** [tracking.get('processed_emails_same_date', [])] *)
Definition processed (ds : defaults) (t : tracking) : list string :=
  match processed_emails_same_date t with
  | None => []
  | Some Dflt => d_processed ds
  | Some (Own l) => l
  end.

(** [tracking.get('email_to_issue', {})] *)
Definition issues (ds : defaults) (t : tracking) : gmap string string :=
  match email_to_issue t with
  | None => ∅
  | Some Dflt => d_issue ds
  | Some (Own m) => m
  end.

(** [tracking.get('flagged_requests', {})] *)
Definition flagged (ds : defaults) (t : tracking) : gmap (option string) string :=
  match flagged_requests t with
  | None => ∅
  | Some Dflt => d_flagged ds
  | Some (Own m) => m
  end.

(** [tracking.setdefault('email_to_issue', {})[email] = key]: the write goes
    to the object the dict references. *)
Definition set_issue (email key : string) (ds : defaults) (t : tracking)
  : defaults * tracking :=
  match email_to_issue t with
  | None =>
      (ds, mkTracking (last_run_date t) (processed_emails_same_date t)
             (Some (Own {[ email := key ]})) (flagged_requests t) (other_keys t))
  | Some Dflt =>
      (mkDefaults (d_processed ds) (<[ email := key ]> (d_issue ds)) (d_flagged ds), t)
  | Some (Own m) =>
      (ds, mkTracking (last_run_date t) (processed_emails_same_date t)
             (Some (Own (<[ email := key ]> m))) (flagged_requests t) (other_keys t))
  end.

(** [tracking.setdefault('flagged_requests', {})[email] = reason] *)
Definition set_flagged (email : option string) (reason : string)
    (ds : defaults) (t : tracking) : defaults * tracking :=
  match flagged_requests t with
  | None =>
      (ds, mkTracking (last_run_date t) (processed_emails_same_date t)
             (email_to_issue t) (Some (Own {[ email := reason ]})) (other_keys t))
  | Some Dflt =>
      (mkDefaults (d_processed ds) (d_issue ds) (<[ email := reason ]> (d_flagged ds)), t)
  | Some (Own m) =>
      (ds, mkTracking (last_run_date t) (processed_emails_same_date t)
             (email_to_issue t) (Some (Own (<[ email := reason ]> m))) (other_keys t))
  end.

End Tracking.

(** A call either raises or returns. *)
Inductive outcome (A : Type) :=
| Raised
| Returned (a : A).
Arguments Raised {A}.
Arguments Returned {A} a.

(** ** mappers.py *)

(** [_normalize_label(s)] *)
Definition _normalize_label (s : option string) : string :=
  match s with
  | None => EmptyString
  | Some s => Py.keep_alnum (Py.lower s)
  end.

(** [str(ch.get('id'))] *)
Definition str_id (c : choice) : string := default "None" (choice_id c).

(** The dict comprehension
    [{_normalize_label(ch.get('label')): str(ch.get('id')) for ch in choices
      if ch.get('label') is not None}]. *)
Fixpoint handset_label_map (chs : list choice) (acc : ODict.t string)
  : ODict.t string :=
  match chs with
  | [] => acc
  | ch :: rest =>
      match label ch with
      | Some l => handset_label_map rest (ODict.set (_normalize_label (Some l)) (str_id ch) acc)
      | None => handset_label_map rest acc
      end
  end.

(** [[p.strip() for p in raw_value.split(';') if p.strip()]] *)
Definition stripped_parts (sep : ascii) (raw : string) : list string :=
  List.filter Py.nonempty (List.map Py.strip (Py.split sep raw)).

(** [label_map.get(normalized) or '0'] *)
Definition handset_choice (label_map : ODict.t string) (p : string) : string :=
  match ODict.get (_normalize_label (Some p)) label_map with
  | Some nid => if Py.nonempty nid then nid else "0"
  | None => "0"
  end.

(** The loop [for p in parts: ... if nid not in seen: seen.append(nid)]. *)
Fixpoint handset_loop (label_map : ODict.t string) (parts seen : list string)
  : list string :=
  match parts with
  | [] => seen
  | p :: rest =>
      let nid := handset_choice label_map p in
      if bool_decide (nid ∈ seen) then handset_loop label_map rest seen
      else handset_loop label_map rest (seen ++ [nid])
  end.

(** [map_handsets_field_dynamic(raw_value, questions)]; an absent
    [raw_value] is [None]. *)
Definition map_handsets_field_dynamic (raw_value : option string)
    (questions : gmap string question) : list string :=
  match raw_value with
  | None => []
  | Some raw =>
      if negb (Py.nonempty raw) then []
      else
        let parts := stripped_parts ";" raw in
        let chs := match questions !! "159" with
                   | Some q => choices q
                   | None => []
                   end in
        let label_map := handset_label_map chs [] in
        handset_loop label_map parts []
  end.

(** ** form_mapping.py *)

(** The form JSON as far as the pipeline reads it: the questions block under
    [design], when there is one. *)
Record form_json := mkForm {
  design_questions : option (gmap string question)
}.

(** [extract_questions_from_form(form_json)] *)
Definition extract_questions_from_form (f : form_json) : gmap string question :=
  default ∅ (design_questions f).

(** The inner loop of [build_choice_label_to_id_map]. *)
Fixpoint choice_table (chs : list choice) (inner : ODict.t string)
  : ODict.t string :=
  match chs with
  | [] => inner
  | ch :: rest =>
      match label ch, choice_id ch with
      | Some lab, Some cid =>
          if Py.nonempty lab
          then choice_table rest (ODict.set (_normalize_label (Some lab)) cid inner)
          else choice_table rest inner
      | _, _ => choice_table rest inner
      end
  end.

(** [build_choice_label_to_id_map(questions)] *)
Definition build_choice_label_to_id_map (questions : gmap string question)
  : gmap string (ODict.t string) :=
  omap (fun q => match choice_table (choices q) [] with
                 | [] => None
                 | inner => Some inner
                 end) questions.

(** ** transformer.py *)

(** [to_date_obj(value)] *)
Definition to_date_obj (v : value) : option date :=
  match v with
  | VNone => None
  | VDate d => Some d
  | VDateTime d _ => Some d
  | VStr s => Date.strptime_ymd (Py.take 10 s)
  | _ => None
  end.

(** [''.join(ch for ch in s.lower() if ch.isalnum())] *)
Definition normalize (s : string) : string := Py.keep_alnum (Py.lower s).

(** The fuzzy fallback: the first key of the table, in its order, that
    contains the label or is contained in it. *)
Fixpoint fuzzy_loop (norm_label : string) (items : ODict.t string) : option string :=
  match items with
  | [] => None
  | (k_norm, k_id) :: rest =>
      if Py.contains norm_label k_norm || Py.contains k_norm norm_label
      then Some k_id
      else fuzzy_loop norm_label rest
  end.

(** The loop [for label in labels] that collects [choice_ids]. *)
Fixpoint labels_loop (q_choice_map : ODict.t string) (labels choice_ids : list string)
  : list string :=
  match labels with
  | [] => choice_ids
  | lab :: rest =>
      let norm_label := normalize lab in
      match ODict.get norm_label q_choice_map with
      | Some cid =>
          if Py.nonempty cid
          then labels_loop q_choice_map rest (choice_ids ++ [cid])
          else match fuzzy_loop norm_label q_choice_map with
               | Some k_id => labels_loop q_choice_map rest (choice_ids ++ [k_id])
               | None => labels_loop q_choice_map rest choice_ids
               end
      | None =>
          match fuzzy_loop norm_label q_choice_map with
          | Some k_id => labels_loop q_choice_map rest (choice_ids ++ [k_id])
          | None => labels_loop q_choice_map rest choice_ids
          end
      end
  end.

Definition flag_invalid_timeframe (raw : string) : string :=
  "Invalid timeframe: " +:+ raw.
Definition flag_missing_dates : string := "Missing date(s) for temporary request".
Definition flag_date_order : string := "approximateendingdate <= dateneededby".

Section Transformer.

(** [config.DB_TO_QID] and the rendering of a list by [str]. *)
Context (DB_TO_QID : ODict.t string).
Context (repr_list : list (option string) -> string).

Definition str (v : value) : string := Value.str repr_list v.

(** The labels of a choice value: the items of a native list, or the
    comma-separated pieces of its text. *)
Definition choice_labels (v : value) : list string :=
  match v with
  | VList items =>
      List.map (fun x => Py.strip (default "None" x))
               (List.filter truthy_str items)
  | _ => stripped_parts "," (str v)
  end.

(** The body of the loop [for db_col, qid in DB_TO_QID.items()]. *)
Definition map_column (r : row) (questions : gmap string question)
    (choice_map : gmap string (ODict.t string))
    (answers : gmap string answer) (entry : string * string)
  : gmap string answer :=
  let '(db_col, qid) := entry in
  if String.eqb db_col "timeframe" || String.eqb db_col "handsetsandheadsets"
  then answers
  else
    let v := row_get r db_col in
    if Value.is_none v then answers
    else
      let qt := match questions !! qid with Some q => qtype q | None => EmptyString end in
      if bool_decide (qt ∈ ["ts"; "te"; "pg"; "text"])
      then <[ qid := AText (str v) ]> answers
      else if String.eqb qt "da"
      then <[ qid := ADate (match to_date_obj v with
                            | Some d => Date.isoformat d
                            | None => str v
                            end) ]> answers
      else if bool_decide (qt ∈ ["cs"; "cm"])
      then
        let q_choice_map := default [] (choice_map !! qid) in
        match labels_loop q_choice_map (choice_labels v) [] with
        | [] => answers
        | choice_ids => <[ qid := AChoices choice_ids ]> answers
        end
      else <[ qid := AText (str v) ]> answers.

(** [build_form_answers(row, questions, choice_map, tracking)]. It raises
    ([KeyError]) when [DB_TO_QID] has no ['timeframe']; otherwise it returns
    the answers or [None], and the tracking state it may have flagged. *)
Definition build_form_answers (r : row) (questions : gmap string question)
    (choice_map : gmap string (ODict.t string))
    (ds : defaults) (t : tracking)
  : outcome (option (gmap string answer) * (defaults * tracking)) :=
  let email := get_email r in
  match ODict.get "timeframe" DB_TO_QID with
  | None => Raised
  | Some timeframe_qid =>
      let timeframe_raw :=
        Py.strip (str (Value.or (row_get r "timeframe") (VStr EmptyString))) in
      let timeframe_norm := normalize timeframe_raw in
      let timeframe_choice_map := default [] (choice_map !! timeframe_qid) in
      let timeframe_choice_id := ODict.get timeframe_norm timeframe_choice_map in
      if negb (truthy_str timeframe_choice_id)
      then Returned (None, Tracking.set_flagged email
                             (flag_invalid_timeframe timeframe_raw) ds t)
      else
        let answers : gmap string answer :=
          <[ timeframe_qid := AChoices [default EmptyString timeframe_choice_id] ]> ∅ in
        let date_needed := to_date_obj (row_get r "dateneededby") in
        let approx_end := to_date_obj (row_get r "approximateendingdate") in
        let rejected : option string :=
          if String.eqb timeframe_norm "temporary"
          then match date_needed, approx_end with
               | Some dn, Some ae =>
                   if negb (Date.gtb ae dn) then Some flag_date_order else None
               | _, _ => Some flag_missing_dates
               end
          else None in
        match rejected with
        | Some reason =>
            Returned (None, Tracking.set_flagged email reason ds t)
        | None =>
            (* [elif timeframe_norm == 'permanent': approx_end = None]:
               the variable is not read again below. *)
            let approx_end :=
              if String.eqb timeframe_norm "permanent" then None else approx_end in
            Returned (Some (fold_left (map_column r questions choice_map)
                                      DB_TO_QID answers), (ds, t))
        end
  end.

End Transformer.

(** ** tracking_manager.py *)

(** The decision the loop of [filter_rows_for_processing] takes for one
    row. *)
Definition row_selected (last_run_date : option string)
    (processed_emails_same_date : gset string) (r : row) : bool :=
  match to_date_obj (row_get r "createdat") with
  | None => false
  | Some rd =>
      let row_date_str := Date.isoformat rd in
      let email := get_email r in
      match last_run_date with
      | None => true
      | Some last =>
          if Py.str_gt row_date_str last then true
          else if String.eqb row_date_str last
          then match email with
               | Some e =>
                   if negb (Py.nonempty e) then false
                   else negb (bool_decide (e ∈ processed_emails_same_date))
               | None => false
               end
          else false
      end
  end.

(** The loop [for r in rows] with its accumulator [to_process]. *)
Fixpoint filter_loop (last_run_date : option string)
    (processed_emails_same_date : gset string)
    (rows to_process : list row) : list row :=
  match rows with
  | [] => to_process
  | r :: rest =>
      if row_selected last_run_date processed_emails_same_date r
      then filter_loop last_run_date processed_emails_same_date rest (to_process ++ [r])
      else filter_loop last_run_date processed_emails_same_date rest to_process
  end.

(** [filter_rows_for_processing(rows, tracking)] *)
Definition filter_rows_for_processing (rows : list row)
    (ds : defaults) (t : tracking) : list row :=
  let last_run_date := Tracking.watermark t in
  let processed_emails_same_date : gset string :=
    list_to_set (Tracking.processed ds t) in
  filter_loop last_run_date processed_emails_same_date rows [].

(** [sorted(s)] for a set of strings. *)
Definition sorted (s : gset string) : list string :=
  merge_sort String.le (elements s).

(** [finalize_tracking_after_run(tracking, emails_processed_today)], with
    the value [date.today()] returns. *)
Definition finalize_tracking_after_run (today : date) (t : tracking)
    (emails_processed_today : gset string) : tracking :=
  mkTracking (Some (Some (Date.isoformat today)))
             (Some (Own (sorted emails_processed_today)))
             (email_to_issue t) (flagged_requests t) (other_keys t).

(** ** state_manager.py *)

(** The JSON object stored in the tracking file. *)
Record document := mkDocument {
  doc_last_run_date : option (option string);
  doc_processed : option (list string);
  doc_issue : option (gmap string string);
  doc_flagged : option (gmap string string);
  doc_other : gmap string string
}.

(** What [json.load] finds in a file: an object, or some other JSON value. *)
Inductive json_top :=
| JObject (d : document)
| JOther.

(** The condition of the backing file. [FileUnreadable]: it exists but
    opening it or decoding it raises. *)
Inductive file_cond :=
| FileMissing
| FileUnreadable
| FileJSON (j : json_top).

(** [dict(DEFAULT_STATE)]: a new dict whose values are the objects of
    [DEFAULT_STATE] themselves. *)
Definition default_copy : tracking :=
  mkTracking (Some None) (Some Dflt) (Some Dflt) (Some Dflt) ∅.

(** The loop [for k, v in DEFAULT_STATE.items(): data.setdefault(k, ...)]:
    a missing key gets a copy of the default's current content. *)
Definition fill_defaults (ds : defaults) (d : document) : tracking :=
  mkTracking
    (match doc_last_run_date d with Some w => Some w | None => Some None end)
    (match doc_processed d with
     | Some l => Some (Own l)
     | None => Some (Own (d_processed ds))
     end)
    (match doc_issue d with
     | Some m => Some (Own m)
     | None => Some (Own (d_issue ds))
     end)
    (match doc_flagged d with
     | Some m => Some (Own (kmap Some m))
     | None => Some (Own (d_flagged ds))
     end)
    (doc_other d).

(** The [try] block of [read_tracking]. *)
Definition read_tracking_try (ds : defaults) (f : file_cond) : outcome tracking :=
  match f with
  | FileMissing => Returned default_copy
  | FileUnreadable => Raised
  | FileJSON JOther => Raised
  | FileJSON (JObject d) => Returned (fill_defaults ds d)
  end.

(** [read_tracking(path)]: the [try] block under [except Exception]. *)
Definition read_tracking (ds : defaults) (f : file_cond) : outcome tracking :=
  match read_tracking_try ds f with
  | Raised => Returned default_copy
  | Returned t => Returned t
  end.

(** The state a tracking dict denotes: every reference followed. This is
    what [json.dump] serialises. *)
Definition snapshot (ds : defaults) (t : tracking) : tracking :=
  mkTracking (last_run_date t)
    (match processed_emails_same_date t with
     | Some _ => Some (Own (Tracking.processed ds t)) | None => None end)
    (match email_to_issue t with
     | Some _ => Some (Own (Tracking.issues ds t)) | None => None end)
    (match flagged_requests t with
     | Some _ => Some (Own (Tracking.flagged ds t)) | None => None end)
    (other_keys t).

(** The documented default structure. *)
Definition documented_default : tracking :=
  mkTracking (Some None) (Some (Own [])) (Some (Own ∅)) (Some (Own ∅)) ∅.

(** ** jira_helpers.py *)

(** What [requests.get] does: raise a [RequestException], or return a
    response with its status and its body as JSON when it is JSON. *)
Inductive http_result :=
| RequestException
| Response (status : Z) (json : option form_json).

Inductive fetch_result :=
| FetchValueError
| FetchRuntimeError
| FetchOk (f : form_json).

(** The create-request call. *)
Record request := mkRequest {
  req_summary : string;
  req_description : string;
  req_answers : gmap string answer
}.

(** What a run does to the outside, in order. *)
Inductive event :=
| EvGet (url : string)
| EvPost (email : string) (req : request)
| EvWrite (state : tracking)
| EvFinalize.

(** [write_tracking(state, path)]: the state is serialised to the file;
    a failure is logged and swallowed. *)
Definition write_tracking (ds : defaults) (t : tracking) : event :=
  EvWrite (snapshot ds t).

Section Pipeline.

Context (DB_TO_QID : ODict.t string).
Context (repr_list : list (option string) -> string).
Context (CLOUD_ID SERVICE_DESK_ID REQUEST_TYPE_ID : string).

(** The outside world: the clock behind [date.today()], the form endpoint
    behind [requests.get], the create-request call together with the
    extraction of the issue key ([None]: the [try] block raised), and the
    query of [fetch_rows_on_or_after]. *)
Context {World : Type}.
Context (clock : World -> date).
Context (http_get : World -> string -> World * http_result).
Context (create_request_on_jira : World -> request -> World * option string).
Context (fetch_rows_on_or_after : World -> option string -> World * list row).

Definition form_url (cloud_id service_desk_id request_type_id : string) : string :=
  "https://api.atlassian.com/jira/forms/cloud/" +:+ cloud_id
  +:+ "/servicedesk/" +:+ service_desk_id
  +:+ "/requesttype/" +:+ request_type_id +:+ "/form".

(** The loop [for attempt in range(1, 4)]; [gets] counts the calls of
    [requests.get]. *)
Fixpoint fetch_loop (attempts : list nat) (url : string) (w : World) (gets : nat)
  : World * fetch_result * nat :=
  match attempts with
  | [] => (w, FetchRuntimeError, gets)
  | _ :: rest =>
      let '(w', resp) := http_get w url in
      match resp with
      | Response status body =>
          if (status =? 200) || (status =? 201)
          then match body with
               | Some f => (w', FetchOk f, S gets)
               | None => (w', FetchValueError, S gets)
               end
          else fetch_loop rest url w' (S gets)
      | RequestException => fetch_loop rest url w' (S gets)
      end
  end.

(** [fetch_form_definition_cloud(cloud_id, service_desk_id, request_type_id)]:
    the world afterwards, the result, and the number of GET calls made. *)
Definition fetch_form_definition_cloud
    (cloud_id service_desk_id request_type_id : string) (w : World)
  : World * fetch_result * nat :=
  if negb (Py.nonempty cloud_id) || negb (Py.nonempty service_desk_id)
     || negb (Py.nonempty request_type_id)
  then (w, FetchValueError, 0%nat)
  else fetch_loop (seq 1 3) (form_url cloud_id service_desk_id request_type_id) w 0%nat.

(** ** processor.py *)

Definition description_columns : list string :=
  ["newusername"; "phonenumber"; "departmentname"; "job"; "costcenter"; "comments"].

Definition build_description (r : row) : string :=
  let parts :=
    List.map (fun col => col +:+ ": " +:+ str repr_list (row_get r col))
      (List.filter (fun col => Value.truthy (row_get r col)) description_columns) in
  let text := Py.join (String "010" EmptyString) parts in
  if Py.nonempty text then text else "Phone equipment request".

(** [to_date_obj(row.get('createdat')).isoformat() if ... else None] *)
Definition created_iso (r : row) : option string :=
  Date.isoformat <$> to_date_obj (row_get r "createdat").

(** What [process_row] returns: [(tracking, processed, created_iso, email)],
    with the store of [DEFAULT_STATE] as it is then. *)
Record row_result := mkRowResult {
  rr_defaults : defaults;
  rr_tracking : tracking;
  rr_processed : bool;
  rr_created : option string;
  rr_email : option string
}.

(** [process_row(row, tracking, questions, choice_map)]: the world
    afterwards, the create-request calls issued, and the result. A raised
    exception leaves the tracking dict as it was. *)
Definition process_row (r : row) (ds : defaults) (t : tracking)
    (questions : gmap string question)
    (choice_map : gmap string (ODict.t string)) (w : World)
  : World * list event * outcome row_result :=
  match get_email r with
  | None => (w, [], Returned (mkRowResult ds t false None None))
  | Some email =>
      if negb (Py.nonempty email)
      then (w, [], Returned (mkRowResult ds t false None None))
      else if bool_decide (is_Some (Tracking.issues ds t !! email))
      then (w, [], Returned (mkRowResult ds t false None (Some email)))
      else
        let summary :=
          "Phone equipment request - "
          +:+ str repr_list (Value.or (row_get r "newusername") (VStr email)) in
        let description := build_description r in
        match build_form_answers DB_TO_QID repr_list r questions choice_map ds t with
        | Raised => (w, [], Raised)
        | Returned (None, (ds', t')) =>
            (w, [], Returned (mkRowResult ds' t' false (created_iso r) (Some email)))
        | Returned (Some form_answers, (ds', t')) =>
            let handsets_col := "handsetsandheadsets" in
            let with_handsets : outcome (gmap string answer) :=
              match ODict.get handsets_col DB_TO_QID with
              | Some handsets_qid =>
                  if Py.nonempty handsets_qid
                  then
                    let raw_value := row_get r handsets_col in
                    if Value.truthy raw_value
                    then match raw_value with
                         | VStr raw =>
                             match map_handsets_field_dynamic (Some raw) questions with
                             | [] => Returned form_answers
                             | mapped_choice_ids =>
                                 Returned (<[ handsets_qid := AChoices mapped_choice_ids ]>
                                             form_answers)
                             end
                         | _ => Raised
                         end
                    else Returned form_answers
                  else Returned form_answers
              | None => Returned form_answers
              end in
            match with_handsets with
            | Raised => (w, [], Raised)
            | Returned form_answers =>
                let req := mkRequest summary description form_answers in
                let '(w', resp) := create_request_on_jira w req in
                match resp with
                | None =>
                    (w', [EvPost email req],
                     Returned (mkRowResult ds' t' false (created_iso r) (Some email)))
                | Some issue_key =>
                    let '(ds'', t'') := Tracking.set_issue email issue_key ds' t' in
                    (w', [EvPost email req],
                     Returned (mkRowResult ds'' t'' true (created_iso r) (Some email)))
                end
            end
        end
  end.

(** ** main.py *)

(** The loop [for row in rows_to_process]. *)
Fixpoint process_rows (rows : list row) (questions : gmap string question)
    (choice_map : gmap string (ODict.t string))
    (ds : defaults) (t : tracking) (emails_processed_today : gset string)
    (w : World) (log : list event)
  : World * list event * (defaults * tracking) * gset string :=
  match rows with
  | [] => (w, log, (ds, t), emails_processed_today)
  | r :: rest =>
      match process_row r ds t questions choice_map w with
      | (w', posts, Raised) =>
          process_rows rest questions choice_map ds t emails_processed_today
                       w' (log ++ posts)
      | (w', posts, Returned res) =>
          let ds' := rr_defaults res in
          let t' := rr_tracking res in
          let log' := log ++ posts ++ [write_tracking ds' t'] in
          let emails' :=
            match rr_created res, rr_email res with
            | Some row_date_str, Some email =>
                if rr_processed res
                   && String.eqb row_date_str (Date.isoformat (clock w'))
                   && Py.nonempty email
                then {[ email ]} ∪ emails_processed_today
                else emails_processed_today
            | _, _ => emails_processed_today
            end in
          process_rows rest questions choice_map ds' t' emails' w' log'
      end
  end.

(** The loop submits the row at position [i] with success, for the key
    [e], on the day the row is dated. *)
Definition submits_today (rows : list row) (questions : gmap string question)
    (choice_map : gmap string (ODict.t string))
    (ds : defaults) (t : tracking) (w : World) (i : nat) (e : string) : Prop :=
  exists r, rows !! i = Some r
    /\ let '(wi, _, (dsi, ti), _) :=
         process_rows (take i rows) questions choice_map ds t ∅ w [] in
       exists w' posts res,
         process_row r dsi ti questions choice_map wi = (w', posts, Returned res)
         /\ rr_processed res = true /\ rr_email res = Some e
         /\ rr_created res = Some (Date.isoformat (clock w')).

(** How [main()] ends. *)
Inductive exit :=
| ExitFetchError
| ExitNoRows
| ExitComplete.

Record run := mkRun {
  run_exit : exit;
  run_events : list event;
  run_defaults : defaults;
  run_tracking : tracking;
  run_world : World
}.

(** [main()], started with the backing file in condition [f]. *)
Definition main (ds : defaults) (f : file_cond) (w : World) : run :=
  let t := match read_tracking ds f with
           | Returned t => t
           | Raised => default_copy
           end in
  let '(w1, fetched, gets) :=
    fetch_form_definition_cloud CLOUD_ID SERVICE_DESK_ID REQUEST_TYPE_ID w in
  let log0 :=
    repeat (EvGet (form_url CLOUD_ID SERVICE_DESK_ID REQUEST_TYPE_ID)) gets in
  match fetched with
  | FetchValueError | FetchRuntimeError => mkRun ExitFetchError log0 ds t w1
  | FetchOk form =>
      let questions := extract_questions_from_form form in
      let choice_map := build_choice_label_to_id_map questions in
      let '(w2, rows) := fetch_rows_on_or_after w1 (Tracking.watermark t) in
      let rows_to_process := filter_rows_for_processing rows ds t in
      match rows_to_process with
      | [] => mkRun ExitNoRows log0 ds t w2
      | _ =>
          let '(w3, log, (ds', t'), emails_processed_today) :=
            process_rows rows_to_process questions choice_map ds t ∅ w2 log0 in
          let t'' := finalize_tracking_after_run (clock w3) t' emails_processed_today in
          mkRun ExitComplete
                (log ++ [EvFinalize; write_tracking ds' t'']) ds' t'' w3
      end
  end.

End Pipeline.

(** ** The selection rule of the incremental filter, in words of dates *)

(** "The row's identity key is absent from [processed_emails_same_date]". *)
Definition key_absent (email : option string) (processed : list string) : bool :=
  match email with
  | Some e => negb (bool_decide (e ∈ processed))
  | None => true
  end.

(** The rule with the same-date case decided by absence of the key alone. *)
Definition rule_by_key_absence (wm : option date) (processed : list string)
    (r : row) : bool :=
  match to_date_obj (row_get r "createdat") with
  | None => false
  | Some rd =>
      match wm with
      | None => true
      | Some w =>
          if Date.gtb rd w then true
          else if Date.eqb rd w then key_absent (get_email r) processed
          else false
      end
  end.

(** The rule with the same-date case asking for an identity key as well. *)
Definition selection_rule (wm : option date) (processed : list string)
    (r : row) : bool :=
  match to_date_obj (row_get r "createdat") with
  | None => false
  | Some rd =>
      match wm with
      | None => true
      | Some w =>
          if Date.gtb rd w then true
          else if Date.eqb rd w
          then truthy_str (get_email r) && key_absent (get_email r) processed
          else false
      end
  end.

(** A row with the given text in [createdat] and the given [emailaddress]. *)
Definition sample_row (created : string) (email : option string) : row :=
  mkRow (match email with Some e => {[ "emailaddress" := e ]} | None => ∅ end)
        {[ "createdat" := VStr created ]}.

(** A tracking state with the given watermark and same-date keys. *)
Definition sample_tracking (wm : option string) (processed : list string) : tracking :=
  mkTracking (Some wm) (Some (Own processed)) (Some (Own ∅)) (Some (Own ∅)) ∅.

(** ** Duplicate suppression in first-seen order *)

(** The list without its repetitions: each value stays where it first
    occurs. *)
Fixpoint first_seen (l : list string) : list string :=
  match l with
  | [] => []
  | x :: l' => x :: List.filter (fun y => negb (String.eqb y x)) (first_seen l')
  end.

(** The label-to-id table of the handset question (question ["159"]). *)
Definition handset_table (questions : gmap string question) : ODict.t string :=
  handset_label_map
    (match questions !! "159" with Some q => choices q | None => [] end) [].

(** The last choice of a list whose label normalises to [k]. *)
Definition last_labelled (k : string) (chs : list choice) : option choice :=
  List.find (fun ch => match label ch with
                       | Some l => String.eqb k (_normalize_label (Some l))
                       | None => false
                       end) (rev chs).

(** The handset question of the example: two choices. *)
Definition sample_handset_questions : gmap string question :=
  {[ "159" := mkQuestion "cm"
       [ mkChoice (Some "Cordless handset") (Some "10");
         mkChoice (Some "Mobile phone") (Some "11") ] ]}.

(** ** Helpers for the statements about [build_form_answers] *)

(** The normalised timeframe of a row, as [build_form_answers] computes it. *)
Definition timeframe_norm_of (repr_list : list (option string) -> string)
    (r : row) : string :=
  normalize (Py.strip (str repr_list (Value.or (row_get r "timeframe") (VStr EmptyString)))).

(** The row with one of its (non-identity) cells replaced. *)
Definition with_cell (r : row) (col : string) (v : value) : row :=
  mkRow (identity r) (<[ col := v ]> (cells r)).

(** Two calls agree on acceptance and on the tracking state they leave. *)
Definition same_decision {A}
    (a b : outcome (option A * (defaults * tracking))) : Prop :=
  match a, b with
  | Raised, Raised => True
  | Returned (x, s), Returned (y, s') => s = s' /\ (is_Some x <-> is_Some y)
  | _, _ => False
  end.

(** A configuration and a form for the examples: the timeframe question
    ["1"] with two choices, two date questions and a single-choice one. *)
Definition sample_DB_TO_QID : ODict.t string :=
  [ ("timeframe", "1"); ("dateneededby", "2"); ("approximateendingdate", "3");
    ("departmentname", "4"); ("handsetsandheadsets", "159") ].

Definition sample_questions : gmap string question :=
  {[ "1" := mkQuestion "cs"
       [ mkChoice (Some "Temporary") (Some "100");
         mkChoice (Some "Permanent") (Some "101") ];
     "2" := mkQuestion "da" [];
     "3" := mkQuestion "da" [];
     "4" := mkQuestion "cs"
       [ mkChoice (Some "Human Resources") (Some "40");
         mkChoice (Some "Information Technology") (Some "41") ];
     "159" := mkQuestion "cm"
       [ mkChoice (Some "Cordless handset") (Some "10");
         mkChoice (Some "Mobile phone") (Some "11") ] ]}.

Definition sample_repr (l : list (option string)) : string := "[...]".

(** A request row for [a@x.com] with the given timeframe and dates. *)
Definition sample_request (timeframe needed ending : string) : row :=
  mkRow {[ "emailaddress" := "a@x.com" ]}
        {[ "timeframe" := VStr timeframe;
           "dateneededby" := VStr needed;
           "approximateendingdate" := VStr ending;
           "createdat" := VStr "2024-05-01" ]}.

(** ** Matching of choice tokens, as the specification describes it *)

(** The first key of the table, in its order, that contains the token or is
    contained in it, gives the id. *)
Definition substring_match (table : ODict.t string) (norm : string) : option string :=
  snd <$> List.find (fun kv => Py.contains norm kv.1 || Py.contains kv.1 norm) table.

(** Exact normalised lookup first, substring match otherwise. *)
Definition token_match (table : ODict.t string) (token : string) : option string :=
  match ODict.get (normalize token) table with
  | Some cid => Some cid
  | None => substring_match table (normalize token)
  end.

(** What the code does when the table may hold an empty id: an exact hit
    with an empty id is passed over. *)
Definition token_match_nonempty (table : ODict.t string) (token : string)
  : option string :=
  match ODict.get (normalize token) table with
  | Some cid =>
      if Py.nonempty cid then Some cid
      else substring_match table (normalize token)
  | None => substring_match table (normalize token)
  end.

(** The ids of the tokens that match, in order; the others are dropped. *)
Definition matched_ids (table : ODict.t string) (tokens : list string) : list string :=
  omap (token_match table) tokens.

(** No id of the table is the empty string. *)
Definition ids_nonempty (table : ODict.t string) : bool :=
  forallb (fun kv => Py.nonempty kv.2) table.

(** [col] is a column of [DB_TO_QID] mapped to question [qid], and the only
    one mapped to it. *)
Definition sole_column (DB_TO_QID : ODict.t string) (col qid : string) : bool :=
  existsb (fun e => String.eqb e.1 col && String.eqb e.2 qid) DB_TO_QID
  && forallb (fun e => implb (String.eqb e.2 qid) (String.eqb e.1 col)) DB_TO_QID.

(** What one turn of the loop over [DB_TO_QID] stores under the key of its
    question, if it stores anything. *)
Definition column_answer (repr_list : list (option string) -> string)
    (r : row) (questions : gmap string question)
    (choice_map : gmap string (ODict.t string)) (col qid : string)
  : option answer :=
  if String.eqb col "timeframe" || String.eqb col "handsetsandheadsets"
  then None
  else
    let v := row_get r col in
    if Value.is_none v then None
    else
      let qt := match questions !! qid with Some q => qtype q | None => EmptyString end in
      if bool_decide (qt ∈ ["ts"; "te"; "pg"; "text"])
      then Some (AText (str repr_list v))
      else if String.eqb qt "da"
      then Some (ADate (match to_date_obj v with
                        | Some d => Date.isoformat d
                        | None => str repr_list v
                        end))
      else if bool_decide (qt ∈ ["cs"; "cm"])
      then match labels_loop (default [] (choice_map !! qid))
                   (choice_labels repr_list v) [] with
           | [] => None
           | choice_ids => Some (AChoices choice_ids)
           end
      else Some (AText (str repr_list v)).

(** A row of the examples with a department text. *)
Definition sample_department_row (dept : string) : row :=
  mkRow {[ "emailaddress" := "a@x.com" ]}
        {[ "timeframe" := VStr "Permanent";
           "departmentname" := VStr dept;
           "createdat" := VStr "2024-05-01" ]}.

Definition sample_choice_map : gmap string (ODict.t string) :=
  build_choice_label_to_id_map sample_questions.

(** ** The retry loop of the form fetch *)

(** A response ends the retry loop when its status is 200 or 201. *)
Definition status_ok (r : http_result) : bool :=
  match r with
  | RequestException => false
  | Response status _ => (status =? 200) || (status =? 201)
  end.

(** What the call does with a response of status 200 or 201. *)
Definition verdict (r : http_result) : fetch_result :=
  match r with
  | Response _ (Some f) => FetchOk f
  | _ => FetchValueError
  end.

(** ** A scripted world for the examples *)

(** The world of the examples: the number of GET calls made so far, the
    scripted answers of the form endpoint, the scripted results of the
    create-request calls still to come, the rows of the table, and the
    day. *)
Record script := mkScript {
  sc_gets : nat;
  sc_http : list http_result;
  sc_jira : list (option string);
  sc_table : list row;
  sc_today : date
}.

Definition script_http_get (w : script) (url : string) : script * http_result :=
  (mkScript (S (sc_gets w)) (sc_http w) (sc_jira w) (sc_table w) (sc_today w),
   nth (sc_gets w) (sc_http w) RequestException).

Definition script_jira_create (w : script) (req : request) : script * option string :=
  match sc_jira w with
  | [] => (w, None)
  | res :: rest =>
      (mkScript (sc_gets w) (sc_http w) rest (sc_table w) (sc_today w), res)
  end.

Definition script_db_rows (w : script) (start : option string) : script * list row :=
  (w, sc_table w).

Definition sample_form : form_json := mkForm (Some sample_questions).

Definition script_clock (w : script) : date := sc_today w.

(** [main] on the scripted world, with the sample configuration. *)
Definition sample_main (ds : defaults) (f : file_cond) (w : script) : run :=
  main sample_DB_TO_QID sample_repr "cloud-1" "7" "42"
       script_clock script_http_get script_jira_create script_db_rows ds f w.

(** A permanent request of the given key, created on the given day. *)
Definition sample_permanent (email created : string) : row :=
  mkRow {[ "emailaddress" := email ]}
        {[ "timeframe" := VStr "Permanent";
           "newusername" := VStr "New User";
           "createdat" := VStr created ]}.

(** A temporary request without its dates. *)
Definition sample_undated (email created : string) : row :=
  mkRow {[ "emailaddress" := email ]}
        {[ "timeframe" := VStr "Temporary"; "createdat" := VStr created ]}.

(** The kind of an event, with the key of a create-request call. *)
Inductive event_kind :=
| KGet
| KPost (email : string)
| KWrite
| KFinalize.

Definition kind_of (ev : event) : event_kind :=
  match ev with
  | EvGet _ => KGet
  | EvPost email _ => KPost email
  | EvWrite _ => KWrite
  | EvFinalize => KFinalize
  end.

(** A first run on 2024-05-02 over five rows: two tickets are created, one
    create-request call fails, one row repeats a key, one row is flagged. *)
Definition sample_world : script :=
  mkScript 0 [Response 200 (Some sample_form)]
    [Some "KEY-1"; Some "KEY-2"; None]
    [ sample_permanent "a@x.com" "2024-05-02";
      sample_permanent "b@x.com" "2024-05-01";
      sample_permanent "c@x.com" "2024-05-02";
      sample_permanent "a@x.com" "2024-05-02";
      sample_undated "d@x.com" "2024-05-02" ]
    D(2024, 5, 2).

(** The same day, with an empty table. *)
Definition sample_world_no_rows : script :=
  mkScript 0 [Response 200 (Some sample_form)] [] [] D(2024, 5, 2).

(** ** Normalising, trimming and splitting, in the words of the specification *)

(** "Lowercase, strip non-alphanumerics": the alphanumeric characters of the
    text, in their order, each in lower case. *)
Definition lowercase_alphanumerics (s : string) : string :=
  string_of_list_ascii
    (List.map Py.lower_char
       (List.filter Py.isalnum (list_ascii_of_string s))).

(** The text consists of whitespace only (the empty text does). *)
Fixpoint whitespace_only (s : string) : bool :=
  match s with
  | EmptyString => true
  | String c s' => Py.isspace c && whitespace_only s'
  end.

Definition first_char (s : string) : option ascii :=
  match s with
  | EmptyString => None
  | String c _ => Some c
  end.

Fixpoint last_char (s : string) : option ascii :=
  match s with
  | EmptyString => None
  | String c EmptyString => Some c
  | String _ s' => last_char s'
  end.

(** The text neither begins nor ends with whitespace. *)
Definition trimmed (s : string) : bool :=
  match first_char s, last_char s with
  | Some a, Some b => negb (Py.isspace a) && negb (Py.isspace b)
  | _, _ => true
  end.

(** "Trimmed": [t] is the text [s] without the whitespace at its two
    ends. *)
Definition trimming_of (s t : string) : Prop :=
  exists a b, s = a +:+ t +:+ b
    /\ whitespace_only a = true /\ whitespace_only b = true
    /\ trimmed t = true.

(** The separator does not occur in the text. *)
Fixpoint free_of (sep : ascii) (s : string) : bool :=
  match s with
  | EmptyString => true
  | String c s' => negb (Ascii.eqb c sep) && free_of sep s'
  end.

(** Every character of the text is an ASCII character. *)
Fixpoint is_ascii (s : string) : bool :=
  match s with
  | EmptyString => true
  | String c s' => (Py.code c <? 128)%N && is_ascii s'
  end.

(** ** A form with a choice whose id is the empty text *)

Definition empty_id_questions : gmap string question :=
  {[ "1" := mkQuestion "cs"
       [ mkChoice (Some "Temporary") (Some "100");
         mkChoice (Some "Permanent") (Some "101") ];
     "4" := mkQuestion "cs"
       [ mkChoice (Some "Human") (Some "44");
         mkChoice (Some "Human Resources") (Some EmptyString) ] ]}.

(** ** jira_helpers.py: the create-request call *)

Module Jira.

(** The [request] member of the response as [process_row] reads it: a falsy
    value (absent, [null], an empty object), a non-empty object with its
    [issueKey] member, or a truthy value that is not an object. *)
Inductive request_member :=
| MemberFalsy
| MemberObject (issueKey : option string)
| MemberOther.

(** A JSON object returned by the endpoint, as a typed view: the three text
    members [process_row] reads ([None]: absent or [null]), the [request]
    member, and [str(resp)], which for a dict is an opening brace followed
    by [resp_repr_tail]. *)
Record response := mkResponse {
  resp_issueKey : option string;
  resp_request : request_member;
  resp_key : option string;
  resp_requestNumber : option string;
  resp_repr_tail : string
}.

(** What [resp.json()] returns: an object, or another JSON value. *)
Inductive json :=
| JDict (r : response)
| JNotDict.

(** What [requests.post] does: raise, or return a response with its status
    and its body as JSON when it is JSON. *)
Inductive post_result :=
| PostException
| PostResponse (status : Z) (body : option json).

(** The JSON payload of the call. *)
Record payload := mkPayload {
  form_answers : gmap string answer;
  isAdfRequest : bool;
  summary : string;
  description : string;
  requestTypeId : string;
  serviceDeskId : string
}.

Definition request_url (site_domain : string) : string :=
  "https://" +:+ site_domain +:+ "/rest/servicedeskapi/request".

(** [resp.raise_for_status()]: an [HTTPError] for a status from 400 to
    599, nothing otherwise. *)
Definition raise_for_status (status : Z) : outcome unit :=
  if (400 <=? status) && (status <? 600) then Raised else Returned tt.

(** [str(resp)] for an object. *)
Definition repr (r : response) : string := String "{" (resp_repr_tail r).

(** The expression
    [resp.get('issueKey') or (resp.get('request') and
     resp['request'].get('issueKey')) or resp.get('key') or
     resp.get('requestNumber') or str(resp)[:200]];
    it raises ([AttributeError]) when [resp] is no object, and when the
    [request] member is reached and is a truthy value without [get]. *)
Definition issue_key (resp : json) : outcome string :=
  match resp with
  | JNotDict => Raised
  | JDict r =>
      let first : outcome (option string) :=
        if truthy_str (resp_issueKey r) then Returned (resp_issueKey r)
        else match resp_request r with
             | MemberFalsy => Returned None
             | MemberObject k => Returned k
             | MemberOther => Raised
             end in
      match first with
      | Raised => Raised
      | Returned a =>
          let k := or_str (or_str a (resp_key r)) (resp_requestNumber r) in
          Returned (if truthy_str k then default EmptyString k
                    else Py.take 200 (repr r))
      end
  end.

Section Call.

Context {World : Type}.
Context (http_post : World -> string -> payload -> World * post_result).
Context (SITE_DOMAIN SERVICE_DESK_ID REQUEST_TYPE_ID : string).

(** [create_request_on_jira(site_domain, service_desk_id, request_type_id,
    summary, description, form_answers)] *)
Definition create_request_on_jira
    (site_domain service_desk_id request_type_id summary description : string)
    (form_answers : gmap string answer) (w : World) : World * outcome json :=
  let url := request_url site_domain in
  let payload :=
    mkPayload form_answers false summary description
              request_type_id service_desk_id in
  let '(w', resp) := http_post w url payload in
  match resp with
  | PostException => (w', Raised)
  | PostResponse status body =>
      let parsed := match body with Some j => Returned j | None => Raised end in
      if negb ((status =? 200) || (status =? 201))
      then match raise_for_status status with
           | Raised => (w', Raised)
           | Returned _ => (w', parsed)
           end
      else (w', parsed)
  end.

(** The [try] block of [process_row]: the call and the extraction of the
    issue key; [None] when either raises. *)
Definition submit (w : World) (req : request) : World * option string :=
  let '(w', r) :=
    create_request_on_jira SITE_DOMAIN SERVICE_DESK_ID REQUEST_TYPE_ID
      (req_summary req) (req_description req) (req_answers req) w in
  (w', match r with
       | Raised => None
       | Returned resp =>
           match issue_key resp with
           | Raised => None
           | Returned k => Some k
           end
       end).

End Call.

End Jira.

(** ** state_manager.py: what [write_tracking] stores *)

(** The member name [json.dump] writes for a key of [flagged_requests]:
    the key [None] becomes [null]. *)
Definition json_key (k : option string) : string := default "null" k.

(** The JSON object that [json.dump(state, fh, indent=2, ensure_ascii=False)]
    writes, as [json.load] reads it back. A state with both the key [None]
    and the key ['null'] in [flagged_requests] gives the member [null]
    twice, of which a reader keeps one; the statements about [dump] are for
    states without the key [None]. *)
Definition dump (ds : defaults) (t : tracking) : document :=
  mkDocument (last_run_date t)
    (match processed_emails_same_date t with
     | Some _ => Some (Tracking.processed ds t) | None => None end)
    (match email_to_issue t with
     | Some _ => Some (Tracking.issues ds t) | None => None end)
    (match flagged_requests t with
     | Some _ => Some (kmap json_key (Tracking.flagged ds t)) | None => None end)
    (other_keys t).

(** The backing file after a [write_tracking] that did not fail. *)
Definition written (ds : defaults) (t : tracking) : file_cond :=
  FileJSON (JObject (dump ds t)).

(** The dict has the four documented keys. *)
Definition has_all_keys (t : tracking) : bool :=
  match last_run_date t, processed_emails_same_date t,
        email_to_issue t, flagged_requests t with
  | Some _, Some _, Some _, Some _ => true
  | _, _, _, _ => false
  end.

(** No entry of [flagged_requests] is filed under [None]. *)
Definition flagged_keys_are_text (ds : defaults) (t : tracking) : bool :=
  bool_decide (Tracking.flagged ds t !! None = None).

(** ** Shapes of strings, tables and logs *)

(** Every character of the string satisfies [p]. *)
Fixpoint string_forall (p : ascii -> bool) (s : string) : bool :=
  match s with
  | EmptyString => true
  | String c s' => p c && string_forall p s'
  end.

(** A choice that [build_choice_label_to_id_map] enters into its table: it
    has a non-empty label and an id. *)
Definition usable (ch : choice) : bool :=
  truthy_str (label ch) && bool_decide (is_Some (choice_id ch)).

(** The last usable choice of a list whose label normalises to [k]. *)
Definition last_usable (k : string) (chs : list choice) : option choice :=
  List.find (fun ch => usable ch && String.eqb k (_normalize_label (label ch)))
            (rev chs).

(** No choice of a question of the form has the empty text as its id. *)
Definition choice_ids_nonempty (questions : gmap string question) : bool :=
  forallb (fun kq : string * question =>
             forallb (fun ch => negb (bool_decide (choice_id ch = Some EmptyString)))
                     (choices kq.2))
          (map_to_list questions).

(** The choices of the handset question. *)
Definition handset_choices (questions : gmap string question) : list choice :=
  match questions !! "159" with Some q => choices q | None => [] end.

(** The log of the row loop is a sequence of turns: a create-request call,
    if one was made, and then a write of the tracking file. [pending] says
    that a call still waits for its write. *)
Fixpoint turns_from (pending : bool) (log : list event) : bool :=
  match log with
  | [] => negb pending
  | EvWrite _ :: rest => turns_from false rest
  | EvPost _ _ :: rest => negb pending && turns_from true rest
  | _ => false
  end.

Definition turns (log : list event) : bool := turns_from false log.

(** The log has a create-request call for the key [e]. *)
Definition posted (e : string) (log : list event) : bool :=
  existsb (fun ev => match ev with
                     | EvPost e' _ => String.eqb e' e
                     | _ => false
                     end) log.

Definition is_post (ev : event) : bool :=
  match ev with EvPost _ _ => true | _ => false end.

Definition is_get (ev : event) : bool :=
  match ev with EvGet _ => true | _ => false end.

(** ** A scripted create-request endpoint for the examples *)

(** The endpoint answers every call with the same result. *)
Definition constant_post (res : Jira.post_result)
    (w : script) (url : string) (p : Jira.payload) : script * Jira.post_result :=
  (w, res).

Definition sample_response : Jira.response :=
  Jira.mkResponse None (Jira.MemberObject (Some "SD-7")) (Some "10007") None
    "'request': {'issueKey': 'SD-7'}, 'key': '10007'}".
Example lower_ex : Py.lower "Mobile Phone" = "mobile phone".
Proof. reflexivity. Qed.

Example strip_ex : Py.strip "  Mobile phone " = "Mobile phone".
Proof. reflexivity. Qed.

Example split_ex : Py.split ";" "a; b;;c" = ["a"; " b"; EmptyString; "c"].
Proof. reflexivity. Qed.

Example split_empty_ex : Py.split ";" EmptyString = [EmptyString].
Proof. reflexivity. Qed.

Example contains_ex :
  Py.contains "phone" "mobilephone" = true /\ Py.contains EmptyString "abc" = true
  /\ Py.contains "x" "abc" = false.
Proof. repeat split; reflexivity. Qed.

Example isoformat_ex : Date.isoformat D(2024, 5, 1) = "2024-05-01".
Proof. reflexivity. Qed.

Example isoformat_small_year : Date.isoformat D(33, 12, 25) = "0033-12-25".
Proof. reflexivity. Qed.

Example strptime_ex :
  Date.strptime_ymd "2024-05-01" = Some D(2024, 5, 1)
  /\ Date.strptime_ymd "2024-5-1" = Some D(2024, 5, 1)
  /\ Date.strptime_ymd "2024-02-30" = None
  /\ Date.strptime_ymd "2024-02-29" = Some D(2024, 2, 29)
  /\ Date.strptime_ymd "2023-02-29" = None
  /\ Date.strptime_ymd "0000-01-01" = None
  /\ Date.strptime_ymd "2024-5-1 1" = None
  /\ Date.strptime_ymd "01/05/2024" = None.
Proof. repeat split; reflexivity. Qed.

Example strptime_more :
  Date.strptime_ymd "2024-05- 5" = Some D(2024, 5, 5)
  /\ Date.strptime_ymd "2024- 5-05" = None
  /\ Date.strptime_ymd "2024-05-1 " = None
  /\ Date.strptime_ymd "2024-13-01" = None
  /\ Date.strptime_ymd "2024-00-10" = None
  /\ Date.strptime_ymd "2024-10-00" = None
  /\ Date.strptime_ymd "2024-1-31" = Some D(2024, 1, 31)
  /\ Date.strptime_ymd "2024-05-32" = None
  /\ Date.strptime_ymd "2024-05-3" = Some D(2024, 5, 3)
  /\ Date.strptime_ymd "2024-5-31x" = None
  /\ Date.strptime_ymd "0001-01-01" = Some D(1, 1, 1)
  /\ Date.strptime_ymd "9999-12-31" = Some D(9999, 12, 31).
Proof. repeat split; reflexivity. Qed.

Example to_date_obj_ex :
  to_date_obj (VStr "2024-05-01T10:00") = Some D(2024, 5, 1)
  /\ to_date_obj (VStr "2024-05-01 ") = Some D(2024, 5, 1)
  /\ to_date_obj (VStr " 2024-05-01") = None
  /\ to_date_obj (VStr "2024-5-1 12:00") = None
  /\ to_date_obj (VDateTime D(2024, 5, 1) "10:00:00") = Some D(2024, 5, 1)
  /\ to_date_obj (VInt 20240501) = None
  /\ to_date_obj VNone = None.
Proof. repeat split; reflexivity. Qed.

Example str_ex :
  Value.str (fun _ => "[]") (VInt 0) = "0"
  /\ Value.str (fun _ => "[]") (VInt (-5)) = "-5"
  /\ Value.str (fun _ => "[]") (VInt 12) = "12"
  /\ Value.str (fun _ => "[]") (VDateTime D(2024, 5, 1) "10:00:00")
     = "2024-05-01 10:00:00".
Proof. repeat split; reflexivity. Qed.

(** ** The order of ISO dates

    [filter_rows_for_processing] compares the ISO renderings of two dates as
    strings; on [date] objects this is the calendar order. *)

Section DateOrder.

Lemma append_String c s t : String c s +:+ t = String c (s +:+ t).
Proof. reflexivity. Qed.

Lemma append_Empty t : EmptyString +:+ t = t.
Proof. reflexivity. Qed.

Lemma code_digit_char n : Py.code (Py.digit_char n) = (48 + Z.to_N (n mod 10))%N.
Proof.
  unfold Py.code, Py.digit_char. apply N_ascii_embedding.
  pose proof (Z.mod_pos_bound n 10 eq_refl). lia.
Qed.

Lemma compare_digit_char a b :
  Ascii.compare (Py.digit_char a) (Py.digit_char b) = (a mod 10 ?= b mod 10).
Proof.
  unfold Ascii.compare.
  fold (Py.code (Py.digit_char a)) (Py.code (Py.digit_char b)).
  rewrite !code_digit_char.
  pose proof (Z.mod_pos_bound a 10 eq_refl).
  pose proof (Z.mod_pos_bound b 10 eq_refl).
  destruct (Z.compare_spec (a mod 10) (b mod 10)).
  - apply N.compare_eq_iff. lia.
  - apply N.compare_lt_iff. lia.
  - apply N.compare_gt_iff. lia.
Qed.

Ltac split_digit_compares :=
  repeat match goal with
  | |- context [?x ?= ?y] => destruct (Z.compare_spec x y)
  end; try reflexivity; exfalso; Z.div_mod_to_equations; lia.

Lemma compare_pad4 a b s t :
  0 <= a <= 9999 -> 0 <= b <= 9999 ->
  String.compare (Date.pad4 a +:+ s) (Date.pad4 b +:+ t)
  = match a ?= b with Eq => String.compare s t | c => c end.
Proof.
  intros Ha Hb. unfold Date.pad4.
  rewrite !append_String, !append_Empty. cbn [String.compare].
  rewrite !compare_digit_char.
  destruct (Z.compare_spec a b); split_digit_compares.
Qed.

Lemma compare_pad2 a b s t :
  0 <= a <= 99 -> 0 <= b <= 99 ->
  String.compare (Date.pad2 a +:+ s) (Date.pad2 b +:+ t)
  = match a ?= b with Eq => String.compare s t | c => c end.
Proof.
  intros Ha Hb. unfold Date.pad2.
  rewrite !append_String, !append_Empty. cbn [String.compare].
  rewrite !compare_digit_char.
  destruct (Z.compare_spec a b); split_digit_compares.
Qed.

Lemma date_bounds (d : date) :
  1 <= year d <= 9999 /\ 1 <= month d <= 12 /\ 1 <= day d <= 31.
Proof.
  destruct d as [y m dd ok]; cbn.
  unfold valid_ymd in ok.
  repeat (apply andb_prop_elim in ok; destruct ok as [ok ?]).
  repeat match goal with H : Is_true (_ <=? _) |- _ =>
    apply Is_true_eq_true, Z.leb_le in H end.
  assert (days_in_month y m <= 31).
  { unfold days_in_month. repeat case_match; lia. }
  lia.
Qed.

Lemma compare_isoformat d1 d2 :
  String.compare (Date.isoformat d1) (Date.isoformat d2) = Date.compare d1 d2.
Proof.
  pose proof (date_bounds d1) as (Hy1 & Hm1 & Hd1).
  pose proof (date_bounds d2) as (Hy2 & Hm2 & Hd2).
  unfold Date.isoformat, Date.compare.
  rewrite compare_pad4 by lia.
  destruct (year d1 ?= year d2); try reflexivity.
  rewrite ?append_String, ?append_Empty. cbn [String.compare].
  replace (Ascii.compare "-" "-") with Eq by reflexivity.
  rewrite compare_pad2 by lia.
  destruct (month d1 ?= month d2); try reflexivity.
  rewrite ?append_String, ?append_Empty. cbn [String.compare].
  replace (Ascii.compare "-" "-") with Eq by reflexivity.
  replace (Date.pad2 (day d1)) with (Date.pad2 (day d1) +:+ EmptyString) by reflexivity.
  replace (Date.pad2 (day d2)) with (Date.pad2 (day d2) +:+ EmptyString) by reflexivity.
  rewrite compare_pad2 by lia.
  destruct (day d1 ?= day d2); reflexivity.
Qed.

Lemma string_compare_refl s : String.compare s s = Eq.
Proof.
  induction s as [|c s IH]; cbn; [reflexivity|].
  unfold Ascii.compare. rewrite N.compare_refl. exact IH.
Qed.

Lemma date_ext d1 d2 :
  year d1 = year d2 -> month d1 = month d2 -> day d1 = day d2 -> d1 = d2.
Proof.
  destruct d1 as [y1 m1 a1 ok1], d2 as [y2 m2 a2 ok2]; cbn.
  intros -> -> ->. f_equal. apply proof_irrel.
Qed.

Lemma date_eqb_eq d1 d2 : Date.eqb d1 d2 = true <-> d1 = d2.
Proof.
  unfold Date.eqb. split.
  - intros H. apply andb_prop in H as [H H3]. apply andb_prop in H as [H1 H2].
    apply date_ext; lia.
  - intros ->. rewrite !Z.eqb_refl. reflexivity.
Qed.

(** String [>] on ISO renderings is [>] on the dates. *)
Lemma str_gt_isoformat d1 d2 :
  Py.str_gt (Date.isoformat d1) (Date.isoformat d2) = Date.gtb d1 d2.
Proof.
  unfold Py.str_gt, String.ltb. rewrite compare_isoformat.
  unfold Date.compare, Date.gtb, Date.ltb.
  destruct (Z.compare_spec (year d2) (year d1));
    destruct (Z.compare_spec (month d2) (month d1));
    destruct (Z.compare_spec (day d2) (day d1));
    repeat match goal with
    | |- context [?a <? ?b] => destruct (Z.ltb_spec a b)
    | |- context [?a =? ?b] => destruct (Z.eqb_spec a b)
    end; cbn; try reflexivity; lia.
Qed.

(** String [==] on ISO renderings is [==] on the dates. *)
Lemma str_eqb_isoformat d1 d2 :
  String.eqb (Date.isoformat d1) (Date.isoformat d2) = Date.eqb d1 d2.
Proof.
  destruct (String.eqb_spec (Date.isoformat d1) (Date.isoformat d2)) as [E|N].
  - assert (C : String.compare (Date.isoformat d1) (Date.isoformat d2) = Eq).
    { rewrite E. apply string_compare_refl. }
    clear E. rename C into E. rewrite compare_isoformat in E.
    unfold Date.compare in E. symmetry. apply date_eqb_eq.
    destruct (Z.compare_spec (year d1) (year d2)); try discriminate.
    destruct (Z.compare_spec (month d1) (month d2)); try discriminate.
    apply Z.compare_eq in E. apply date_ext; assumption.
  - destruct (Date.eqb d1 d2) eqn:E; [|reflexivity].
    apply date_eqb_eq in E. subst. contradiction.
Qed.

Lemma isoformat_inj d1 d2 : Date.isoformat d1 = Date.isoformat d2 -> d1 = d2.
Proof.
  intros E. apply date_eqb_eq. rewrite <- str_eqb_isoformat.
  apply String.eqb_eq, E.
Qed.

Lemma Z_order_cases a b :
  ((a <? b) = true /\ (a =? b) = false /\ (b =? a) = false /\ (b <? a) = false)
  \/ ((a <? b) = false /\ (a =? b) = true /\ (b =? a) = true /\ (b <? a) = false)
  \/ ((a <? b) = false /\ (a =? b) = false /\ (b =? a) = false /\ (b <? a) = true).
Proof.
  destruct (Z.ltb_spec a b), (Z.eqb_spec a b), (Z.eqb_spec b a), (Z.ltb_spec b a);
    try lia; tauto.
Qed.

(** Two dates are in exactly one of the three positions. *)
Lemma date_order_cases d1 d2 :
  (Date.ltb d1 d2 = true /\ Date.eqb d1 d2 = false /\ Date.gtb d1 d2 = false)
  \/ (Date.ltb d1 d2 = false /\ Date.eqb d1 d2 = true /\ Date.gtb d1 d2 = false)
  \/ (Date.ltb d1 d2 = false /\ Date.eqb d1 d2 = false /\ Date.gtb d1 d2 = true).
Proof.
  unfold Date.gtb, Date.ltb, Date.eqb.
  destruct (Z_order_cases (year d1) (year d2))
    as [(Y1 & Y2 & Y3 & Y4)|[(Y1 & Y2 & Y3 & Y4)|(Y1 & Y2 & Y3 & Y4)]];
  destruct (Z_order_cases (month d1) (month d2))
    as [(M1 & M2 & M3 & M4)|[(M1 & M2 & M3 & M4)|(M1 & M2 & M3 & M4)]];
  destruct (Z_order_cases (day d1) (day d2))
    as [(A1 & A2 & A3 & A4)|[(A1 & A2 & A3 & A4)|(A1 & A2 & A3 & A4)]];
  rewrite ?Y1, ?Y2, ?Y3, ?Y4, ?M1, ?M2, ?M3, ?M4, ?A1, ?A2, ?A3, ?A4;
  cbn; tauto.
Qed.

End DateOrder.

(** ** The incremental filter *)

Section Filter.

Lemma filter_loop_spec last ps rows acc :
  filter_loop last ps rows acc = acc ++ List.filter (row_selected last ps) rows.
Proof.
  revert acc. induction rows as [|r rows IH]; intros acc; cbn.
  - symmetry. apply app_nil_r.
  - destruct (row_selected last ps r); rewrite IH; [|reflexivity].
    rewrite <- app_assoc. reflexivity.
Qed.

(** The filter is the selection of the rows the loop body accepts, in their
    order. *)
Lemma filter_rows_for_processing_spec rows ds t :
  filter_rows_for_processing rows ds t
  = List.filter (row_selected (Tracking.watermark t)
                              (list_to_set (Tracking.processed ds t))) rows.
Proof. unfold filter_rows_for_processing. apply filter_loop_spec. Qed.

Lemma row_selected_rule (wm : option date) processed r :
  row_selected (Date.isoformat <$> wm) (list_to_set processed) r
  = selection_rule wm processed r.
Proof.
  unfold row_selected, selection_rule.
  destruct (to_date_obj (row_get r "createdat")) as [rd|]; [|reflexivity].
  destruct wm as [w|]; cbn; [|reflexivity].
  rewrite str_gt_isoformat, str_eqb_isoformat.
  destruct (Date.gtb rd w); [reflexivity|].
  destruct (Date.eqb rd w); [|reflexivity].
  destruct (get_email r) as [e|]; cbn; [|reflexivity].
  destruct (Py.nonempty e); cbn; [|reflexivity].
  f_equal. apply bool_decide_ext. apply elem_of_list_to_set.
Qed.

Example same_day_dedup :
  filter_rows_for_processing
    [ sample_row "2024-05-01" (Some "a@x.com");
      sample_row "2024-05-01" (Some "b@x.com");
      sample_row "2024-05-02" (Some "a@x.com");
      sample_row "2024-04-30" (Some "c@x.com");
      sample_row "not a date" (Some "d@x.com") ]
    DEFAULT_STATE (sample_tracking (Some "2024-05-01") ["a@x.com"])
  = [ sample_row "2024-05-01" (Some "b@x.com");
      sample_row "2024-05-02" (Some "a@x.com") ].
Proof. vm_compute. reflexivity. Qed.

(** C1 (as amended): for every list of rows and every tracking state whose
    watermark is absent or the ISO text of a date, the filter keeps, in
    order, exactly the rows that the rule selects: a row whose creation date
    does not parse is excluded; with no watermark every other row is
    included; a row dated after the watermark is included; a row dated on
    the watermark is included if and only if it has a non-empty identity key
    that is absent from [processed_emails_same_date]; a row dated before the
    watermark is excluded. *)
Theorem filter_rows_for_processing_rule
    (rows : list row) (ds : defaults) (t : tracking) (wm : option date) :
  Tracking.watermark t = Date.isoformat <$> wm ->
  filter_rows_for_processing rows ds t
  = List.filter (selection_rule wm (Tracking.processed ds t)) rows.
Proof.
  intros Hwm. rewrite filter_rows_for_processing_spec, Hwm.
  induction rows as [|r rows IH]; cbn; [reflexivity|].
  rewrite row_selected_rule, IH. reflexivity.
Qed.

Lemma filter_rows_for_processing_rule_witness :
  filter_rows_for_processing
    [ sample_row "2024-05-01" (Some "a@x.com");
      sample_row "2024-05-01" (Some "b@x.com") ]
    DEFAULT_STATE (sample_tracking (Some "2024-05-01") ["a@x.com"])
  = List.filter (selection_rule (Some D(2024, 5, 1)) ["a@x.com"])
      [ sample_row "2024-05-01" (Some "a@x.com");
        sample_row "2024-05-01" (Some "b@x.com") ].
Proof.
  apply (filter_rows_for_processing_rule _ DEFAULT_STATE
           (sample_tracking (Some "2024-05-01") ["a@x.com"]) (Some D(2024, 5, 1))).
  reflexivity.
Defined.

(** C1 as stated does not hold: a row dated on the watermark that has no
    identity key is skipped, although its key is absent from
    [processed_emails_same_date]. *)
Lemma filter_rows_by_key_absence_fails :
  ~ (forall (rows : list row) (ds : defaults) (t : tracking) (wm : option date),
        Tracking.watermark t = Date.isoformat <$> wm ->
        filter_rows_for_processing rows ds t
        = List.filter (rule_by_key_absence wm (Tracking.processed ds t)) rows).
Proof.
  intros H.
  specialize (H [sample_row "2024-05-01" None] DEFAULT_STATE
                (sample_tracking (Some "2024-05-01") []) (Some D(2024, 5, 1))
                eq_refl).
  vm_compute in H. discriminate H.
Qed.

End Filter.

Section FilterEmail.

Lemma elem_of_filter_rows rows ds t r :
  r ∈ filter_rows_for_processing rows ds t
  <-> r ∈ rows
      /\ row_selected (Tracking.watermark t)
                      (list_to_set (Tracking.processed ds t)) r = true.
Proof.
  rewrite filter_rows_for_processing_spec, !list_elem_of_In.
  apply filter_In.
Qed.

Lemma row_get_createdat_cells r i :
  row_get (mkRow i (cells r)) "createdat" = row_get r "createdat".
Proof. reflexivity. Qed.

(** C10 (as amended): the email of a row matters only when the row is dated
    on the watermark. A watermark-dated row whose email is missing or empty
    is never selected; a row dated after the watermark, and any row with a
    parseable date when there is no watermark, is selected whatever its
    email; a row whose creation date does not parse is never selected,
    with or without watermark; and for a row not dated on the watermark,
    replacing its identity columns by anything does not change whether it
    is selected. *)
Theorem filter_consults_email_on_watermark_date_only
    (ds : defaults) (t : tracking) (wm : option date) :
  Tracking.watermark t = Date.isoformat <$> wm ->
  (forall rows r rd,
      to_date_obj (row_get r "createdat") = Some rd -> wm = Some rd ->
      truthy_str (get_email r) = false ->
      r ∉ filter_rows_for_processing rows ds t)
  /\ (forall rows r rd w,
      to_date_obj (row_get r "createdat") = Some rd -> wm = Some w ->
      Date.gtb rd w = true -> r ∈ rows ->
      r ∈ filter_rows_for_processing rows ds t)
  /\ (forall rows r rd,
      to_date_obj (row_get r "createdat") = Some rd -> wm = None ->
      r ∈ rows -> r ∈ filter_rows_for_processing rows ds t)
  /\ (forall rows r,
      to_date_obj (row_get r "createdat") = None ->
      r ∉ filter_rows_for_processing rows ds t)
  /\ (forall r i,
      to_date_obj (row_get r "createdat") ≠ wm \/ wm = None ->
      (filter_rows_for_processing [r] ds t = [r]
       <-> filter_rows_for_processing [mkRow i (cells r)] ds t
           = [mkRow i (cells r)])).
Proof.
  intros Hwm. repeat split.
  - intros rows r rd Hd -> He Hin.
    apply elem_of_filter_rows in Hin as [_ Hsel].
    rewrite Hwm, row_selected_rule in Hsel. unfold selection_rule in Hsel.
    rewrite Hd in Hsel.
    assert (Date.gtb rd rd = false) as Hgt.
    { unfold Date.gtb, Date.ltb. rewrite !Z.ltb_irrefl, !Z.eqb_refl. reflexivity. }
    assert (Date.eqb rd rd = true) as Heq by (apply date_eqb_eq; reflexivity).
    rewrite Hgt, Heq, He in Hsel. discriminate.
  - intros rows r rd w Hd -> Hgt Hin.
    apply elem_of_filter_rows. split; [assumption|].
    rewrite Hwm, row_selected_rule. unfold selection_rule.
    rewrite Hd, Hgt. reflexivity.
  - intros rows r rd Hd -> Hin.
    apply elem_of_filter_rows. split; [assumption|].
    rewrite Hwm, row_selected_rule. unfold selection_rule.
    rewrite Hd. reflexivity.
  - intros rows r Hd Hin.
    apply elem_of_filter_rows in Hin as [_ Hsel].
    rewrite Hwm, row_selected_rule in Hsel. unfold selection_rule in Hsel.
    rewrite Hd in Hsel. discriminate.
  - rewrite !filter_rows_for_processing_spec, Hwm. cbn.
    rewrite !row_selected_rule. unfold selection_rule.
    rewrite row_get_createdat_cells.
    destruct (to_date_obj (row_get r "createdat")) as [rd|];
      [|intros; discriminate].
    destruct wm as [w|]; [|reflexivity].
    destruct (Date.gtb rd w); [reflexivity|].
    destruct (Date.eqb rd w) eqn:E; [|intros; discriminate].
    apply date_eqb_eq in E. subst. destruct H as [H|H]; [contradiction|discriminate].
  - rewrite !filter_rows_for_processing_spec, Hwm. cbn.
    rewrite !row_selected_rule. unfold selection_rule.
    rewrite row_get_createdat_cells.
    destruct (to_date_obj (row_get r "createdat")) as [rd|];
      [|intros; discriminate].
    destruct wm as [w|]; [|reflexivity].
    destruct (Date.gtb rd w); [reflexivity|].
    destruct (Date.eqb rd w) eqn:E; [|intros; discriminate].
    apply date_eqb_eq in E. subst. destruct H as [H|H]; [contradiction|discriminate].
Qed.

Lemma filter_consults_email_on_watermark_date_only_witness :
  (sample_row "2024-05-01" None
     ∉ filter_rows_for_processing [sample_row "2024-05-01" None] DEFAULT_STATE
         (sample_tracking (Some "2024-05-01") []))
  /\ (sample_row "2024-05-02" None
       ∈ filter_rows_for_processing [sample_row "2024-05-02" None] DEFAULT_STATE
           (sample_tracking (Some "2024-05-01") [])).
Proof.
  pose proof (filter_consults_email_on_watermark_date_only DEFAULT_STATE
                (sample_tracking (Some "2024-05-01") []) (Some D(2024, 5, 1))
                eq_refl) as (Hsame & Hnewer & _).
  split.
  - apply (Hsame _ _ D(2024, 5, 1)); reflexivity.
  - apply (Hnewer _ _ D(2024, 5, 2) D(2024, 5, 1)); try reflexivity.
    apply list_elem_of_singleton. reflexivity.
Defined.

(** C10 as stated does not hold: on a first-ever run (no watermark) a row
    whose creation date does not parse is dropped by the date check, which
    comes before the watermark is looked at; not every row of a first run
    is included. *)
Lemma filter_first_run_includes_any_row_fails :
  ~ (forall (rows : list row) (ds : defaults) (t : tracking) (r : row),
        Tracking.watermark t = None -> r ∈ rows ->
        r ∈ filter_rows_for_processing rows ds t).
Proof.
  intros H.
  specialize (H [sample_row "not a date" None] DEFAULT_STATE
                (sample_tracking None []) (sample_row "not a date" None)
                eq_refl).
  assert (sample_row "not a date" None ∈ [sample_row "not a date" None]) as Hin
    by (apply list_elem_of_singleton; reflexivity).
  apply H, elem_of_filter_rows in Hin as [_ Hsel].
  vm_compute in Hsel. discriminate Hsel.
Qed.

End FilterEmail.

(** ** Normalising, trimming and splitting *)

Section TextShape.

Lemma isalnum_lower_char c : Py.isalnum (Py.lower_char c) = Py.isalnum c.
Proof. destruct c as [[] [] [] [] [] [] [] []]; reflexivity. Qed.

Lemma lower_char_idem c : Py.lower_char (Py.lower_char c) = Py.lower_char c.
Proof. destruct c as [[] [] [] [] [] [] [] []]; reflexivity. Qed.

Lemma isspace_not_alnum c :
  Py.isspace c = true -> Py.isalnum (Py.lower_char c) = false.
Proof. destruct c as [[] [] [] [] [] [] [] []]; intros H; try reflexivity; discriminate H. Qed.

Lemma normalize_cons c s :
  normalize (String c s)
  = if Py.isalnum c then String (Py.lower_char c) (normalize s) else normalize s.
Proof. unfold normalize. cbn. rewrite isalnum_lower_char. reflexivity. Qed.

(** The normalisation of the code ([lower], then the alphanumeric
    characters) keeps the alphanumeric characters and lowers each. *)
Lemma normalize_words s : normalize s = lowercase_alphanumerics s.
Proof.
  induction s as [|c s IH]; [reflexivity|].
  rewrite normalize_cons. unfold lowercase_alphanumerics in *.
  cbn [list_ascii_of_string List.filter].
  destruct (Py.isalnum c); cbn [List.map string_of_list_ascii]; rewrite IH; reflexivity.
Qed.

Lemma lstrip_words s :
  exists a, s = a +:+ Py.lstrip s /\ whitespace_only a = true
    /\ forall c, first_char (Py.lstrip s) = Some c -> Py.isspace c = false.
Proof.
  induction s as [|c s IH].
  - exists EmptyString. repeat split. intros c H. discriminate H.
  - cbn [Py.lstrip]. destruct (Py.isspace c) eqn:Hc.
    + destruct IH as (a & E & Ha & Hf). exists (String c a).
      rewrite append_String, <- E. cbn [whitespace_only]. rewrite Hc, Ha. auto.
    + exists EmptyString. repeat split. intros c' [= <-]. assumption.
Qed.

Lemma rstrip_words s :
  exists b, s = Py.rstrip s +:+ b /\ whitespace_only b = true
    /\ (forall c, last_char (Py.rstrip s) = Some c -> Py.isspace c = false)
    /\ (forall c, first_char (Py.rstrip s) = Some c -> first_char s = Some c).
Proof.
  induction s as [|c s IH].
  - exists EmptyString. repeat split; intros c H; discriminate H.
  - destruct IH as (b & E & Hb & Hl & Hf). cbn [Py.rstrip].
    destruct (Py.rstrip s) as [|c' t] eqn:Hr.
    + rewrite append_Empty in E. subst b.
      destruct (Py.isspace c) eqn:Hc.
      * exists (String c s). rewrite append_Empty. cbn [whitespace_only].
        rewrite Hc, Hb. repeat split; intros c0 H; discriminate H.
      * exists s. repeat split; auto.
        intros c0 [= <-]. assumption.
    + exists b. rewrite append_String, <- E. repeat split; auto.
Qed.

(** [strip] removes the whitespace at the two ends, and nothing else. *)
Lemma strip_words s : trimming_of s (Py.strip s).
Proof.
  unfold Py.strip, trimming_of.
  destruct (lstrip_words s) as (a & Ea & Ha & Hfirst).
  destruct (rstrip_words (Py.lstrip s)) as (b & Eb & Hb & Hlast & Hkeep).
  exists a, b. split; [rewrite <- Eb; exact Ea|]. split; [assumption|].
  split; [assumption|]. unfold trimmed.
  destruct (first_char (Py.rstrip (Py.lstrip s))) as [f|] eqn:Hf; [|reflexivity].
  destruct (last_char (Py.rstrip (Py.lstrip s))) as [l|] eqn:Hl; [|reflexivity].
  rewrite (Hfirst f (Hkeep f eq_refl)), (Hlast l eq_refl). reflexivity.
Qed.

Lemma lstrip_whitespace a : whitespace_only a = true -> Py.lstrip a = EmptyString.
Proof.
  induction a as [|c a IH]; [reflexivity|]. cbn. intros H.
  apply andb_prop in H as [-> H]. auto.
Qed.

Lemma lstrip_app_whitespace a s :
  whitespace_only a = true -> Py.lstrip (a +:+ s) = Py.lstrip s.
Proof.
  induction a as [|c a IH]; [reflexivity|]. cbn [whitespace_only]. intros H.
  apply andb_prop in H as [Hc H]. rewrite append_String. cbn [Py.lstrip].
  rewrite Hc. auto.
Qed.

Lemma rstrip_whitespace b : whitespace_only b = true -> Py.rstrip b = EmptyString.
Proof.
  induction b as [|c b IH]; [reflexivity|]. cbn [whitespace_only Py.rstrip].
  intros H. apply andb_prop in H as [Hc H]. rewrite (IH H), Hc. reflexivity.
Qed.

Lemma rstrip_app_whitespace t b :
  whitespace_only b = true -> Py.rstrip (t +:+ b) = Py.rstrip t.
Proof.
  intros Hb. induction t as [|c t IH].
  - rewrite append_Empty. apply rstrip_whitespace. assumption.
  - rewrite append_String. cbn [Py.rstrip]. rewrite IH. reflexivity.
Qed.

Lemma last_char_cons c t : exists l, last_char (String c t) = Some l.
Proof.
  revert c. induction t as [|c' t IH]; intros c; [eexists; reflexivity|].
  destruct (IH c') as [l Hl]. exists l. exact Hl.
Qed.

Lemma rstrip_trimmed t :
  (forall c, last_char t = Some c -> Py.isspace c = false) -> Py.rstrip t = t.
Proof.
  induction t as [|c t IH]; [reflexivity|]. intros H. cbn [Py.rstrip].
  destruct t as [|c' t].
  - cbn. rewrite (H c eq_refl). reflexivity.
  - rewrite IH by exact H. reflexivity.
Qed.

(** A trimming of a text is what [strip] returns: there is only one. *)
Lemma trimming_strip s t : trimming_of s t -> Py.strip s = t.
Proof.
  intros (a & b & -> & Ha & Hb & Ht). unfold Py.strip.
  rewrite lstrip_app_whitespace by assumption.
  destruct t as [|c t].
  - rewrite append_Empty, (lstrip_whitespace b Hb). reflexivity.
  - unfold trimmed in Ht. cbn [first_char] in Ht.
    destruct (last_char_cons c t) as [l Hl]. rewrite Hl in Ht.
    apply andb_prop in Ht as [Hc Hlast].
    apply negb_true_iff in Hc, Hlast.
    rewrite append_String. cbn [Py.lstrip]. rewrite Hc, <- append_String.
    rewrite rstrip_app_whitespace by assumption.
    apply rstrip_trimmed. intros c0 E. congruence.
Qed.

Lemma trimming_of_unique s t1 t2 : trimming_of s t1 -> trimming_of s t2 -> t1 = t2.
Proof.
  intros H1 H2. apply trimming_strip in H1, H2. congruence.
Qed.

Lemma split_not_nil sep s : Py.split sep s ≠ [].
Proof.
  destruct s as [|c s]; cbn; [discriminate|].
  destruct (Ascii.eqb c sep); [discriminate|].
  destruct (Py.split sep s); discriminate.
Qed.

(** [split] cuts at the separators, and nowhere else: joining the pieces
    with the separator gives the text back, and no piece holds one. *)
Lemma join_split sep s : Py.join (String sep EmptyString) (Py.split sep s) = s.
Proof.
  unfold Py.join. induction s as [|c s IH]; [reflexivity|].
  cbn [Py.split]. destruct (Ascii.eqb_spec c sep) as [->|Hne].
  - pose proof (split_not_nil sep s) as Hnil.
    destruct (Py.split sep s) as [|p ps]; [contradiction|].
    cbn [String.concat] in *. rewrite append_Empty, append_String, append_Empty, IH.
    reflexivity.
  - pose proof (split_not_nil sep s) as Hnil.
    destruct (Py.split sep s) as [|p ps]; [contradiction|].
    destruct ps as [|p' ps]; cbn [String.concat] in *.
    + rewrite IH. reflexivity.
    + rewrite append_String, IH. reflexivity.
Qed.

Lemma split_free_of sep s p : p ∈ Py.split sep s -> free_of sep p = true.
Proof.
  revert p. induction s as [|c s IH]; intros p Hin.
  - cbn in Hin. apply list_elem_of_singleton in Hin. subst p. reflexivity.
  - cbn [Py.split] in Hin. destruct (Ascii.eqb c sep) eqn:Hc.
    + apply elem_of_cons in Hin as [->|Hin]; [reflexivity|auto].
    + destruct (Py.split sep s) as [|q qs].
      * apply list_elem_of_singleton in Hin. subst p. cbn. rewrite Hc. reflexivity.
      * apply elem_of_cons in Hin as [->|Hin].
        -- cbn [free_of]. rewrite Hc. cbn. apply IH, list_elem_of_here.
        -- apply IH. apply elem_of_cons. right. assumption.
Qed.

End TextShape.

(** ** The multi-value handset field *)

Section Mappers.

Lemma filter_filter_andb {A} (P Q : A -> bool) l :
  List.filter P (List.filter Q l) = List.filter (fun x => P x && Q x) l.
Proof.
  induction l as [|x l IH]; cbn; [reflexivity|].
  destruct (Q x), (P x) eqn:HP; cbn; rewrite ?HP, IH; reflexivity.
Qed.

Lemma elem_of_first_seen x l : x ∈ first_seen l <-> x ∈ l.
Proof.
  induction l as [|y l IH]; cbn; [reflexivity|].
  rewrite !elem_of_cons, list_elem_of_In, filter_In, <- list_elem_of_In, IH.
  destruct (String.eqb_spec x y) as [->|N]; cbn; intuition congruence.
Qed.

Lemma NoDup_first_seen l : NoDup (first_seen l).
Proof.
  induction l as [|y l IH]; cbn; constructor.
  - rewrite list_elem_of_In, filter_In. intros [_ H].
    rewrite String.eqb_refl in H. discriminate.
  - clear -IH. induction IH as [|z m Hz Hm IHm]; cbn; [constructor|].
    destruct (negb (z =? y)%string); [|assumption].
    constructor; [|assumption].
    rewrite list_elem_of_In, filter_In, <- list_elem_of_In. tauto.
Qed.

(** The loop with its [seen] list computes [first_seen]. *)
Lemma handset_loop_spec label_map parts seen :
  handset_loop label_map parts seen
  = seen ++ List.filter (fun y => negb (bool_decide (y ∈ seen)))
                        (first_seen (List.map (handset_choice label_map) parts)).
Proof.
  revert seen. induction parts as [|p parts IH]; intros seen.
  - cbn. symmetry. apply app_nil_r.
  - cbn [handset_loop List.map first_seen List.filter].
    set (nid := handset_choice label_map p).
    set (FS := first_seen (List.map (handset_choice label_map) parts)).
    rewrite filter_filter_andb.
    destruct (bool_decide (nid ∈ seen)) eqn:Hin; cbn [negb].
    + apply bool_decide_eq_true in Hin.
      rewrite IH. fold FS. f_equal. apply filter_ext. intros y.
      destruct (bool_decide (y ∈ seen)) eqn:Hy; cbn; [reflexivity|].
      apply bool_decide_eq_false in Hy.
      destruct (String.eqb_spec y nid) as [->|]; [contradiction|reflexivity].
    + apply bool_decide_eq_false in Hin.
      rewrite IH. fold FS. rewrite <- app_assoc. cbn [app]. do 2 f_equal.
      apply filter_ext. intros y.
      destruct (String.eqb_spec y nid) as [->|Hne]; cbn.
      * rewrite andb_false_r, bool_decide_eq_true_2; [reflexivity|].
        apply elem_of_app. right. apply list_elem_of_singleton. reflexivity.
      * rewrite andb_true_r. f_equal. apply bool_decide_ext.
        rewrite elem_of_app, list_elem_of_singleton. tauto.
Qed.

Lemma ODict_get_set {V} k k' (v : V) d :
  ODict.get k (ODict.set k' v d)
  = if String.eqb k k' then Some v else ODict.get k d.
Proof.
  induction d as [|[k0 v0] d IH]; cbn.
  - reflexivity.
  - destruct (String.eqb_spec k' k0) as [->|N]; cbn.
    + destruct (String.eqb_spec k k0); reflexivity.
    + rewrite IH. destruct (String.eqb_spec k k0) as [->|]; [|reflexivity].
      destruct (String.eqb_spec k0 k'); [congruence|reflexivity].
Qed.

Lemma find_app_first {A} (P : A -> bool) l1 l2 :
  List.find P (l1 ++ l2)
  = match List.find P l1 with Some x => Some x | None => List.find P l2 end.
Proof.
  induction l1 as [|x l1 IH]; cbn; [reflexivity|].
  destruct (P x); [reflexivity|assumption].
Qed.

(** The table built by the dict comprehension: a key maps to the id of the
    last choice carrying that normalised label. *)
Lemma handset_label_map_get k chs acc :
  ODict.get k (handset_label_map chs acc)
  = match last_labelled k chs with
    | Some ch => Some (str_id ch)
    | None => ODict.get k acc
    end.
Proof.
  unfold last_labelled. revert acc.
  induction chs as [|ch chs IH]; intros acc; cbn; [reflexivity|].
  rewrite find_app_first.
  destruct (label ch) as [l|] eqn:Hl; rewrite IH.
  - destruct (List.find _ (rev chs)); [reflexivity|].
    cbn. rewrite Hl, ODict_get_set. destruct (String.eqb _ _); reflexivity.
  - destruct (List.find _ (rev chs)); [reflexivity|].
    cbn. rewrite Hl. reflexivity.
Qed.

Example handsets_example :
  map_handsets_field_dynamic
    (Some "Cordless handset; Mobile phone; Unknown Gadget") sample_handset_questions
  = ["10"; "11"; "0"].
Proof. vm_compute. reflexivity. Qed.

Example handsets_example_repeats :
  map_handsets_field_dynamic
    (Some " mobile PHONE;Gadget;; Cordless handset ;Mobile phone; Other")
    sample_handset_questions
  = ["11"; "0"; "10"].
Proof. vm_compute. reflexivity. Qed.

(** The example of the claim, and an input written in another case, with
    punctuation, with a blank part and with a repetition: the lookups go
    through the lower-cased alphanumeric form of the part, and a part of
    whitespace only is no part. *)
Example handsets_example_normalised :
  map_handsets_field_dynamic
    (Some " CORDLESS-handset!;  ;mobile phone;;Mobile Phone ")
    sample_handset_questions
  = ["10"; "11"].
Proof. vm_compute. reflexivity. Qed.

(** C4: [map_handsets_field_dynamic] returns the empty list for an absent or
    empty input; otherwise it splits the text on [;] (the pieces, joined by
    [;], are the text, and no piece holds a [;]), trims each piece (removes
    the whitespace at its two ends, and only that) and drops the pieces that
    are then empty, normalises each part (keeps its alphanumeric characters,
    each in lower case), maps it to the id the handset question's table
    gives to that normalised label, and to ["0"] when the table has no entry
    for it, and returns these ids without repetition in first-seen order.
    The table maps a normalised label to the id of the (last) choice
    carrying it. On the example input the result is [["10"; "11"; "0"]]. *)
Theorem map_handsets_field_dynamic_spec
    (raw : string) (questions : gmap string question) :
  let table := handset_table questions in
  let pieces := Py.split ";" raw in
  let parts := stripped_parts ";" raw in
  let result := map_handsets_field_dynamic (Some raw) questions in
  map_handsets_field_dynamic None questions = []
  /\ map_handsets_field_dynamic (Some EmptyString) questions = []
  /\ (Py.join ";" pieces = raw /\ forall piece, piece ∈ pieces -> free_of ";" piece = true)
  /\ (forall piece, trimming_of piece (Py.strip piece))
  /\ parts = List.filter Py.nonempty (List.map Py.strip pieces)
  /\ (forall p, p ∈ parts
        <-> exists piece, piece ∈ pieces /\ trimming_of piece p /\ p ≠ EmptyString)
  /\ (forall s, normalize s = lowercase_alphanumerics s)
  /\ result = first_seen (List.map (handset_choice table) parts)
  /\ NoDup result
  /\ (forall p, p ∈ parts ->
        ODict.get (lowercase_alphanumerics p) table = None ->
        handset_choice table p = "0" /\ "0" ∈ result)
  /\ (forall p nid, p ∈ parts ->
        ODict.get (lowercase_alphanumerics p) table = Some nid ->
        Py.nonempty nid = true ->
        handset_choice table p = nid /\ nid ∈ result)
  /\ (forall k, ODict.get k table
        = str_id <$> last_labelled k
            (match questions !! "159" with Some q => choices q | None => [] end))
  /\ map_handsets_field_dynamic
       (Some "Cordless handset; Mobile phone; Unknown Gadget")
       sample_handset_questions = ["10"; "11"; "0"]
  /\ map_handsets_field_dynamic
       (Some " CORDLESS-handset!;  ;mobile phone;;Mobile Phone ")
       sample_handset_questions = ["10"; "11"].
Proof.
  intros table pieces parts result.
  assert (Hres : result = first_seen (List.map (handset_choice table) parts)).
  { unfold result, map_handsets_field_dynamic.
    destruct raw as [|c raw']; [reflexivity|].
    cbn [Py.nonempty negb].
    rewrite handset_loop_spec.
    cbn [app]. unfold table, handset_table, parts.
    set (l := first_seen _). clearbody l.
    induction l as [|z l IHl]; cbn; [reflexivity|].
    rewrite bool_decide_eq_false_2 by (intros H; inversion H).
    cbn. f_equal. assumption. }
  split; [reflexivity|]. split; [reflexivity|].
  split; [split; [apply join_split|intros piece; apply split_free_of]|].
  split; [apply strip_words|]. split; [reflexivity|].
  split.
  { intros p. unfold parts, stripped_parts. fold pieces.
    rewrite list_elem_of_In, filter_In, in_map_iff. split.
    - intros [(piece & <- & Hin) Hne]. exists piece.
      split; [apply list_elem_of_In; assumption|]. split; [apply strip_words|].
      intros E. rewrite E in Hne. discriminate Hne.
    - intros (piece & Hin & Htrim & Hne).
      assert (Py.strip piece = p) as <-
        by (apply (trimming_of_unique piece); [apply strip_words|assumption]).
      split; [exists piece; split; [reflexivity|apply list_elem_of_In; assumption]|].
      destruct (Py.strip piece); [contradiction|reflexivity]. }
  split; [apply normalize_words|].
  split; [assumption|]. split; [rewrite Hres; apply NoDup_first_seen|].
  split; [|split; [|split; [|split]]].
  - intros p Hp Hget. rewrite <- normalize_words in Hget.
    assert (handset_choice table p = "0") as E.
    { unfold handset_choice. change (_normalize_label (Some p)) with (normalize p).
      rewrite Hget. reflexivity. }
    split; [assumption|].
    rewrite Hres, elem_of_first_seen, <- E, list_elem_of_In.
    apply in_map. apply list_elem_of_In. assumption.
  - intros p nid Hp Hget Hne. rewrite <- normalize_words in Hget.
    assert (handset_choice table p = nid) as E.
    { unfold handset_choice. change (_normalize_label (Some p)) with (normalize p).
      rewrite Hget, Hne. reflexivity. }
    split; [assumption|].
    rewrite Hres, elem_of_first_seen, <- E, list_elem_of_In.
    apply in_map. apply list_elem_of_In. assumption.
  - intros k. unfold table, handset_table.
    rewrite handset_label_map_get.
    destruct (last_labelled k _); reflexivity.
  - vm_compute. reflexivity.
  - vm_compute. reflexivity.
Qed.

End Mappers.

(** ** Validation of the timeframe and its dates *)

Section TimeframeValidation.

Context (DB_TO_QID : ODict.t string).
Context (repr_list : list (option string) -> string).

Local Abbreviation build := (build_form_answers DB_TO_QID repr_list).

Lemma flagged_set_flagged email reason ds t :
  Tracking.flagged (Tracking.set_flagged email reason ds t).1
                   (Tracking.set_flagged email reason ds t).2 !! email
  = Some reason.
Proof.
  unfold Tracking.set_flagged, Tracking.flagged.
  destruct t as [lr pe ei [[|m]|] ok]; cbn.
  - apply lookup_insert_eq.
  - apply lookup_insert_eq.
  - apply lookup_singleton_eq.
Qed.

Lemma issues_set_flagged email reason ds t :
  Tracking.issues (Tracking.set_flagged email reason ds t).1
                  (Tracking.set_flagged email reason ds t).2
  = Tracking.issues ds t.
Proof.
  unfold Tracking.set_flagged, Tracking.issues.
  destruct t as [lr pe ei [[|m]|] ok]; cbn; reflexivity.
Qed.

Lemma row_get_with_cell_ne r col v col' :
  col ≠ col' -> row_get (with_cell r col v) col' = row_get r col'.
Proof.
  intros Hne. unfold row_get, with_cell. cbn.
  destruct (is_identity_column col'); [reflexivity|].
  rewrite lookup_insert_ne by assumption. reflexivity.
Qed.

Lemma get_email_with_cell r col v : get_email (with_cell r col v) = get_email r.
Proof. reflexivity. Qed.

(** The three ways a call can end, read off the code. *)
Lemma build_form_answers_cases r questions choice_map ds t qid :
  ODict.get "timeframe" DB_TO_QID = Some qid ->
  let norm := timeframe_norm_of repr_list r in
  let raw := Py.strip (str repr_list (Value.or (row_get r "timeframe") (VStr EmptyString))) in
  let cid := ODict.get norm (default [] (choice_map !! qid)) in
  let dn := to_date_obj (row_get r "dateneededby") in
  let ae := to_date_obj (row_get r "approximateendingdate") in
  build r questions choice_map ds t
  = if negb (truthy_str cid)
    then Returned (None, Tracking.set_flagged (get_email r)
                           (flag_invalid_timeframe raw) ds t)
    else if String.eqb norm "temporary"
    then match dn, ae with
         | Some d, Some e =>
             if Date.gtb e d
             then Returned (Some (fold_left (map_column repr_list r questions choice_map)
                                    DB_TO_QID
                                    (<[ qid := AChoices [default EmptyString cid] ]> ∅)),
                            (ds, t))
             else Returned (None, Tracking.set_flagged (get_email r) flag_date_order ds t)
         | _, _ =>
             Returned (None, Tracking.set_flagged (get_email r) flag_missing_dates ds t)
         end
    else Returned (Some (fold_left (map_column repr_list r questions choice_map)
                           DB_TO_QID
                           (<[ qid := AChoices [default EmptyString cid] ]> ∅)),
                   (ds, t)).
Proof.
  intros Hq norm raw cid dn ae.
  unfold build_form_answers. rewrite Hq.
  fold raw. change (normalize raw) with norm. fold cid. fold dn. fold ae.
  destruct (negb (truthy_str cid)); [reflexivity|].
  destruct (String.eqb norm "temporary"); [|reflexivity].
  destruct dn as [d|], ae as [e|]; try reflexivity.
  destruct (Date.gtb e d); reflexivity.
Qed.

(** The validation of the dates. For a row whose normalised timeframe is
    ["temporary"], [build_form_answers] returns [None] and leaves a
    flagged-request entry under the row's identity key whenever the
    needed-by date or the ending date does not parse, or the ending date is
    not strictly greater than the needed-by date (equal dates included);
    when both dates parse and the ending date is strictly greater, a row
    whose timeframe maps to a choice is accepted and nothing is flagged. For
    a row whose normalised timeframe is ["permanent"] the ending date plays
    no part in the validation: the row is accepted when its timeframe maps
    to a choice, and replacing the ending date by any value changes neither
    the acceptance nor the tracking state. ([DB_TO_QID] has to name the
    timeframe question.) *)
Lemma build_form_answers_timeframe_dates
    (r : row) (questions : gmap string question)
    (choice_map : gmap string (ODict.t string))
    (ds : defaults) (t : tracking) (qid : string) :
  ODict.get "timeframe" DB_TO_QID = Some qid ->
  let norm := timeframe_norm_of repr_list r in
  let mapped :=
    truthy_str (ODict.get norm (default [] (choice_map !! qid))) = true in
  let dn := to_date_obj (row_get r "dateneededby") in
  let ae := to_date_obj (row_get r "approximateendingdate") in
  let res := build r questions choice_map ds t in
  (norm = "temporary" ->
   dn = None \/ ae = None
   \/ (exists d e, dn = Some d /\ ae = Some e /\ Date.gtb e d = false) ->
   exists ds' t' reason,
     res = Returned (None, (ds', t'))
     /\ Tracking.flagged ds' t' !! get_email r = Some reason
     /\ (mapped ->
         reason = if bool_decide (is_Some dn /\ is_Some ae)
                  then flag_date_order else flag_missing_dates))
  /\ (norm = "temporary" -> mapped ->
      (exists d e, dn = Some d /\ ae = Some e /\ Date.gtb e d = true) ->
      exists answers, res = Returned (Some answers, (ds, t)))
  /\ (norm = "permanent" -> mapped ->
      exists answers, res = Returned (Some answers, (ds, t)))
  /\ (norm = "permanent" ->
      forall v,
        same_decision res
          (build (with_cell r "approximateendingdate" v) questions choice_map ds t)).
Proof.
  intros Hq norm mapped dn ae res.
  pose proof (build_form_answers_cases r questions choice_map ds t qid Hq) as Hres.
  cbv zeta in Hres. fold norm dn ae res in Hres.
  repeat split.
  - intros Hn Hbad. rewrite Hn in Hres.
    replace (String.eqb "temporary" "temporary") with true in Hres by reflexivity.
    destruct (truthy_str (ODict.get "temporary" (default [] (choice_map !! qid))))
      eqn:Hm; cbn [negb] in Hres.
    + assert (exists reason,
                 res = Returned (None, Tracking.set_flagged (get_email r) reason ds t)
                 /\ reason = if bool_decide (is_Some dn /\ is_Some ae)
                            then flag_date_order else flag_missing_dates)
        as (reason & E & Hreason).
      { rewrite Hres.
        destruct Hbad as [E|[E|(d & e & E1 & E2 & Hgt)]].
        - rewrite E. eexists; split; [reflexivity|].
          rewrite bool_decide_eq_false_2; [reflexivity|].
          intros [[? ?] _]; discriminate.
        - rewrite E. destruct dn; (eexists; split; [reflexivity|]);
            (rewrite bool_decide_eq_false_2; [reflexivity|]);
            intros [_ [? ?]]; discriminate.
        - rewrite E1, E2, Hgt. eexists; split; [reflexivity|].
          rewrite bool_decide_eq_true_2; [reflexivity|]. split; eexists; reflexivity. }
      exists (Tracking.set_flagged (get_email r) reason ds t).1,
             (Tracking.set_flagged (get_email r) reason ds t).2, reason.
      split; [rewrite E, <- surjective_pairing; reflexivity|].
      split; [apply flagged_set_flagged|]. intros _. exact Hreason.
    + eexists _, _, _. split; [rewrite Hres|split].
      * rewrite (surjective_pairing (Tracking.set_flagged _ _ _ _)). reflexivity.
      * apply flagged_set_flagged.
      * unfold mapped. rewrite Hn, Hm. discriminate.
  - intros Hn Hm (d & e & E1 & E2 & Hgt). unfold mapped in Hm.
    rewrite Hm, Hn, E1, E2, Hgt in Hres. cbn in Hres.
    eexists. exact Hres.
  - intros Hn Hm. unfold mapped in Hm.
    rewrite Hm, Hn in Hres. cbn in Hres. eexists. exact Hres.
  - intros Hn v.
    pose proof (build_form_answers_cases (with_cell r "approximateendingdate" v)
                  questions choice_map ds t qid Hq) as Hres'.
    cbv zeta in Hres'.
    assert (timeframe_norm_of repr_list (with_cell r "approximateendingdate" v) = norm)
      as En.
    { unfold norm, timeframe_norm_of. rewrite row_get_with_cell_ne; [reflexivity|].
      discriminate. }
    rewrite En, get_email_with_cell in Hres'.
    rewrite (row_get_with_cell_ne r _ v "timeframe") in Hres' by discriminate.
    rewrite Hn in Hres, Hres'. rewrite Hres, Hres'. clear Hres Hres'.
    replace (String.eqb "permanent" "temporary") with false by reflexivity.
    destruct (negb (truthy_str _)); cbn.
    + rewrite (surjective_pairing (Tracking.set_flagged _ _ _ _)).
      split; [reflexivity|tauto].
    + split; [reflexivity|]. split; intros _; eexists; reflexivity.
Qed.

End TimeframeValidation.

(** ** Choice-typed values *)

Section ChoiceValues.

Context (DB_TO_QID : ODict.t string).
Context (repr_list : list (option string) -> string).

Local Abbreviation build := (build_form_answers DB_TO_QID repr_list).
Local Abbreviation step := (map_column repr_list).

Lemma fuzzy_loop_spec norm table :
  fuzzy_loop norm table = substring_match table norm.
Proof.
  unfold substring_match.
  induction table as [|[k v] table IH]; cbn; [reflexivity|].
  destruct (Py.contains norm k || Py.contains k norm); [reflexivity|assumption].
Qed.

(** The loop over the labels collects, in order, the id of each label that
    matches. *)
Lemma labels_loop_spec table labels acc :
  labels_loop table labels acc = acc ++ omap (token_match_nonempty table) labels.
Proof.
  revert acc. induction labels as [|lab labels IH]; intros acc; cbn.
  - symmetry. apply app_nil_r.
  - unfold token_match_nonempty at 1. rewrite <- !fuzzy_loop_spec.
    destruct (ODict.get (normalize lab) table) as [cid|].
    + destruct (Py.nonempty cid).
      * rewrite IH, <- app_assoc. reflexivity.
      * destruct (fuzzy_loop (normalize lab) table);
          rewrite IH, <- ?app_assoc; reflexivity.
    + destruct (fuzzy_loop (normalize lab) table);
        rewrite IH, <- ?app_assoc; reflexivity.
Qed.

Lemma ODict_get_elem_of {V} k (v : V) d : ODict.get k d = Some v -> (k, v) ∈ d.
Proof.
  induction d as [|[k' v'] d IH]; cbn; [discriminate|].
  destruct (String.eqb_spec k k') as [->|].
  - intros [= ->]. apply elem_of_cons. left. reflexivity.
  - intros H. apply elem_of_cons. right. auto.
Qed.

Lemma token_match_nonempty_eq table token :
  ids_nonempty table = true ->
  token_match_nonempty table token = token_match table token.
Proof.
  intros Hne. unfold token_match_nonempty, token_match.
  destruct (ODict.get (normalize token) table) as [cid|] eqn:E; [|reflexivity].
  apply ODict_get_elem_of in E.
  unfold ids_nonempty in Hne. rewrite forallb_forall in Hne.
  apply list_elem_of_In in E. apply Hne in E. cbn in E. rewrite E. reflexivity.
Qed.

Lemma labels_loop_matched table labels :
  ids_nonempty table = true ->
  labels_loop table labels [] = matched_ids table labels.
Proof.
  intros Hne. rewrite labels_loop_spec. cbn. unfold matched_ids.
  induction labels as [|l labels IH]; cbn; [reflexivity|].
  rewrite token_match_nonempty_eq, IH by assumption. reflexivity.
Qed.

(** One turn of the loop over [DB_TO_QID] writes at most the key of its own
    question. *)
Lemma map_column_other r questions choice_map answers col qid k :
  k ≠ qid ->
  step r questions choice_map answers (col, qid) !! k = answers !! k.
Proof.
  intros Hk. unfold map_column.
  repeat match goal with
  | |- context [if ?b then _ else _] => destruct b
  | |- context [match ?l with [] => _ | _ :: _ => _ end] => destruct l
  end; rewrite ?lookup_insert_ne by congruence; reflexivity.
Qed.

(** One turn of the loop stores the answer of its column, or nothing. *)
Lemma map_column_answer r questions choice_map answers col qid :
  step r questions choice_map answers (col, qid)
  = match column_answer repr_list r questions choice_map col qid with
    | Some ans => <[ qid := ans ]> answers
    | None => answers
    end.
Proof.
  unfold map_column, column_answer.
  repeat match goal with
  | |- context [if ?b then _ else _] => destruct b
  | |- context [match ?l with [] => _ | _ :: _ => _ end] => destruct l
  end; reflexivity.
Qed.

(** The answer of a present value of a choice-typed question. *)
Lemma column_answer_choice r questions choice_map col qid q :
  col ≠ "timeframe" -> col ≠ "handsetsandheadsets" ->
  row_get r col ≠ VNone ->
  questions !! qid = Some q -> qtype q = "cs" \/ qtype q = "cm" ->
  ids_nonempty (default [] (choice_map !! qid)) = true ->
  column_answer repr_list r questions choice_map col qid
  = match matched_ids (default [] (choice_map !! qid))
            (choice_labels repr_list (row_get r col)) with
    | [] => None
    | ids => Some (AChoices ids)
    end.
Proof.
  intros H1 H2 Hv Hq Ht Hne. unfold column_answer.
  apply String.eqb_neq in H1, H2. rewrite H1, H2. cbn [orb].
  destruct (row_get r col) eqn:Ev; try contradiction; cbn [Value.is_none];
    rewrite Hq, labels_loop_matched by assumption;
    destruct Ht as [-> | ->]; reflexivity.
Qed.

(** The answer of a present value of a date question. *)
Lemma column_answer_date r questions choice_map col qid q :
  col ≠ "timeframe" -> col ≠ "handsetsandheadsets" ->
  row_get r col ≠ VNone ->
  questions !! qid = Some q -> qtype q = "da" ->
  column_answer repr_list r questions choice_map col qid
  = Some (ADate (match to_date_obj (row_get r col) with
                 | Some d => Date.isoformat d
                 | None => str repr_list (row_get r col)
                 end)).
Proof.
  intros H1 H2 Hv Hq Ht. unfold column_answer.
  apply String.eqb_neq in H1, H2. rewrite H1, H2. cbn [orb].
  destruct (row_get r col) eqn:Ev; try contradiction; cbn [Value.is_none];
    rewrite Hq, Ht; reflexivity.
Qed.

(** When one column only is mapped to a question, the payload holds under
    the question key what that column stores. *)
Lemma fold_map_column_sole r questions choice_map entries answers col qid :
  forallb (fun e => implb (String.eqb e.2 qid) (String.eqb e.1 col)) entries = true ->
  fold_left (step r questions choice_map) entries answers !! qid
  = if existsb (fun e => String.eqb e.1 col && String.eqb e.2 qid) entries
    then match column_answer repr_list r questions choice_map col qid with
         | Some ans => Some ans
         | None => answers !! qid
         end
    else answers !! qid.
Proof.
  revert answers.
  induction entries as [|[c q'] entries IH]; intros answers Hsole;
    cbn [fold_left existsb fst snd].
  - reflexivity.
  - cbn [forallb fst snd] in Hsole. apply andb_prop in Hsole as [Hhd Htl].
    rewrite IH by assumption. clear IH.
    destruct (String.eqb_spec q' qid) as [->|Hq'].
    + cbn in Hhd. apply String.eqb_eq in Hhd. subst c.
      rewrite String.eqb_refl. cbn [andb orb].
      rewrite map_column_answer.
      destruct (column_answer repr_list r questions choice_map col qid).
      * rewrite lookup_insert_eq. destruct (existsb _ entries); reflexivity.
      * destruct (existsb _ entries); reflexivity.
    + rewrite andb_false_r. cbn [orb].
      rewrite map_column_other by congruence. reflexivity.
Qed.

(** The payload of an accepted row. *)
Lemma build_form_answers_accepted r questions choice_map ds t tq answers st :
  ODict.get "timeframe" DB_TO_QID = Some tq ->
  build r questions choice_map ds t = Returned (Some answers, st) ->
  st = (ds, t)
  /\ answers
     = fold_left (step r questions choice_map) DB_TO_QID
         (<[ tq := AChoices
               [default EmptyString (ODict.get (timeframe_norm_of repr_list r)
                              (default [] (choice_map !! tq)))] ]> ∅).
Proof.
  intros Htq Hres.
  rewrite (build_form_answers_cases DB_TO_QID repr_list r questions choice_map
             ds t tq Htq) in Hres. cbv zeta in Hres.
  repeat match type of Hres with
  | (if ?b then _ else _) = _ => destruct b
  | match ?o with Some _ => _ | None => _ end = _ => destruct o
  end; simplify_eq; split; reflexivity.
Qed.

(** The answer of a present value of a choice-typed question, whatever the
    ids of the table. *)
Lemma column_answer_choice_tokens r questions choice_map col qid q :
  col ≠ "timeframe" -> col ≠ "handsetsandheadsets" ->
  row_get r col ≠ VNone ->
  questions !! qid = Some q -> qtype q = "cs" \/ qtype q = "cm" ->
  column_answer repr_list r questions choice_map col qid
  = match omap (token_match_nonempty (default [] (choice_map !! qid)))
            (choice_labels repr_list (row_get r col)) with
    | [] => None
    | ids => Some (AChoices ids)
    end.
Proof.
  intros H1 H2 Hv Hq Ht. unfold column_answer.
  apply String.eqb_neq in H1, H2. rewrite H1, H2. cbn [orb].
  destruct (row_get r col) eqn:Ev; try contradiction; cbn [Value.is_none];
    rewrite Hq, labels_loop_spec; cbn [app];
    destruct Ht as [-> | ->]; reflexivity.
Qed.

(** C6 (as amended): for a column of [DB_TO_QID] other than the timeframe
    and the handset column, with a present value and a question of type
    single-choice or multi-choice: the tokens are the truthy items of a
    native list, or the pieces of the text between commas, each trimmed,
    the empty ones left out; each token is normalised (its alphanumeric
    characters, in lower case) and looked up exactly first; when there is
    no exact match, or the exact match carries an empty id, the first key of
    the table, in its order, that contains the normalised token or is
    contained in it gives the id; a token that matches nothing is dropped;
    the turn of the loop writes the matched ids under the question key, and
    writes nothing when no token matched. With a table without empty ids the
    match is the exact one first and the substring one otherwise. When the
    column is the only one mapped to its question, and that is not the
    timeframe question, an accepted row's payload has the matched ids under
    the question key, and no entry for it when no token matched. *)
Theorem build_form_answers_choice_value
    (r : row) (questions : gmap string question)
    (choice_map : gmap string (ODict.t string))
    (col qid : string) (q : question) :
  col ≠ "timeframe" -> col ≠ "handsetsandheadsets" ->
  row_get r col ≠ VNone ->
  questions !! qid = Some q -> qtype q = "cs" \/ qtype q = "cm" ->
  let table := default [] (choice_map !! qid) in
  let tokens := choice_labels repr_list (row_get r col) in
  let ids := omap (token_match_nonempty table) tokens in
  tokens = match row_get r col with
           | VList items =>
               List.map (fun x => Py.strip (default "None" x))
                        (List.filter truthy_str items)
           | v => List.filter Py.nonempty
                    (List.map Py.strip (Py.split "," (str repr_list v)))
           end
  /\ (forall s, Py.join "," (Py.split "," s) = s
               /\ forall piece, piece ∈ Py.split "," s -> free_of "," piece = true)
  /\ (forall piece, trimming_of piece (Py.strip piece))
  /\ (forall s, normalize s = lowercase_alphanumerics s)
  /\ (forall token,
        token_match_nonempty table token
        = match ODict.get (lowercase_alphanumerics token) table with
          | Some (String c cid) => Some (String c cid)
          | _ =>
              snd <$> List.find
                        (fun kv =>
                           Py.contains (lowercase_alphanumerics token) kv.1
                           || Py.contains kv.1 (lowercase_alphanumerics token))
                        table
          end)
  /\ (forall a,
        step r questions choice_map a (col, qid)
        = match ids with [] => a | _ => <[ qid := AChoices ids ]> a end)
  /\ (ids_nonempty table = true -> ids = omap (token_match table) tokens)
  /\ (forall ds t tq answers st,
        sole_column DB_TO_QID col qid = true ->
        ODict.get "timeframe" DB_TO_QID = Some tq -> tq ≠ qid ->
        build r questions choice_map ds t = Returned (Some answers, st) ->
        answers !! qid = match ids with [] => None | _ => Some (AChoices ids) end).
Proof.
  intros H1 H2 Hv Hq Ht table tokens ids.
  split; [unfold tokens, choice_labels; destruct (row_get r col); reflexivity|].
  split; [intros s; split; [apply join_split|intros piece; apply split_free_of]|].
  split; [apply strip_words|]. split; [apply normalize_words|].
  split.
  { intros token. unfold token_match_nonempty, substring_match.
    rewrite normalize_words.
    destruct (ODict.get (lowercase_alphanumerics token) table) as [[|c cid]|];
      reflexivity. }
  split.
  { intros a. rewrite map_column_answer.
    rewrite (column_answer_choice_tokens r questions choice_map col qid q)
      by assumption.
    fold table tokens ids. destruct ids; reflexivity. }
  split.
  { intros Hne. unfold ids. clearbody tokens.
    induction tokens as [|tok tokens IH]; [reflexivity|]. cbn [omap list_omap].
    rewrite token_match_nonempty_eq, IH by assumption. reflexivity. }
  intros ds t tq answers st Hsole Htq Hne Hres.
  apply andb_prop in Hsole as [Hex Hall].
  apply (build_form_answers_accepted _ _ _ _ _ tq) in Hres as [_ ->];
    [|assumption].
  rewrite (fold_map_column_sole r questions choice_map DB_TO_QID _ col qid)
    by assumption.
  rewrite Hex, (column_answer_choice_tokens r questions choice_map col qid q)
    by assumption.
  rewrite lookup_insert_ne, lookup_empty by assumption.
  fold table tokens ids. destruct ids; reflexivity.
Qed.

(** For a permanent row the validation skips the ending date, but the loop
    over [DB_TO_QID] reads the column from the row again: when the column
    is mapped to a date question, the payload of the accepted row carries
    it. *)
Lemma permanent_row_payload_carries_ending_date
    (r : row) (questions : gmap string question)
    (choice_map : gmap string (ODict.t string))
    (ds : defaults) (t : tracking) (tq qid : string) (q : question) :
  ODict.get "timeframe" DB_TO_QID = Some tq ->
  sole_column DB_TO_QID "approximateendingdate" qid = true -> tq ≠ qid ->
  timeframe_norm_of repr_list r = "permanent" ->
  truthy_str (ODict.get "permanent" (default [] (choice_map !! tq))) = true ->
  questions !! qid = Some q -> qtype q = "da" ->
  row_get r "approximateendingdate" ≠ VNone ->
  exists answers,
    build r questions choice_map ds t = Returned (Some answers, (ds, t))
    /\ answers !! qid
       = Some (ADate (match to_date_obj (row_get r "approximateendingdate") with
                      | Some d => Date.isoformat d
                      | None => str repr_list (row_get r "approximateendingdate")
                      end)).
Proof.
  intros Htq Hsole Hne Hn Hm Hq Ht Hv.
  apply andb_prop in Hsole as [Hex Hall].
  pose proof (build_form_answers_cases DB_TO_QID repr_list r questions choice_map
                ds t tq Htq) as Hres.
  cbv zeta in Hres. rewrite Hn, Hm in Hres. cbn in Hres.
  eexists. split; [exact Hres|].
  rewrite (fold_map_column_sole r questions choice_map DB_TO_QID _
             "approximateendingdate" qid) by assumption.
  rewrite Hex, (column_answer_date r questions choice_map _ qid q);
    try assumption; try discriminate.
  reflexivity.
Qed.

End ChoiceValues.

(** ** The validation and the choice matching on the sample form *)

Example choice_map_example :
  sample_choice_map !! "4"
  = Some [("humanresources", "40"); ("informationtechnology", "41")].
Proof. vm_compute. reflexivity. Qed.

(** End before start is rejected and flagged; end after start is accepted;
    equal dates are rejected. *)
Example timeframe_validation_example :
  let run needed ending :=
    build_form_answers sample_DB_TO_QID sample_repr
      (sample_request "Temporary" needed ending)
      sample_questions sample_choice_map DEFAULT_STATE (sample_tracking None []) in
  (match run "2024-06-01" "2024-05-01" with
   | Returned (None, (ds', t')) =>
       Tracking.flagged ds' t' !! Some "a@x.com" = Some flag_date_order
   | _ => False
   end)
  /\ (match run "2024-06-01" "2024-06-01" with
      | Returned (None, (ds', t')) =>
          Tracking.flagged ds' t' !! Some "a@x.com" = Some flag_date_order
      | _ => False
      end)
  /\ (match run "2024-06-01" "soon" with
      | Returned (None, (ds', t')) =>
          Tracking.flagged ds' t' !! Some "a@x.com" = Some flag_missing_dates
      | _ => False
      end)
  /\ (match run "2024-06-01" "2024-07-01" with
      | Returned (Some answers, st) =>
          st = (DEFAULT_STATE, sample_tracking None [])
          /\ answers !! "1" = Some (AChoices ["100"])
          /\ answers !! "3" = Some (ADate "2024-07-01")
      | _ => False
      end).
Proof. cbv zeta. repeat apply conj; vm_compute; repeat apply conj; reflexivity. Qed.

Example build_form_answers_timeframe_dates_use :
  exists ds' t',
    build_form_answers sample_DB_TO_QID sample_repr
      (sample_request "Temporary" "2024-06-01" "2024-05-01")
      sample_questions sample_choice_map DEFAULT_STATE (sample_tracking None [])
    = Returned (None, (ds', t'))
    /\ is_Some (Tracking.flagged ds' t' !! Some "a@x.com").
Proof.
  pose proof (build_form_answers_timeframe_dates sample_DB_TO_QID sample_repr
                (sample_request "Temporary" "2024-06-01" "2024-05-01")
                sample_questions sample_choice_map DEFAULT_STATE
                (sample_tracking None []) "1" eq_refl) as H.
  cbv zeta in H. destruct H as (H & _).
  destruct H as (ds' & t' & reason & E & F & _).
  - reflexivity.
  - right. right. exists D(2024, 6, 1), D(2024, 5, 1).
    repeat split; reflexivity.
  - exists ds', t'. split; [exact E|]. exists reason. exact F.
Defined.

(** Exact match, substring match in either direction, and a token that
    matches nothing. *)
Example token_match_example :
  let table := [("humanresources", "40"); ("informationtechnology", "41")] in
  token_match table "Information Technology" = Some "41"
  /\ token_match table "Human" = Some "40"
  /\ token_match table "Information Technology Services" = Some "41"
  /\ token_match table "Finance" = None
  /\ token_match table "--" = Some "40".
Proof. cbv zeta. repeat apply conj; vm_compute; repeat apply conj; reflexivity. Qed.

(** A token in another case and with punctuation matches its label; with
    a table that holds an empty id, the exact hit on that entry is passed
    over and the substring match decides. *)
Example token_match_nonempty_example :
  let table := [("humanresources", "40"); ("informationtechnology", "41")] in
  let holed := [("human", "44"); ("humanresources", EmptyString)] in
  token_match_nonempty table "HUMAN-resources!" = Some "40"
  /\ token_match_nonempty table "Human  Resources " = Some "40"
  /\ token_match_nonempty holed "Human Resources" = Some "44"
  /\ token_match holed "Human Resources" = Some EmptyString
  /\ build_choice_label_to_id_map empty_id_questions !! "4" = Some holed.
Proof. cbv zeta. repeat apply conj; vm_compute; repeat apply conj; reflexivity. Qed.

(** C6 as stated does not hold: with a form in which the choice
    [Human Resources] has the empty text as its id, the value
    [Human Resources] has an exact match, but the loop passes it over
    (`if cid:`) and takes the substring match [human] instead: the turn
    stores the id ["44"], not the id of the exact match. *)
Lemma build_form_answers_exact_match_first_fails :
  ~ (forall (r : row) (questions : gmap string question)
            (choice_map : gmap string (ODict.t string))
            (a : gmap string answer) (col qid : string) (q : question),
        col ≠ "timeframe" -> col ≠ "handsetsandheadsets" ->
        row_get r col ≠ VNone ->
        questions !! qid = Some q -> qtype q = "cs" \/ qtype q = "cm" ->
        map_column sample_repr r questions choice_map a (col, qid)
        = match matched_ids (default [] (choice_map !! qid))
                  (choice_labels sample_repr (row_get r col)) with
          | [] => a
          | ids => <[ qid := AChoices ids ]> a
          end).
Proof.
  intros H.
  specialize (H (sample_department_row "Human Resources") empty_id_questions
                (build_choice_label_to_id_map empty_id_questions) ∅
                "departmentname" "4"
                (mkQuestion "cs"
                   [ mkChoice (Some "Human") (Some "44");
                     mkChoice (Some "Human Resources") (Some EmptyString) ])).
  assert (map_column sample_repr (sample_department_row "Human Resources")
            empty_id_questions (build_choice_label_to_id_map empty_id_questions)
            ∅ ("departmentname", "4") !! "4"
          = Some (AChoices ["44"])) as Hcode by (vm_compute; reflexivity).
  rewrite H in Hcode; [|discriminate|discriminate|discriminate|reflexivity|left; reflexivity].
  vm_compute in Hcode. discriminate Hcode.
Qed.

Lemma build_form_answers_choice_value_witness :
  exists answers,
    build_form_answers sample_DB_TO_QID sample_repr
      (sample_department_row "Information Technology, Human, Finance")
      sample_questions sample_choice_map DEFAULT_STATE (sample_tracking None [])
    = Returned (Some answers, (DEFAULT_STATE, sample_tracking None []))
    /\ answers !! "4" = Some (AChoices ["41"; "40"]).
Proof.
  eexists.
  match goal with
  | |- ?L = ?R /\ _ => assert (L = R) as Hrun by (vm_compute; reflexivity)
  end.
  split; [exact Hrun|].
  pose proof (build_form_answers_choice_value sample_DB_TO_QID sample_repr
                (sample_department_row "Information Technology, Human, Finance")
                sample_questions sample_choice_map "departmentname" "4"
                (mkQuestion "cs"
                   [ mkChoice (Some "Human Resources") (Some "40");
                     mkChoice (Some "Information Technology") (Some "41") ])) as H.
  cbv zeta in H.
  destruct H as (_ & _ & _ & _ & _ & _ & _ & Hpayload);
    [discriminate|discriminate|discriminate|reflexivity|left; reflexivity|].
  rewrite (Hpayload DEFAULT_STATE (sample_tracking None []) "1" _ _
             eq_refl eq_refl ltac:(discriminate) Hrun).
  vm_compute. reflexivity.
Defined.

(** ** Finalisation and [sorted] *)

Section Finalize.

Lemma sorted_Sorted (s : gset string) : Sorted String.le (sorted s).
Proof. apply (Sorted_merge_sort String.le). Qed.

Lemma sorted_Permutation (s : gset string) : sorted s ≡ₚ elements s.
Proof. apply (merge_sort_Permutation String.le). Qed.

Lemma elem_of_sorted (s : gset string) e : e ∈ sorted s <-> e ∈ s.
Proof. rewrite sorted_Permutation. apply elem_of_elements. Qed.

Lemma NoDup_sorted (s : gset string) : NoDup (sorted s).
Proof. rewrite sorted_Permutation. apply NoDup_elements. Qed.

Example sorted_example :
  sorted ({[ "b@x.com" ]} ∪ {[ "a@x.com" ]} ∪ {[ "b@x.com" ]} ∪ {[ "B@x.com" ]})
  = ["B@x.com"; "a@x.com"; "b@x.com"].
Proof. vm_compute. reflexivity. Qed.

(** C9: finalisation touches two keys of the tracking dict only. The
    [email_to_issue] and [flagged_requests] entries (and any other key) are
    the same objects after it, with the same content; [last_run_date] is the
    ISO text of the day and [processed_emails_same_date] a new sorted list.
    The objects of [DEFAULT_STATE] are not written (the function does not
    take part in the store). *)
Theorem finalize_tracking_after_run_frame
    (today : date) (ds : defaults) (t : tracking) (emails : gset string) :
  let t' := finalize_tracking_after_run today t emails in
  email_to_issue t' = email_to_issue t
  /\ flagged_requests t' = flagged_requests t
  /\ other_keys t' = other_keys t
  /\ Tracking.issues ds t' = Tracking.issues ds t
  /\ Tracking.flagged ds t' = Tracking.flagged ds t
  /\ last_run_date t' = Some (Some (Date.isoformat today))
  /\ processed_emails_same_date t' = Some (Own (sorted emails)).
Proof. cbv zeta. repeat split; reflexivity. Qed.

End Finalize.

(** ** Loading the tracking state *)

Section StateManager.

Example read_tracking_partial_document :
  read_tracking DEFAULT_STATE
    (FileJSON (JObject (mkDocument None None (Some {[ "a@x.com" := "KEY-1" ]})
                          None {[ "note" := "kept" ]})))
  = Returned (mkTracking (Some None) (Some (Own []))
                (Some (Own {[ "a@x.com" := "KEY-1" ]})) (Some (Own ∅))
                {[ "note" := "kept" ]}).
Proof. reflexivity. Qed.

(** [read_tracking] returns for every condition of the backing file. When
    the file is missing, unreadable, or holds something that is not a JSON
    object, it returns the default state: the dict made of the objects of
    [DEFAULT_STATE], which denotes the documented default structure as long
    as these objects are as the module defines them. When the file holds an
    object, every key it has keeps its value, and every missing key is
    filled with a copy of its default: [None], an empty list, an empty
    mapping, again as long as [DEFAULT_STATE] is as the module defines
    it. *)
Lemma read_tracking_total_default_fill (f : file_cond) :
  (forall ds, exists t, read_tracking ds f = Returned t)
  /\ (forall ds,
        f = FileMissing \/ f = FileUnreadable \/ f = FileJSON JOther ->
        read_tracking ds f = Returned default_copy
        /\ Tracking.processed ds default_copy = d_processed ds
        /\ Tracking.issues ds default_copy = d_issue ds
        /\ Tracking.flagged ds default_copy = d_flagged ds)
  /\ (f = FileMissing \/ f = FileUnreadable \/ f = FileJSON JOther ->
      read_tracking DEFAULT_STATE f = Returned default_copy
      /\ snapshot DEFAULT_STATE default_copy = documented_default)
  /\ (forall d, f = FileJSON (JObject d) ->
      exists t, read_tracking DEFAULT_STATE f = Returned t
        /\ last_run_date t = Some (default None (doc_last_run_date d))
        /\ processed_emails_same_date t = Some (Own (default [] (doc_processed d)))
        /\ email_to_issue t = Some (Own (default ∅ (doc_issue d)))
        /\ flagged_requests t
           = Some (Own (match doc_flagged d with
                        | Some m => kmap Some m
                        | None => ∅
                        end))
        /\ other_keys t = doc_other d).
Proof.
  repeat split.
  - intros ds. destruct f as [| |[d|]]; eexists; reflexivity.
  - destruct H as [->|[->| ->]]; reflexivity.
  - destruct H as [->|[->| ->]]; reflexivity.
  - intros d ->. eexists. split; [reflexivity|].
    destruct d as [[w|] [l|] [m|] [fl|] o]; cbn; repeat split; reflexivity.
Qed.

(** C7: [read_tracking] returns, and never raises, for every condition of
    the backing file. The program loads the tracking state once, with
    [DEFAULT_STATE] as the module defines it. When the file is missing,
    unreadable or corrupt (it cannot be decoded, or holds something that is
    not a JSON object), the state returned is the documented default:
    [last_run_date] is [None], [processed_emails_same_date] the empty list,
    [email_to_issue] and [flagged_requests] the empty mapping, and there is
    no other key. When the file holds an object, every documented key it
    has keeps its value, every documented key it lacks gets its default
    ([None], a new empty list, a new empty mapping), and every other key is
    kept as it is. *)
Theorem read_tracking_never_raises (f : file_cond) :
  (forall ds, exists t, read_tracking ds f = Returned t)
  /\ (f = FileMissing \/ f = FileUnreadable \/ f = FileJSON JOther ->
      exists t, read_tracking DEFAULT_STATE f = Returned t
        /\ snapshot DEFAULT_STATE t = documented_default
        /\ Tracking.watermark t = None
        /\ Tracking.processed DEFAULT_STATE t = []
        /\ Tracking.issues DEFAULT_STATE t = ∅
        /\ Tracking.flagged DEFAULT_STATE t = ∅
        /\ other_keys t = ∅)
  /\ (forall d, f = FileJSON (JObject d) ->
      exists t, read_tracking DEFAULT_STATE f = Returned t
        /\ last_run_date t
           = Some (match doc_last_run_date d with Some w => w | None => None end)
        /\ processed_emails_same_date t
           = Some (Own (match doc_processed d with Some l => l | None => [] end))
        /\ email_to_issue t
           = Some (Own (match doc_issue d with Some m => m | None => ∅ end))
        /\ flagged_requests t
           = Some (Own (match doc_flagged d with
                        | Some m => kmap Some m
                        | None => ∅
                        end))
        /\ other_keys t = doc_other d
        /\ snapshot DEFAULT_STATE t = t).
Proof.
  split; [|split].
  - intros ds. destruct f as [| |[d|]]; eexists; reflexivity.
  - intros H. exists default_copy.
    destruct H as [->|[->| ->]]; repeat split; reflexivity.
  - intros d ->. eexists. split; [reflexivity|].
    destruct d as [[w|] [l|] [m|] [fl|] o]; cbn; repeat split; reflexivity.
Qed.

Lemma read_tracking_never_raises_witness :
  read_tracking DEFAULT_STATE FileUnreadable = Returned default_copy
  /\ snapshot DEFAULT_STATE default_copy = documented_default.
Proof.
  destruct (proj1 (proj2 (read_tracking_never_raises FileUnreadable))
              (or_intror (or_introl eq_refl))) as (t & Ht & Hs & _).
  injection Ht as <-. split; [reflexivity|exact Hs].
Defined.

(** The default state shares the objects of [DEFAULT_STATE]: a ticket
    recorded into it is written into [DEFAULT_STATE] itself, and a later
    fallback load by the same process returns it. *)
Lemma default_state_is_shared :
  let '(ds', t') :=
    Tracking.set_issue "a@x.com" "KEY-1" DEFAULT_STATE default_copy in
  t' = default_copy
  /\ d_issue ds' = {[ "a@x.com" := "KEY-1" ]}
  /\ read_tracking ds' FileMissing = Returned default_copy
  /\ Tracking.issues ds' default_copy !! "a@x.com" = Some "KEY-1".
Proof. cbn. repeat split; reflexivity. Qed.

End StateManager.

(** ** Fetching the form definition *)

Section Fetch.

Context {World : Type}.
Context (http_get : World -> string -> World * http_result).

Local Abbreviation fetch := (fetch_form_definition_cloud http_get).

(** C8: with an empty identifier the call raises the validation error
    without any GET. Otherwise it issues GET calls one after the other, at
    most three: an attempt that raises a [RequestException] or answers with
    a status other than 200 and 201 has failed and the next one is made; the
    first response with status 200 or 201 ends the call, with its JSON body
    as the result, or with a [ValueError] when the body is not JSON, and no
    further attempt; after three failed attempts the call raises the
    terminal [RuntimeError]. *)
Theorem fetch_form_definition_cloud_attempts
    (cloud_id service_desk_id request_type_id : string) (w : World) :
  let url := form_url cloud_id service_desk_id request_type_id in
  let a1 := http_get w url in
  let a2 := http_get a1.1 url in
  let a3 := http_get a2.1 url in
  (cloud_id = EmptyString \/ service_desk_id = EmptyString \/ request_type_id = EmptyString ->
   fetch cloud_id service_desk_id request_type_id w = (w, FetchValueError, 0%nat))
  /\ (cloud_id ≠ EmptyString -> service_desk_id ≠ EmptyString ->
      request_type_id ≠ EmptyString ->
      fetch cloud_id service_desk_id request_type_id w
      = if status_ok a1.2 then (a1.1, verdict a1.2, 1%nat)
        else if status_ok a2.2 then (a2.1, verdict a2.2, 2%nat)
        else if status_ok a3.2 then (a3.1, verdict a3.2, 3%nat)
        else (a3.1, FetchRuntimeError, 3%nat))
  /\ ((fetch cloud_id service_desk_id request_type_id w).2 <= 3)%nat.
Proof.
  intros url a1 a2 a3.
  assert (Hmain : cloud_id ≠ EmptyString -> service_desk_id ≠ EmptyString ->
      request_type_id ≠ EmptyString ->
      fetch cloud_id service_desk_id request_type_id w
      = if status_ok a1.2 then (a1.1, verdict a1.2, 1%nat)
        else if status_ok a2.2 then (a2.1, verdict a2.2, 2%nat)
        else if status_ok a3.2 then (a3.1, verdict a3.2, 3%nat)
        else (a3.1, FetchRuntimeError, 3%nat)).
  { intros H1 H2 H3. unfold fetch_form_definition_cloud.
    destruct cloud_id; [contradiction|].
    destruct service_desk_id; [contradiction|].
    destruct request_type_id; [contradiction|].
    cbn [Py.nonempty negb orb seq fetch_loop]. fold url.
    subst a3 a2 a1.
    destruct (http_get w url) as [w1 r1]; cbn [fst snd].
    destruct (http_get w1 url) as [w2 r2]; cbn [fst snd].
    destruct (http_get w2 url) as [w3 r3]; cbn [fst snd].
    destruct r1 as [|s1 b1], r2 as [|s2 b2], r3 as [|s3 b3];
      cbn [status_ok verdict];
      repeat match goal with
      | |- context [(?s =? 200) || (?s =? 201)] =>
          destruct ((s =? 200) || (s =? 201))
      end;
      repeat match goal with b : option form_json |- _ => destruct b end;
      reflexivity. }
  split; [|split].
  - intros H. unfold fetch_form_definition_cloud.
    destruct H as [->|[->| ->]]; cbn [Py.nonempty negb orb];
      rewrite ?orb_true_r; reflexivity.
  - exact Hmain.
  - destruct (decide (cloud_id = EmptyString)) as [->|H1]; [cbn; lia|].
    destruct (decide (service_desk_id = EmptyString)) as [->|H2].
    { unfold fetch_form_definition_cloud. cbn [Py.nonempty negb orb].
      rewrite orb_true_r. cbn. lia. }
    destruct (decide (request_type_id = EmptyString)) as [->|H3].
    { unfold fetch_form_definition_cloud. cbn [Py.nonempty negb orb].
      rewrite orb_true_r. cbn. lia. }
    rewrite Hmain by assumption.
    repeat match goal with |- context [if ?b then _ else _] => destruct b end;
      cbn; lia.
Qed.

End Fetch.

(** Two failed attempts, then a 200 that is not JSON: the call raises after
    the third GET; three failures: the terminal error; an empty identifier:
    no GET at all. *)
Example fetch_examples :
  let w http := mkScript 0 http [] [] D(2024, 5, 1) in
  let fetch http c s r :=
    let '(w', res, gets) := fetch_form_definition_cloud script_http_get c s r (w http) in
    (sc_gets w', res, gets) in
  fetch [RequestException; Response 503 None; Response 200 None] "c" "1" "2"
    = (3%nat, FetchValueError, 3%nat)
  /\ fetch [Response 201 None; Response 200 (Some sample_form)] "c" "1" "2"
     = (1%nat, FetchValueError, 1%nat)
  /\ fetch [Response 500 None; Response 200 (Some sample_form)] "c" "1" "2"
     = (2%nat, FetchOk sample_form, 2%nat)
  /\ fetch [Response 500 None; RequestException; Response 404 (Some sample_form);
            Response 200 (Some sample_form)] "c" "1" "2"
     = (3%nat, FetchRuntimeError, 3%nat)
  /\ fetch [Response 200 (Some sample_form)] "c" EmptyString "2"
     = (0%nat, FetchValueError, 0%nat).
Proof. repeat split; reflexivity. Qed.

(** ** Processing rows *)

Section Processor.

Context (DB_TO_QID : ODict.t string).
Context (repr_list : list (option string) -> string).
Context {World : Type}.
Context (clock : World -> date).
Context (create_request_on_jira : World -> request -> World * option string).

Local Abbreviation build := (build_form_answers DB_TO_QID repr_list).
Local Abbreviation process := (process_row DB_TO_QID repr_list create_request_on_jira).
Local Abbreviation loop := (process_rows DB_TO_QID repr_list clock create_request_on_jira).

Lemma issues_set_issue email key ds t :
  Tracking.issues (Tracking.set_issue email key ds t).1
                  (Tracking.set_issue email key ds t).2
  = <[ email := key ]> (Tracking.issues ds t).
Proof.
  unfold Tracking.set_issue, Tracking.issues.
  destruct t as [lr pe [[|m]|] fl ok]; cbn; reflexivity.
Qed.

(** [build_form_answers] leaves the tickets alone, and leaves the whole
    state alone when it accepts the row. *)
Lemma build_form_answers_state r questions choice_map ds t a ds' t' :
  build r questions choice_map ds t = Returned (a, (ds', t')) ->
  Tracking.issues ds' t' = Tracking.issues ds t
  /\ (is_Some a -> ds' = ds /\ t' = t).
Proof.
  unfold build_form_answers. intros H.
  assert (forall e reason,
             Tracking.set_flagged e reason ds t = (ds', t') ->
             Tracking.issues ds' t' = Tracking.issues ds t) as Hflag.
  { intros e reason E. pose proof (issues_set_flagged e reason ds t) as Hi.
    rewrite E in Hi. exact Hi. }
  repeat case_match; simplify_eq; try (split; [eauto|]);
    try (intros [? ?]; discriminate); try (intros _; split; reflexivity);
    try reflexivity.
Qed.

(** What one call of [process_row] can do. *)
Lemma process_row_returns r ds t questions choice_map w w' posts res :
  process r ds t questions choice_map w = (w', posts, Returned res) ->
  (forall e k, Tracking.issues ds t !! e = Some k ->
     Tracking.issues (rr_defaults res) (rr_tracking res) !! e = Some k)
  /\ (rr_processed res = false ->
      Tracking.issues (rr_defaults res) (rr_tracking res) = Tracking.issues ds t)
  /\ (posts = []
      \/ exists e req, posts = [EvPost e req] /\ get_email r = Some e
           /\ Py.nonempty e = true /\ Tracking.issues ds t !! e = None)
  /\ (rr_processed res = true ->
      exists e req key,
        posts = [EvPost e req] /\ get_email r = Some e /\ rr_email res = Some e
        /\ Py.nonempty e = true
        /\ Tracking.issues ds t !! e = None
        /\ Tracking.issues (rr_defaults res) (rr_tracking res)
           = <[ e := key ]> (Tracking.issues ds t)
        /\ rr_created res = created_iso r).
Proof.
  unfold process_row. intros H.
  destruct (get_email r) as [email|] eqn:He.
  2:{ simplify_eq. cbn. repeat split; auto; discriminate. }
  destruct (negb (Py.nonempty email)) eqn:Hne.
  { simplify_eq. cbn. repeat split; auto; discriminate. }
  apply negb_false_iff in Hne.
  destruct (bool_decide (is_Some (Tracking.issues ds t !! email))) eqn:Hknown.
  { simplify_eq. cbn. repeat split; auto; discriminate. }
  apply bool_decide_eq_false in Hknown.
  assert (Tracking.issues ds t !! email = None) as Hnone.
  { destruct (Tracking.issues ds t !! email) eqn:E; [|reflexivity].
    exfalso. apply Hknown. eexists. reflexivity. }
  destruct (build r questions choice_map ds t) as [|[[answers|] [ds1 t1]]] eqn:Hb;
    [discriminate| |].
  - apply build_form_answers_state in Hb as [_ Hsame].
    destruct Hsame as [-> ->]; [eexists; reflexivity|].
    match type of H with
    | match ?o with Raised => _ | Returned _ => _ end = _ =>
        destruct o as [|form_answers]; [discriminate|]
    end.
    destruct (create_request_on_jira w _) as [w1 [issue_key|]] eqn:Hj.
    + destruct (Tracking.set_issue email issue_key ds t) as [ds2 t2] eqn:Hs.
      pose proof (issues_set_issue email issue_key ds t) as Hi.
      rewrite Hs in Hi. cbn in Hi.
      simplify_eq. cbn. repeat split.
      * intros e k Hk. rewrite Hi. rewrite lookup_insert_ne; [assumption|].
        intros ->. congruence.
      * discriminate.
      * right. eexists _, _. repeat split; eauto.
      * intros _. eexists _, _, _. repeat split; eauto.
    + simplify_eq. cbn. repeat split; auto; try discriminate.
      right. eexists _, _. repeat split; eauto.
  - apply build_form_answers_state in Hb as [Hiss _].
    simplify_eq. cbn. repeat split; auto; try discriminate.
    intros e k Hk. rewrite Hiss. assumption.
Qed.

Lemma process_row_raises r ds t questions choice_map w w' posts :
  process r ds t questions choice_map w = (w', posts, Raised) ->
  w' = w /\ posts = [].
Proof.
  unfold process_row. intros H.
  repeat case_match; simplify_eq; split; reflexivity.
Qed.

(** A row whose identity key already has a ticket: nothing happens. *)
Lemma process_row_known r ds t questions choice_map w e k :
  get_email r = Some e -> Tracking.issues ds t !! e = Some k ->
  process r ds t questions choice_map w
  = (w, [], Returned (mkRowResult ds t false None
                        (if Py.nonempty e then Some e else None))).
Proof.
  intros He Hk. unfold process_row. rewrite He.
  destruct (Py.nonempty e); cbn [negb]; [|reflexivity].
  rewrite bool_decide_eq_true_2; [reflexivity|]. eexists. exact Hk.
Qed.

(** The loop of [main]: tickets on file stay, what is logged are
    create-request calls for keys without a ticket and writes of the state,
    and what is collected are keys of rows submitted with success. *)
Lemma process_rows_inv rows questions choice_map :
  forall ds t emails w log w' log' ds' t' emails',
  loop rows questions choice_map ds t emails w log = (w', log', (ds', t'), emails') ->
  (forall e k, Tracking.issues ds t !! e = Some k ->
     Tracking.issues ds' t' !! e = Some k)
  /\ exists new, log' = log ++ new
      /\ (forall ev, ev ∈ new ->
            (exists e req, ev = EvPost e req /\ Tracking.issues ds t !! e = None
               /\ exists r, r ∈ rows /\ get_email r = Some e)
            \/ (exists s, ev = EvWrite s))
      /\ (forall e, e ∈ emails' ->
            e ∈ emails
            \/ ((exists req, EvPost e req ∈ new)
                /\ Tracking.issues ds t !! e = None
                /\ is_Some (Tracking.issues ds' t' !! e)
                /\ exists r w0, r ∈ rows /\ get_email r = Some e
                     /\ created_iso r = Some (Date.isoformat (clock w0)))).
Proof.
  induction rows as [|r rows IH]; intros ds t emails w log w' log' ds' t' emails' H.
  - cbn in H. simplify_eq. split; [auto|].
    exists []. rewrite app_nil_r. split; [reflexivity|].
    split; [intros ev Hev; inversion Hev|]. intros e He. left. assumption.
  - cbn [process_rows] in H.
    destruct (process r ds t questions choice_map w) as [[w1 posts] [|res]] eqn:Hp.
    + apply process_row_raises in Hp as [-> ->].
      apply IH in H as (Hkeep & new & -> & Hev & Hem).
      split; [assumption|]. exists new. rewrite app_nil_r. split; [reflexivity|].
      split.
      * intros ev Hin. destruct (Hev ev Hin) as [(e & req & -> & Hn & r0 & Hr0 & He0)|Hw];
          [left|right; assumption].
        eexists _, _. repeat split; eauto. exists r0. split; [|assumption].
        apply elem_of_cons. right. assumption.
      * intros e He. destruct (Hem e He) as [?|(Hpost & Hn & Hs & r0 & w0 & Hr0 & He0 & Hc)];
          [left; assumption|right].
        repeat split; auto. exists r0, w0. repeat split; auto.
        apply elem_of_cons. right. assumption.
    + pose proof (process_row_returns _ _ _ _ _ _ _ _ _ Hp)
        as (Hkeep1 & _ & Hposts & Hproc).
      apply IH in H as (Hkeep & new & -> & Hev & Hem).
      split; [auto|].
      exists (posts ++ [write_tracking (rr_defaults res) (rr_tracking res)] ++ new).
      split; [rewrite <- !app_assoc; reflexivity|].
      assert (forall e, Tracking.issues (rr_defaults res) (rr_tracking res) !! e = None ->
                Tracking.issues ds t !! e = None) as Hback.
      { intros e Hn. destruct (Tracking.issues ds t !! e) eqn:E; [|reflexivity].
        apply Hkeep1 in E. congruence. }
      split.
      * intros ev Hin. rewrite !elem_of_app in Hin.
        destruct Hin as [Hin|[Hin|Hin]].
        -- destruct Hposts as [->|(e & req & -> & He & _ & Hn)]; [inversion Hin|].
           apply list_elem_of_singleton in Hin. subst ev. left.
           eexists _, _. repeat split; eauto. exists r. split; [|assumption].
           apply elem_of_cons. left. reflexivity.
        -- apply list_elem_of_singleton in Hin. right. eexists. eassumption.
        -- destruct (Hev ev Hin) as [(e & req & -> & Hn & r0 & Hr0 & He0)|Hw];
             [left|right; assumption].
           eexists _, _. repeat split; eauto. exists r0. split; [|assumption].
           apply elem_of_cons. right. assumption.
      * intros e He. destruct (Hem e He) as [Hin|(Hpost & Hn & Hs & r0 & w0 & Hr0 & He0 & Hc)].
        -- destruct (rr_created res) as [row_date_str|] eqn:Hcr;
             [|left; assumption].
           destruct (rr_email res) as [email|] eqn:Hmail; [|left; assumption].
           destruct (rr_processed res && _ && _) eqn:Hcond; [|left; assumption].
           apply elem_of_union in Hin as [Hin|Hin]; [|left; assumption].
           apply elem_of_singleton in Hin. subst e. right.
           apply andb_prop in Hcond as [Hcond Hne].
           apply andb_prop in Hcond as [Hpr Htoday].
           destruct (Hproc Hpr) as (e & req & key & -> & Hge & Hre & _ & Hn & Hi & Hc).
           injection Hre as <-.
           repeat split.
           ++ exists req. apply elem_of_app. left. apply list_elem_of_singleton. reflexivity.
           ++ assumption.
           ++ exists key. apply Hkeep. rewrite Hi. apply lookup_insert_eq.
           ++ exists r, w1. split; [apply elem_of_cons; left; reflexivity|].
              split; [assumption|]. rewrite <- Hc.
              apply String.eqb_eq in Htoday. rewrite Htoday. reflexivity.
        -- right. destruct Hpost as [req Hreq]. repeat split; auto.
           ++ exists req. rewrite !elem_of_app. auto.
           ++ exists r0, w0. repeat split; auto. apply elem_of_cons. right. assumption.
Qed.

(** C2: when [email_to_issue] already maps the identity key of a row to a
    ticket, [process_row] returns at once: no create-request call, the
    world, the store and the tracking dict unchanged. And once a key has a
    ticket, however many rows the loop processes afterwards, the entry
    stays what it is and no create-request call is made for that key. *)
Theorem process_row_skips_known_key
    (r : row) (rows : list row) (questions : gmap string question)
    (choice_map : gmap string (ODict.t string))
    (ds : defaults) (t : tracking) (w : World)
    (emails : gset string) (log : list event) (e k : string) :
  Tracking.issues ds t !! e = Some k ->
  (get_email r = Some e ->
   exists res,
     process r ds t questions choice_map w = (w, [], Returned res)
     /\ rr_defaults res = ds /\ rr_tracking res = t /\ rr_processed res = false)
  /\ (forall w' log' ds' t' emails',
        loop rows questions choice_map ds t emails w log
        = (w', log', (ds', t'), emails') ->
        Tracking.issues ds' t' !! e = Some k
        /\ exists new, log' = log ++ new /\ forall req, EvPost e req ∉ new).
Proof.
  intros Hk. split.
  - intros He. eexists. split; [apply (process_row_known r ds t questions choice_map w e k He Hk)|].
    repeat split; reflexivity.
  - intros w' log' ds' t' emails' H.
    apply process_rows_inv in H as (Hkeep & new & -> & Hev & _).
    split; [auto|]. exists new. split; [reflexivity|].
    intros req Hin. destruct (Hev _ Hin) as [(e' & req' & E & Hn & _)|[s E]].
    + injection E as <- <-. congruence.
    + discriminate.
Qed.

End Processor.

(** ** The run *)

Section Main.

Context (DB_TO_QID : ODict.t string).
Context (repr_list : list (option string) -> string).
Context (CLOUD_ID SERVICE_DESK_ID REQUEST_TYPE_ID : string).
Context {World : Type}.
Context (clock : World -> date).
Context (http_get : World -> string -> World * http_result).
Context (create_request_on_jira : World -> request -> World * option string).
Context (fetch_rows_on_or_after : World -> option string -> World * list row).

Local Abbreviation process := (process_row DB_TO_QID repr_list create_request_on_jira).
Local Abbreviation loop := (process_rows DB_TO_QID repr_list clock create_request_on_jira).
Local Abbreviation submits :=
  (submits_today DB_TO_QID repr_list clock create_request_on_jira).
Local Abbreviation run_main :=
  (main DB_TO_QID repr_list CLOUD_ID SERVICE_DESK_ID REQUEST_TYPE_ID
        clock http_get create_request_on_jira fetch_rows_on_or_after).

(** The world and the state the loop reaches do not depend on what has been
    logged or collected before. *)
Lemma process_rows_state rows questions choice_map :
  forall ds t emails1 emails2 w log1 log2,
  let a := loop rows questions choice_map ds t emails1 w log1 in
  let b := loop rows questions choice_map ds t emails2 w log2 in
  a.1.1.1 = b.1.1.1 /\ a.1.2 = b.1.2.
Proof.
  induction rows as [|r rows IH]; intros ds t emails1 emails2 w log1 log2; cbn zeta.
  - split; reflexivity.
  - cbn [process_rows].
    destruct (process r ds t questions choice_map w) as [[w1 posts] [|res]].
    + apply IH.
    + apply IH.
Qed.

(** What the loop collects: the keys it had, and the keys of the rows it
    submits with success on their own day. *)
Lemma process_rows_collects rows questions choice_map :
  forall ds t emails w log e,
  e ∈ (loop rows questions choice_map ds t emails w log).2
  <-> e ∈ emails \/ exists i, submits rows questions choice_map ds t w i e.
Proof.
  induction rows as [|r rows IH]; intros ds t emails w log e.
  - cbn. split; [auto|]. intros [?|(i & r & Hr & _)]; [assumption|].
    rewrite lookup_nil in Hr. discriminate.
  - cbn [process_rows].
    assert (forall i ds1 t1 w1 posts o,
               process r ds t questions choice_map w = (w1, posts, o) ->
               ds1 = match o with Returned res => rr_defaults res | Raised => ds end ->
               t1 = match o with Returned res => rr_tracking res | Raised => t end ->
               (submits (r :: rows) questions choice_map ds t w (S i) e
                <-> submits rows questions choice_map ds1 t1 w1 i e)) as Hshift.
    { intros i ds1 t1 w1 posts o Hp -> ->. unfold submits_today.
      cbn [take lookup list_lookup process_rows]. rewrite Hp.
      assert (forall em1 lg1,
                 let a := loop (take i rows) questions choice_map
                            (match o with Returned res => rr_defaults res | Raised => ds end)
                            (match o with Returned res => rr_tracking res | Raised => t end)
                            em1 w1 lg1 in
                 let b := loop (take i rows) questions choice_map
                            (match o with Returned res => rr_defaults res | Raised => ds end)
                            (match o with Returned res => rr_tracking res | Raised => t end)
                            ∅ w1 [] in
                 a.1.1.1 = b.1.1.1 /\ a.1.2 = b.1.2) as Hst.
      { intros em1 lg1. apply process_rows_state. }
      destruct o as [|res].
      - specialize (Hst ∅ ([] ++ posts)). cbn zeta in Hst.
        destruct (loop (take i rows) _ _ _ _ ∅ w1 ([] ++ posts))
          as [[[wa la] [dsa ta]] ea].
        destruct (loop (take i rows) _ _ _ _ ∅ w1 [])
          as [[[wb lb] [dsb tb]] eb].
        cbn in Hst. destruct Hst as [-> [= -> ->]]. reflexivity.
      - match goal with
        | |- context [loop (take i rows) _ _ _ _ ?em w1 ?lg] =>
            specialize (Hst em lg); cbn zeta in Hst;
            destruct (loop (take i rows) questions choice_map
                        (rr_defaults res) (rr_tracking res) em w1 lg)
              as [[[wa la] [dsa ta]] ea]
        end.
        destruct (loop (take i rows) _ _ _ _ ∅ w1 [])
          as [[[wb lb] [dsb tb]] eb].
        cbn in Hst. destruct Hst as [-> [= -> ->]]. reflexivity. }
    assert (forall P : Prop,
               (submits (r :: rows) questions choice_map ds t w 0 e <-> P) ->
               forall ds1 t1 w1 posts o,
               process r ds t questions choice_map w = (w1, posts, o) ->
               ds1 = match o with Returned res => rr_defaults res | Raised => ds end ->
               t1 = match o with Returned res => rr_tracking res | Raised => t end ->
               ((exists i, submits (r :: rows) questions choice_map ds t w i e)
                <-> P \/ exists i, submits rows questions choice_map ds1 t1 w1 i e))
      as Hsplit.
    { intros P HP ds1 t1 w1 posts o Hp E1 E2. split.
      - intros [[|i] Hi]; [left; apply HP, Hi|right].
        exists i. apply (Hshift i ds1 t1 w1 posts o Hp E1 E2), Hi.
      - intros [HP'|[i Hi]]; [exists 0%nat; apply HP, HP'|].
        exists (S i). apply (Hshift i ds1 t1 w1 posts o Hp E1 E2), Hi. }
    destruct (process r ds t questions choice_map w) as [[w1 posts] [|res]] eqn:Hp.
    + rewrite IH.
      rewrite (Hsplit False) with (o := @Raised row_result) (posts := posts)
                                  (ds1 := ds) (t1 := t) (w1 := w1);
        try reflexivity; [tauto|].
      unfold submits_today. cbn. split; [|contradiction].
      intros (r0 & [= <-] & w' & posts' & res' & Hp' & _). congruence.
    + rewrite IH.
      rewrite (Hsplit (rr_processed res = true /\ rr_email res = Some e
                       /\ rr_created res = Some (Date.isoformat (clock w1))))
        with (o := Returned res) (posts := posts)
             (ds1 := rr_defaults res) (t1 := rr_tracking res) (w1 := w1);
        try reflexivity.
      2:{ unfold submits_today. cbn. split.
          - intros (r0 & [= <-] & w' & posts' & res' & Hp' & H).
            rewrite Hp in Hp'. simplify_eq. assumption.
          - intros H. exists r. split; [reflexivity|]. eexists _, _, _.
            split; [exact Hp|exact H]. }
      assert (e ∈ match rr_created res, rr_email res with
                  | Some row_date_str, Some email =>
                      if rr_processed res
                         && String.eqb row_date_str (Date.isoformat (clock w1))
                         && Py.nonempty email
                      then {[ email ]} ∪ emails else emails
                  | _, _ => emails
                  end
              <-> e ∈ emails
                  \/ (rr_processed res = true /\ rr_email res = Some e
                      /\ rr_created res = Some (Date.isoformat (clock w1)))) as Hstep.
      { pose proof (process_row_returns _ _ _ _ _ _ _ _ _ _ _ _ Hp) as (_ & _ & _ & Hproc).
        destruct (rr_created res) as [d|].
        2:{ split; [auto|]. intros [?|(_ & _ & ?)]; [assumption|discriminate]. }
        destruct (rr_email res) as [email|].
        2:{ split; [auto|]. intros [?|(_ & ? & _)]; [assumption|discriminate]. }
        destruct (rr_processed res) eqn:Hpr; cbn [andb].
        2:{ split; [auto|intros [?|(? & _)]; [assumption|discriminate]]. }
        destruct (Hproc eq_refl) as (e0 & _ & _ & _ & _ & [= <-] & Hne & _).
        rewrite Hne, andb_true_r.
        destruct (String.eqb_spec d (Date.isoformat (clock w1))) as [->|Hd].
        - rewrite elem_of_union, elem_of_singleton. split.
          + intros [->|?]; [right; repeat split; reflexivity|left; assumption].
          + intros [?|(_ & [= ->] & _)]; [right; assumption|left; reflexivity].
        - split; [auto|]. intros [?|(_ & _ & [= ?])]; [assumption|contradiction]. }
      rewrite Hstep. tauto.
Qed.

Lemma not_elem_of_repeat_get url n : EvFinalize ∉ repeat (EvGet url) n.
Proof.
  intros H. apply list_elem_of_In, repeat_spec in H. discriminate.
Qed.

(** C3 (as amended): a run that obtains the form definition and selects at
    least one row calls the finalisation exactly once, after the loop and
    whatever the loop did with the rows; the state it leaves has the ISO
    text of the current day as [last_run_date], and as
    [processed_emails_same_date] a new list, sorted and without repetition,
    of exactly the keys the loop submitted with success for a row dated on
    the current day. A run that fails to obtain the form definition, or
    selects no row, ends without finalisation and leaves the loaded state as
    it is. *)
Theorem main_finalizes_when_rows_selected
    (ds : defaults) (f : file_cond) (w : World) :
  let r := run_main ds f w in
  let t0 := match read_tracking ds f with
            | Returned t => t
            | Raised => default_copy
            end in
  let fetched :=
    fetch_form_definition_cloud http_get CLOUD_ID SERVICE_DESK_ID REQUEST_TYPE_ID w in
  let queried := fetch_rows_on_or_after fetched.1.1 (Tracking.watermark t0) in
  let selected := filter_rows_for_processing queried.2 ds t0 in
  (run_exit r = ExitComplete
   <-> (exists form, fetched.1.2 = FetchOk form) /\ selected ≠ [])
  /\ (run_exit r = ExitComplete ->
      exists log emails t1 form,
        fetched.1.2 = FetchOk form
        /\ run_events r
           = log ++ [EvFinalize; write_tracking (run_defaults r) (run_tracking r)]
        /\ (EvFinalize ∉ log)
        /\ run_tracking r
           = finalize_tracking_after_run (clock (run_world r)) t1 emails
        /\ last_run_date (run_tracking r)
           = Some (Some (Date.isoformat (clock (run_world r))))
        /\ processed_emails_same_date (run_tracking r) = Some (Own (sorted emails))
        /\ Sorted String.le (sorted emails) /\ NoDup (sorted emails)
        /\ (forall e,
              e ∈ sorted emails
              <-> exists i,
                    submits selected (extract_questions_from_form form)
                      (build_choice_label_to_id_map (extract_questions_from_form form))
                      ds t0 queried.1 i e)
        /\ (forall e, e ∈ sorted emails ->
              (exists req, EvPost e req ∈ log)
              /\ exists row w0, row ∈ selected /\ get_email row = Some e
                   /\ created_iso row = Some (Date.isoformat (clock w0))))
  /\ (run_exit r ≠ ExitComplete ->
      (EvFinalize ∉ run_events r) /\ run_tracking r = t0 /\ run_defaults r = ds).
Proof.
  cbv zeta. unfold main.
  set (t0 := match read_tracking ds f with
             | Returned t => t
             | Raised => default_copy
             end).
  destruct (fetch_form_definition_cloud http_get CLOUD_ID SERVICE_DESK_ID
              REQUEST_TYPE_ID w) as [[w1 res] gets].
  cbn [fst snd].
  destruct res as [| |form].
  1,2: cbn; split; [split; [discriminate|intros [[form [=]] _]]|];
       (split; [discriminate|]); intros _; split; [apply not_elem_of_repeat_get|];
       split; reflexivity.
  destruct (fetch_rows_on_or_after w1 (Tracking.watermark t0)) as [w2 rows]. cbn [fst snd].
  destruct (filter_rows_for_processing rows ds t0) as [|r0 sel] eqn:Hsel.
  { cbn. split; [split; [discriminate|intros [_ H]; contradiction]|].
    split; [discriminate|]. intros _. split; [apply not_elem_of_repeat_get|].
    split; reflexivity. }
  destruct (loop (r0 :: sel) (extract_questions_from_form form)
              (build_choice_label_to_id_map (extract_questions_from_form form))
              ds t0 ∅ w2 _) as [[[w3 log] [ds' t']] emails] eqn:Hl.
  cbn [run_exit run_events run_tracking run_defaults run_world].
  split; [split; [intros _; split; [eexists; reflexivity|discriminate]|reflexivity]|].
  split; [|intros H; contradiction].
  intros _.
  pose proof (process_rows_inv DB_TO_QID repr_list clock create_request_on_jira
                _ _ _ _ _ _ _ _ _ _ _ _ _ Hl)
    as (_ & new & -> & Hev & Hem).
  exists (repeat (EvGet (form_url CLOUD_ID SERVICE_DESK_ID REQUEST_TYPE_ID)) gets ++ new),
         emails, t', form.
  split; [reflexivity|]. split; [reflexivity|].
  split.
  { rewrite elem_of_app. intros [H|H]; [exact (not_elem_of_repeat_get _ _ H)|].
    destruct (Hev _ H) as [(? & ? & ? & _)|[? ?]]; discriminate. }
  split; [reflexivity|]. split; [reflexivity|]. split; [reflexivity|].
  split; [apply sorted_Sorted|]. split; [apply NoDup_sorted|].
  split.
  - intros e. rewrite elem_of_sorted.
    pose proof (process_rows_collects (r0 :: sel) (extract_questions_from_form form)
                  (build_choice_label_to_id_map (extract_questions_from_form form))
                  ds t0 ∅ w2
                  (repeat (EvGet (form_url CLOUD_ID SERVICE_DESK_ID REQUEST_TYPE_ID)) gets)
                  e) as Hc.
    rewrite Hl in Hc. cbn [snd] in Hc. rewrite Hc.
    split; [intros [H|H]; [|exact H]|auto].
    apply not_elem_of_empty in H. contradiction.
  - intros e He. apply elem_of_sorted in He.
    destruct (Hem e He) as [H|((req & Hreq) & _ & _ & row & w0 & Hrow & Hmail & Hdate)].
    { apply not_elem_of_empty in H. contradiction. }
    split.
    + exists req. apply elem_of_app. right. assumption.
    + exists row, w0. repeat split; assumption.
Qed.

End Main.

(** ** Runs on the scripted world *)

Example first_run_example :
  let r := sample_main DEFAULT_STATE FileMissing sample_world in
  run_exit r = ExitComplete
  /\ List.map kind_of (run_events r)
     = [ KGet; KPost "a@x.com"; KWrite; KPost "b@x.com"; KWrite;
         KPost "c@x.com"; KWrite; KWrite; KWrite; KFinalize; KWrite ]
  /\ Tracking.watermark (run_tracking r) = Some "2024-05-02"
  /\ Tracking.processed (run_defaults r) (run_tracking r) = ["a@x.com"]
  /\ Tracking.issues (run_defaults r) (run_tracking r)
     = {[ "a@x.com" := "KEY-1"; "b@x.com" := "KEY-2" ]}
  /\ Tracking.flagged (run_defaults r) (run_tracking r)
     = {[ Some "d@x.com" := flag_missing_dates ]}.
Proof. cbv zeta. repeat apply conj; vm_compute; repeat apply conj; reflexivity. Qed.

(** The next run on the same day, started from what the first one wrote:
    nothing is submitted again. *)
Example second_run_example :
  let r1 := sample_main DEFAULT_STATE FileMissing sample_world in
  let doc :=
    mkDocument (Some (Some "2024-05-02")) (Some ["a@x.com"])
      (Some {[ "a@x.com" := "KEY-1"; "b@x.com" := "KEY-2" ]})
      (Some {[ "d@x.com" := flag_missing_dates ]}) ∅ in
  let w := mkScript 0 [Response 200 (Some sample_form)] [Some "KEY-9"]
             (sc_table sample_world) D(2024, 5, 2) in
  let r := sample_main DEFAULT_STATE (FileJSON (JObject doc)) w in
  run_exit r = ExitComplete
  /\ List.map kind_of (run_events r)
     = [ KGet; KPost "c@x.com"; KWrite; KWrite; KFinalize; KWrite ]
  /\ Tracking.processed (run_defaults r) (run_tracking r) = ["c@x.com"]
  /\ Tracking.issues (run_defaults r) (run_tracking r)
     = {[ "a@x.com" := "KEY-1"; "b@x.com" := "KEY-2"; "c@x.com" := "KEY-9" ]}.
Proof. cbv zeta. repeat apply conj; vm_compute; repeat apply conj; reflexivity. Qed.

(** With no row to process the run ends before the finalisation: the
    watermark stays as it was. *)
Example no_rows_example :
  let r := sample_main DEFAULT_STATE FileMissing sample_world_no_rows in
  run_exit r = ExitNoRows
  /\ List.map kind_of (run_events r) = [KGet]
  /\ Tracking.watermark (run_tracking r) = None.
Proof. cbv zeta. repeat apply conj; vm_compute; repeat apply conj; reflexivity. Qed.

(** C3 as stated does not hold: a run that obtains the form definition but
    selects no row returns before the finalisation, so finalisation is not
    called and the watermark is not set to the current day. *)
Lemma main_finalizes_every_run_fails :
  ~ (forall (ds : defaults) (f : file_cond) (w : script),
        let r := sample_main ds f w in
        (exists form,
            (fetch_form_definition_cloud script_http_get "cloud-1" "7" "42" w).1.2
            = FetchOk form) ->
        (exists before after,
            run_events r = before ++ EvFinalize :: after
            /\ (EvFinalize ∉ before) /\ (EvFinalize ∉ after))
        /\ Tracking.watermark (run_tracking r)
           = Some (Date.isoformat (script_clock (run_world r)))).
Proof.
  intros H.
  destruct (H DEFAULT_STATE FileMissing sample_world_no_rows) as [_ Hw].
  - eexists. vm_compute. reflexivity.
  - vm_compute in Hw. discriminate Hw.
Qed.

Lemma process_row_skips_known_key_witness :
  let t := mkTracking (Some (Some "2024-05-01")) (Some (Own []))
             (Some (Own {[ "a@x.com" := "KEY-1" ]})) (Some (Own ∅)) ∅ in
  exists res,
    process_row sample_DB_TO_QID sample_repr script_jira_create
      (sample_permanent "a@x.com" "2024-05-02") DEFAULT_STATE t
      sample_questions sample_choice_map sample_world
    = (sample_world, [], Returned res)
    /\ rr_defaults res = DEFAULT_STATE /\ rr_tracking res = t
    /\ rr_processed res = false.
Proof.
  intros t.
  apply (process_row_skips_known_key sample_DB_TO_QID sample_repr
           script_clock script_jira_create
           (sample_permanent "a@x.com" "2024-05-02") []
           sample_questions sample_choice_map DEFAULT_STATE t sample_world
           ∅ [] "a@x.com" "KEY-1"); reflexivity.
Defined.

(** ** Where the code leaves its documentation *)

(** C5 (the code departs from the claim): the comment and the docstring of
    [build_form_answers] say that a permanent request ignores the ending
    date, and the code assigns [approx_end = None] for it; but nothing reads
    [approx_end] afterwards, and the loop over [DB_TO_QID] takes
    [row.get('approximateendingdate')] from the row again. With the column
    mapped to a date question, a permanent row is accepted with its ending
    date in the payload: two rows that differ in the ending date only give
    different payloads, and a row without ending date gives a payload
    without that entry. *)
Theorem permanent_row_submits_ending_date :
  let run r :=
    build_form_answers sample_DB_TO_QID sample_repr r
      sample_questions sample_choice_map DEFAULT_STATE (sample_tracking None []) in
  let dated ending := sample_request "Permanent" "2024-06-01" ending in
  let undated :=
    mkRow {[ "emailaddress" := "a@x.com" ]}
          {[ "timeframe" := VStr "Permanent";
             "dateneededby" := VStr "2024-06-01";
             "createdat" := VStr "2024-05-01" ]} in
  timeframe_norm_of sample_repr (dated "2024-05-01") = "permanent"
  /\ (match run (dated "2024-05-01") with
      | Returned (Some answers, _) => answers !! "3" = Some (ADate "2024-05-01")
      | _ => False
      end)
  /\ (match run (dated "2024-07-01") with
      | Returned (Some answers, _) => answers !! "3" = Some (ADate "2024-07-01")
      | _ => False
      end)
  /\ (match run undated with
      | Returned (Some answers, _) => answers !! "3" = None
      | _ => False
      end).
Proof. cbv zeta. repeat apply conj; vm_compute; repeat apply conj; reflexivity. Qed.

(** ** Dates as text: rendering and parsing *)

Section DateText.

Lemma is_digit_digit_char n : Py.is_digit (Py.digit_char n) = true.
Proof.
  unfold Py.is_digit. rewrite code_digit_char.
  assert (0 <= n mod 10 < 10) by (apply Z.mod_pos_bound; lia).
  apply andb_true_intro. split; apply N.leb_le; lia.
Qed.

Lemma digit_val_digit_char n : Py.digit_val (Py.digit_char n) = n mod 10.
Proof.
  unfold Py.digit_val. rewrite code_digit_char.
  assert (0 <= n mod 10 < 10) by (apply Z.mod_pos_bound; lia).
  lia.
Qed.

Lemma strptime_ymd_year y1 y2 y3 y4 rest :
  Date.strptime_ymd (String y1 (String y2 (String y3 (String y4 (String "-" rest)))))
  = if Py.is_digit y1 && Py.is_digit y2 && Py.is_digit y3 && Py.is_digit y4
    then match Date.parse_month rest with
         | Some (m, rest') =>
             match Date.parse_day rest' with
             | Some dd =>
                 Date.make (1000 * Py.digit_val y1 + 100 * Py.digit_val y2
                            + 10 * Py.digit_val y3 + Py.digit_val y4) m dd
             | None => None
             end
         | None => None
         end
    else None.
Proof. reflexivity. Qed.

Lemma parse_month_pad2 m rest :
  1 <= m <= 12 ->
  Date.parse_month (Date.pad2 m +:+ String "-" rest) = Some (m, rest).
Proof.
  intros H.
  assert (m = 1 \/ m = 2 \/ m = 3 \/ m = 4 \/ m = 5 \/ m = 6 \/ m = 7 \/ m = 8
          \/ m = 9 \/ m = 10 \/ m = 11 \/ m = 12) as E by lia.
  repeat (destruct E as [->|E]; [reflexivity|]). subst m. reflexivity.
Qed.

Lemma parse_day_pad2 d : 1 <= d <= 31 -> Date.parse_day (Date.pad2 d) = Some d.
Proof.
  intros H.
  assert (exists n : nat, (n < 31)%nat /\ d = 1 + Z.of_nat n) as (n & Hn & ->).
  { exists (Z.to_nat (d - 1)). lia. }
  do 31 (destruct n as [|n]; [reflexivity|]). lia.
Qed.

Lemma make_fields (d : date) : Date.make (year d) (month d) (day d) = Some d.
Proof.
  unfold Date.make.
  destruct (decide (Is_true (valid_ymd (year d) (month d) (day d)))) as [ok|no].
  - f_equal. apply date_ext; reflexivity.
  - destruct no. apply date_ok.
Qed.

(** Parsing the ISO text of a date gives the date back. *)
Lemma strptime_ymd_isoformat (d : date) :
  Date.strptime_ymd (Date.isoformat d) = Some d.
Proof.
  destruct (date_bounds d) as (Hy & Hm & Hd).
  unfold Date.isoformat. unfold Date.pad4 at 1.
  rewrite !append_String, !append_Empty, strptime_ymd_year.
  rewrite !is_digit_digit_char, !digit_val_digit_char. cbn [andb].
  rewrite parse_month_pad2 by assumption.
  rewrite parse_day_pad2 by assumption.
  replace (1000 * ((year d / 1000) mod 10) + 100 * ((year d / 100) mod 10)
           + 10 * ((year d / 10) mod 10) + year d mod 10) with (year d)
    by (Z.div_mod_to_equations; lia).
  apply make_fields.
Qed.

Ltac push_append := repeat first [rewrite append_String | rewrite append_Empty].

Lemma take_isoformat (d : date) (rest : string) :
  Py.take 10 (Date.isoformat d +:+ rest) = Date.isoformat d.
Proof.
  unfold Date.isoformat, Date.pad4, Date.pad2. push_append.
  unfold Py.take. cbn [substring]. destruct rest; reflexivity.
Qed.

Lemma take_isoformat_whole (d : date) :
  Py.take 10 (Date.isoformat d) = Date.isoformat d.
Proof.
  unfold Date.isoformat, Date.pad4, Date.pad2. push_append.
  unfold Py.take. cbn [substring]. reflexivity.
Qed.

Lemma to_date_obj_text (d : date) (rest : string) :
  to_date_obj (VStr (Date.isoformat d +:+ rest)) = Some d.
Proof.
  unfold to_date_obj. rewrite take_isoformat. apply strptime_ymd_isoformat.
Qed.

(** X1: [to_date_obj] undoes [isoformat]: the ISO text of a date, followed
    by anything (a time of day, say), converts to that date. So a date, a
    timestamp and their renderings by [str] denote the same day. *)
Theorem to_date_obj_isoformat_round_trip
    (repr_list : list (option string) -> string)
    (d : date) (rest clock : string) :
  to_date_obj (VStr (Date.isoformat d +:+ rest)) = Some d
  /\ to_date_obj (VStr (Date.isoformat d)) = Some d
  /\ to_date_obj (VStr (Value.str repr_list (VDate d))) = to_date_obj (VDate d)
  /\ to_date_obj (VStr (Value.str repr_list (VDateTime d clock)))
     = to_date_obj (VDateTime d clock).
Proof.
  assert (to_date_obj (VStr (Date.isoformat d)) = Some d) as H.
  { unfold to_date_obj. rewrite take_isoformat_whole.
    apply strptime_ymd_isoformat. }
  split; [apply to_date_obj_text|]. split; [exact H|]. split.
  - exact H.
  - apply to_date_obj_text.
Qed.

(** X2: the filter compares dates as ISO texts; on such texts the order and
    the equality of strings are the order and the equality of the dates. *)
Theorem isoformat_order_is_calendar_order (d1 d2 : date) :
  Py.str_gt (Date.isoformat d1) (Date.isoformat d2) = Date.gtb d1 d2
  /\ String.eqb (Date.isoformat d1) (Date.isoformat d2) = Date.eqb d1 d2
  /\ (Date.isoformat d1 = Date.isoformat d2 <-> d1 = d2)
  /\ String.length (Date.isoformat d1) = 10%nat.
Proof.
  split; [apply str_gt_isoformat|]. split; [apply str_eqb_isoformat|].
  split; [split; [apply isoformat_inj|intros ->; reflexivity]|].
  reflexivity.
Qed.

End DateText.

(** ** Normalised labels *)

Section Labels.

Lemma normalize_idem s : normalize (normalize s) = normalize s.
Proof.
  induction s as [|c s IH]; [reflexivity|].
  rewrite normalize_cons. destruct (Py.isalnum c) eqn:Hc; [|assumption].
  rewrite normalize_cons, isalnum_lower_char, Hc, lower_char_idem, IH.
  reflexivity.
Qed.

Lemma normalize_lower s : normalize (Py.lower s) = normalize s.
Proof.
  induction s as [|c s IH]; [reflexivity|].
  cbn [Py.lower]. rewrite !normalize_cons, isalnum_lower_char, lower_char_idem, IH.
  reflexivity.
Qed.

Lemma normalize_lstrip s : normalize (Py.lstrip s) = normalize s.
Proof.
  induction s as [|c s IH]; [reflexivity|].
  cbn [Py.lstrip]. destruct (Py.isspace c) eqn:Hc; [|reflexivity].
  rewrite IH, normalize_cons.
  apply isspace_not_alnum in Hc. rewrite isalnum_lower_char in Hc.
  rewrite Hc. reflexivity.
Qed.

Lemma normalize_rstrip s : normalize (Py.rstrip s) = normalize s.
Proof.
  induction s as [|c s IH]; [reflexivity|].
  cbn [Py.rstrip]. rewrite (normalize_cons c s).
  destruct (Py.rstrip s) as [|c' t] eqn:Hr.
  - rewrite <- IH. change (normalize EmptyString) with EmptyString.
    destruct (Py.isspace c) eqn:Hc.
    + apply isspace_not_alnum in Hc. rewrite isalnum_lower_char in Hc.
      rewrite Hc. reflexivity.
    + rewrite normalize_cons. reflexivity.
  - rewrite normalize_cons, IH. reflexivity.
Qed.

Lemma normalize_strip s : normalize (Py.strip s) = normalize s.
Proof. unfold Py.strip. rewrite normalize_rstrip. apply normalize_lstrip. Qed.

Lemma lower_char_stays c :
  Py.isalnum c = true ->
  Py.isalnum (Py.lower_char c)
  && Ascii.eqb (Py.lower_char (Py.lower_char c)) (Py.lower_char c) = true.
Proof.
  intros H. rewrite isalnum_lower_char, H, lower_char_idem, Ascii.eqb_refl.
  reflexivity.
Qed.

Lemma lower_char_ascii c :
  (Py.code c <? 128)%N = true -> Py.isalnum c = true ->
  Py.is_digit (Py.lower_char c) || Py.is_lower (Py.lower_char c) = true.
Proof.
  destruct c as [[] [] [] [] [] [] [] []]; intros H1 H2; try reflexivity;
    try discriminate H1; discriminate H2.
Qed.

Lemma normalize_shape s :
  string_forall (fun c => Py.isalnum c && Ascii.eqb (Py.lower_char c) c)
                (normalize s) = true.
Proof.
  induction s as [|c s IH]; [reflexivity|].
  rewrite normalize_cons. destruct (Py.isalnum c) eqn:Hc; [|assumption].
  cbn [string_forall]. rewrite (lower_char_stays c Hc), IH. reflexivity.
Qed.

Lemma normalize_shape_ascii s :
  is_ascii s = true ->
  string_forall (fun c => Py.is_digit c || Py.is_lower c) (normalize s) = true.
Proof.
  induction s as [|c s IH]; [reflexivity|].
  cbn [is_ascii]. intros H. apply andb_prop in H as [Hc Hs].
  rewrite normalize_cons. destruct (Py.isalnum c) eqn:Ha; [|auto].
  cbn [string_forall]. rewrite (lower_char_ascii c Hc Ha), (IH Hs). reflexivity.
Qed.

(** X3: label normalisation is idempotent and blind to the case of letters
    and to blanks around the text; every character of its result is
    alphanumeric and is its own lower case, and for an ASCII text the
    result holds only the digits and the letters [a] to [z]; it keeps the
    alphanumeric characters of the text, in order, each in lower case; the
    three modules that normalise labels use the same function on a
    text. *)
Theorem normalize_label_canonical (s : string) :
  let n := _normalize_label (Some s) in
  _normalize_label (Some n) = n
  /\ _normalize_label (Some (Py.lower s)) = n
  /\ _normalize_label (Some (Py.strip s)) = n
  /\ string_forall (fun c => Py.isalnum c && Ascii.eqb (Py.lower_char c) c) n = true
  /\ (is_ascii s = true ->
      string_forall (fun c => Py.is_digit c || Py.is_lower c) n = true)
  /\ n = lowercase_alphanumerics s
  /\ normalize s = n
  /\ _normalize_label None = EmptyString.
Proof.
  cbv zeta. change (_normalize_label (Some s)) with (normalize s).
  split; [apply normalize_idem|]. split; [apply normalize_lower|].
  split; [apply normalize_strip|]. split; [apply normalize_shape|].
  split; [apply normalize_shape_ascii|]. split; [apply normalize_words|].
  split; reflexivity.
Qed.

End Labels.

(** ** The ids of the handset field *)

Section HandsetIds.

Lemma map_handsets_first_seen raw questions :
  map_handsets_field_dynamic (Some raw) questions
  = first_seen (List.map (handset_choice (handset_table questions))
                         (stripped_parts ";" raw)).
Proof.
  unfold map_handsets_field_dynamic.
  destruct raw as [|c raw']; [reflexivity|].
  cbn [Py.nonempty negb]. rewrite handset_loop_spec. cbn [app].
  unfold handset_table. set (l := first_seen _). clearbody l.
  induction l as [|z l IHl]; cbn; [reflexivity|].
  rewrite bool_decide_eq_false_2 by (intros H; inversion H).
  cbn. f_equal. assumption.
Qed.

Lemma length_first_seen l : (length (first_seen l) <= length l)%nat.
Proof.
  induction l as [|x l IH]; cbn; [lia|].
  pose proof (filter_length_le (fun y => negb (String.eqb y x)) (first_seen l)).
  lia.
Qed.

Lemma handset_choice_cases table p :
  Py.nonempty (handset_choice table p) = true
  /\ (handset_choice table p = "0"
      \/ ODict.get (normalize p) table = Some (handset_choice table p)).
Proof.
  unfold handset_choice. change (_normalize_label (Some p)) with (normalize p).
  destruct (ODict.get (normalize p) table) as [nid|]; [|split; [reflexivity|left; reflexivity]].
  destruct (Py.nonempty nid) eqn:Hn; [|split; [reflexivity|left; reflexivity]].
  split; [assumption|right; reflexivity].
Qed.

(** X4: every id that [map_handsets_field_dynamic] returns is a non-empty
    text: the sentinel ["0"], or the rendered id of a choice of question
    ["159"] that has a label; and the result has at most as many ids as the
    input has non-blank parts. *)
Theorem map_handsets_field_dynamic_ids
    (raw : string) (questions : gmap string question) :
  let chs := match questions !! "159" with Some q => choices q | None => [] end in
  let result := map_handsets_field_dynamic (Some raw) questions in
  (forall nid, nid ∈ result ->
     Py.nonempty nid = true
     /\ (nid = "0"
         \/ exists ch, ch ∈ chs /\ is_Some (label ch) /\ str_id ch = nid))
  /\ (length result <= length (stripped_parts ";" raw))%nat
  /\ (questions !! "159" = None -> forall nid, nid ∈ result -> nid = "0").
Proof.
  cbv zeta. rewrite map_handsets_first_seen.
  assert (forall nid,
    nid ∈ first_seen (List.map (handset_choice (handset_table questions))
                        (stripped_parts ";" raw)) ->
    Py.nonempty nid = true
    /\ (nid = "0"
        \/ exists ch,
             ch ∈ match questions !! "159" with Some q => choices q | None => [] end
             /\ is_Some (label ch) /\ str_id ch = nid)) as Hids.
  { intros nid Hin.
    apply elem_of_first_seen, list_elem_of_In, in_map_iff in Hin as (p & <- & _).
    destruct (handset_choice_cases (handset_table questions) p) as [Hne [H0|Hget]].
    - split; [assumption|left; assumption].
    - split; [assumption|right].
      unfold handset_table in Hget at 1. rewrite handset_label_map_get in Hget.
      unfold last_labelled in Hget.
      destruct (List.find _ _) as [ch|] eqn:Hf; [|discriminate Hget].
      apply find_some in Hf as [Hin Hlab].
      exists ch. split; [|split].
      + apply list_elem_of_In, in_rev. assumption.
      + destruct (label ch); [eexists; reflexivity|discriminate Hlab].
      + congruence. }
  split; [exact Hids|]. split.
  - etransitivity; [apply length_first_seen|]. rewrite length_map. lia.
  - intros Hq nid Hin. destruct (Hids nid Hin) as [_ [?|(ch & Hch & _)]]; [assumption|].
    rewrite Hq in Hch. inversion Hch.
Qed.

End HandsetIds.

(** ** The label-to-id tables of the form *)

Section ChoiceTables.

Lemma choice_table_get k chs acc :
  ODict.get k (choice_table chs acc)
  = match last_usable k chs with
    | Some ch => choice_id ch
    | None => ODict.get k acc
    end.
Proof.
  unfold last_usable. revert acc.
  induction chs as [|ch chs IH]; intros acc; cbn [choice_table rev]; [reflexivity|].
  rewrite find_app_first. unfold usable at 2.
  destruct (label ch) as [lab|] eqn:Hl; cbn [truthy_str].
  - destruct (choice_id ch) as [cid|] eqn:Hc.
    + destruct (Py.nonempty lab) eqn:Hn; rewrite IH.
      * destruct (List.find _ (rev chs)); [reflexivity|].
        cbn [List.find]. rewrite Hl, Hc. cbn [truthy_str]. rewrite Hn.
        rewrite bool_decide_eq_true_2 by (eexists; reflexivity).
        rewrite ODict_get_set. cbn [andb].
        destruct (String.eqb _ _); [symmetry; assumption|reflexivity].
      * destruct (List.find _ (rev chs)); [reflexivity|].
        cbn [List.find]. rewrite Hl. cbn [truthy_str]. rewrite Hn. reflexivity.
    + rewrite IH. destruct (List.find _ (rev chs)); [reflexivity|].
      cbn [List.find]. rewrite Hl, Hc.
      rewrite bool_decide_eq_false_2 by (intros [? ?]; discriminate).
      rewrite andb_false_r. reflexivity.
  - destruct (choice_id ch); rewrite IH;
      (destruct (List.find _ (rev chs)); [reflexivity|]);
      cbn [List.find]; rewrite Hl; reflexivity.
Qed.

Lemma ODict_set_not_nil {V} k (v : V) d : ODict.set k v d ≠ [].
Proof. destruct d as [|[k' v'] d]; cbn; [discriminate|]. destruct (String.eqb k k'); discriminate. Qed.

Lemma choice_table_cons ch chs acc :
  choice_table (ch :: chs) acc
  = if usable ch
    then choice_table chs
           (ODict.set (_normalize_label (label ch))
                      (default EmptyString (choice_id ch)) acc)
    else choice_table chs acc.
Proof.
  unfold usable. cbn [choice_table].
  destruct (label ch) as [lab|]; cbn [truthy_str].
  - destruct (choice_id ch) as [cid|].
    + rewrite bool_decide_eq_true_2 by (eexists; reflexivity).
      rewrite andb_true_r. reflexivity.
    + rewrite bool_decide_eq_false_2 by (intros [? ?]; discriminate).
      rewrite andb_false_r. reflexivity.
  - destruct (choice_id ch); reflexivity.
Qed.

Lemma choice_table_acc chs acc : acc ≠ [] -> choice_table chs acc ≠ [].
Proof.
  revert acc. induction chs as [|ch chs IH]; intros acc Hacc; [assumption|].
  rewrite choice_table_cons. destruct (usable ch); [|auto].
  apply IH, ODict_set_not_nil.
Qed.

Lemma choice_table_nil chs :
  choice_table chs [] = [] <-> forall ch, ch ∈ chs -> usable ch = false.
Proof.
  induction chs as [|ch chs IH].
  - split; [intros _ ch H; inversion H|reflexivity].
  - rewrite choice_table_cons. destruct (usable ch) eqn:Hu.
    + split.
      * intros H. exfalso. revert H. apply choice_table_acc, ODict_set_not_nil.
      * intros H. rewrite (H ch) in Hu by apply list_elem_of_here. discriminate Hu.
    + rewrite IH. split.
      * intros H ch' Hin. apply elem_of_cons in Hin as [->|Hin]; [assumption|].
        apply H. assumption.
      * intros H ch' Hin. apply H. apply elem_of_cons. right. assumption.
Qed.

Lemma choice_map_table_of questions qid :
  default [] (build_choice_label_to_id_map questions !! qid)
  = match questions !! qid with
    | Some q => choice_table (choices q) []
    | None => []
    end.
Proof.
  unfold build_choice_label_to_id_map. rewrite lookup_omap.
  destruct (questions !! qid) as [q|]; cbn; [|reflexivity].
  destruct (choice_table (choices q) []); reflexivity.
Qed.

(** X5: in the map that [build_choice_label_to_id_map] builds, the table of
    a question gives, for a normalised label, the id of the last choice of
    that question that has a non-empty label normalising to it and an id;
    a question is left out of the map exactly when it is not in the form or
    has no such choice, and no table in the map is empty. *)
Theorem build_choice_label_to_id_map_lookup
    (questions : gmap string question) (qid k : string) :
  let m := build_choice_label_to_id_map questions in
  ODict.get k (default [] (m !! qid))
  = match questions !! qid with
    | Some q => last_usable k (choices q) ≫= choice_id
    | None => None
    end
  /\ (m !! qid = None
      <-> forall q, questions !! qid = Some q ->
            forall ch, ch ∈ choices q -> usable ch = false)
  /\ m !! qid ≠ Some [].
Proof.
  cbv zeta. split; [|split].
  - rewrite choice_map_table_of.
    destruct (questions !! qid) as [q|]; [|reflexivity].
    rewrite choice_table_get. destruct (last_usable k (choices q)); reflexivity.
  - unfold build_choice_label_to_id_map. rewrite lookup_omap.
    destruct (questions !! qid) as [q|]; cbn.
    + pose proof (choice_table_nil (choices q)) as Hnil.
      destruct (choice_table (choices q) []) as [|e tbl].
      * split; [|reflexivity]. intros _ q' [= <-]. apply Hnil. reflexivity.
      * split; [discriminate|]. intros H. exfalso.
        assert (e :: tbl = []) as E by (apply Hnil, (H q eq_refl)). discriminate E.
    + split; [intros _ q H; discriminate H|reflexivity].
  - unfold build_choice_label_to_id_map. rewrite lookup_omap.
    destruct (questions !! qid) as [q|]; cbn; [|discriminate].
    destruct (choice_table (choices q) []); discriminate.
Qed.

Lemma ODict_get_of_elem {V} k (v : V) d :
  (k, v) ∈ d -> exists v', ODict.get k d = Some v'.
Proof.
  induction d as [|[k0 v0] d IH]; intros H; [inversion H|].
  cbn. destruct (String.eqb_spec k k0) as [->|N]; [eexists; reflexivity|].
  apply elem_of_cons in H as [H|H]; [congruence|]. apply IH. assumption.
Qed.

Lemma ODict_set_fst {V} k (v : V) d k' :
  k' ∈ (ODict.set k v d).*1 <-> k' = k \/ k' ∈ d.*1.
Proof.
  induction d as [|[k0 v0] d IH]; cbn.
  - rewrite list_elem_of_singleton, elem_of_nil. tauto.
  - destruct (String.eqb_spec k k0) as [->|N]; cbn.
    + rewrite !elem_of_cons. tauto.
    + rewrite !elem_of_cons, IH. tauto.
Qed.

Lemma ODict_set_NoDup {V} k (v : V) d : NoDup d.*1 -> NoDup (ODict.set k v d).*1.
Proof.
  induction d as [|[k0 v0] d IH]; cbn; intros H.
  - constructor; [apply not_elem_of_nil|constructor].
  - apply NoDup_cons in H as [Hk0 Hd].
    destruct (String.eqb_spec k k0) as [->|N]; cbn.
    + constructor; assumption.
    + constructor; [|auto]. rewrite ODict_set_fst. intros [E|E]; [congruence|auto].
Qed.

Lemma choice_table_NoDup chs acc : NoDup acc.*1 -> NoDup (choice_table chs acc).*1.
Proof.
  revert acc. induction chs as [|ch chs IH]; intros acc H; [assumption|].
  rewrite choice_table_cons. destruct (usable ch); [|auto].
  apply IH, ODict_set_NoDup, H.
Qed.

Lemma ODict_get_NoDup {V} k (v : V) d :
  NoDup d.*1 -> (k, v) ∈ d -> ODict.get k d = Some v.
Proof.
  induction d as [|[k0 v0] d IH]; intros Hnd H; [inversion H|].
  cbn in Hnd. apply NoDup_cons in Hnd as [Hk0 Hd]. cbn.
  apply elem_of_cons in H as [H|H].
  - injection H as -> ->. rewrite String.eqb_refl. reflexivity.
  - destruct (String.eqb_spec k k0) as [->|N]; [|auto].
    exfalso. apply Hk0. apply (list_elem_of_fmap_2 fst) in H. exact H.
Qed.

Lemma last_usable_Some k chs ch :
  last_usable k chs = Some ch ->
  ch ∈ chs /\ usable ch = true /\ k = _normalize_label (label ch).
Proof.
  unfold last_usable. intros H. apply find_some in H as [Hin Hp].
  apply andb_prop in Hp as [Hu Hk].
  split; [apply list_elem_of_In, in_rev; assumption|].
  split; [assumption|]. apply String.eqb_eq. assumption.
Qed.

(** Where an entry of a table of the map comes from. *)
Lemma choice_table_entry chs k cid :
  (k, cid) ∈ choice_table chs [] ->
  exists ch, ch ∈ chs /\ usable ch = true
    /\ k = _normalize_label (label ch) /\ choice_id ch = Some cid.
Proof.
  intros H.
  apply (ODict_get_NoDup k cid) in H; [|apply choice_table_NoDup; constructor].
  rewrite choice_table_get in H.
  destruct (last_usable k chs) as [ch|] eqn:Hl; [|discriminate H].
  apply last_usable_Some in Hl as (Hin & Hu & Hk).
  exists ch. auto.
Qed.

Lemma build_choice_label_to_id_map_Some questions qid tbl :
  build_choice_label_to_id_map questions !! qid = Some tbl ->
  exists q, questions !! qid = Some q /\ tbl = choice_table (choices q) [].
Proof.
  unfold build_choice_label_to_id_map. rewrite lookup_omap.
  destruct (questions !! qid) as [q|]; cbn; [|discriminate].
  destruct (choice_table (choices q) []) eqn:E; [discriminate|].
  intros [= <-]. exists q. auto.
Qed.

(** X6: every table of the map is well formed: its keys are distinct and
    normalised (normalising a key again gives the key), and each entry
    comes from a choice of that question, with a non-empty label and an
    id. *)
Theorem build_choice_label_to_id_map_tables
    (questions : gmap string question) (qid : string) (tbl : ODict.t string) :
  build_choice_label_to_id_map questions !! qid = Some tbl ->
  NoDup tbl.*1
  /\ forall k cid, (k, cid) ∈ tbl ->
       normalize k = k
       /\ ODict.get k tbl = Some cid
       /\ exists q ch, questions !! qid = Some q /\ ch ∈ choices q
            /\ usable ch = true
            /\ k = _normalize_label (label ch) /\ choice_id ch = Some cid.
Proof.
  intros H. apply build_choice_label_to_id_map_Some in H as (q & Hq & ->).
  assert (NoDup (choice_table (choices q) []).*1) as Hnd
    by (apply choice_table_NoDup; constructor).
  split; [assumption|]. intros k cid Hin.
  destruct (choice_table_entry _ _ _ Hin) as (ch & Hch & Hu & Hk & Hc).
  split; [|split].
  - rewrite Hk. unfold usable in Hu. destruct (label ch) as [lab|]; [|discriminate Hu].
    apply normalize_idem.
  - apply ODict_get_NoDup; assumption.
  - exists q, ch. auto.
Qed.

Lemma build_choice_label_to_id_map_tables_witness :
  NoDup [ ("humanresources", "40"); ("informationtechnology", "41") ].*1
  /\ forall k cid,
       (k, cid) ∈ [ ("humanresources", "40"); ("informationtechnology", "41") ] ->
       normalize k = k
       /\ ODict.get k [ ("humanresources", "40"); ("informationtechnology", "41") ]
          = Some cid
       /\ exists q ch, sample_questions !! "4" = Some q /\ ch ∈ choices q
            /\ usable ch = true
            /\ k = _normalize_label (label ch) /\ choice_id ch = Some cid.
Proof.
  apply (build_choice_label_to_id_map_tables sample_questions "4").
  vm_compute. reflexivity.
Defined.

(** X7: when no choice of the form has the empty text as its id, no table
    of the map holds an empty id, so that an exact hit of a label in a
    table is never passed over. *)
Theorem build_choice_label_to_id_map_ids_nonempty
    (questions : gmap string question) (qid : string) :
  choice_ids_nonempty questions = true ->
  ids_nonempty (default [] (build_choice_label_to_id_map questions !! qid)) = true.
Proof.
  intros Hne. rewrite choice_map_table_of.
  destruct (questions !! qid) as [q|] eqn:Hq; [|reflexivity].
  unfold ids_nonempty. apply forallb_forall. intros [k cid] Hin.
  apply list_elem_of_In in Hin.
  destruct (choice_table_entry _ _ _ Hin) as (ch & Hch & _ & _ & Hc).
  cbn. destruct cid; [|reflexivity]. exfalso.
  unfold choice_ids_nonempty in Hne. rewrite forallb_forall in Hne.
  specialize (Hne (qid, q)). rewrite <- list_elem_of_In in Hne.
  specialize (Hne (proj2 (elem_of_map_to_list _ _ _) Hq)).
  cbn in Hne. rewrite forallb_forall in Hne.
  specialize (Hne ch (proj1 (list_elem_of_In _ _) Hch)).
  rewrite bool_decide_eq_true_2 in Hne by assumption. discriminate Hne.
Qed.

Lemma build_choice_label_to_id_map_ids_nonempty_witness :
  ids_nonempty (default [] (build_choice_label_to_id_map sample_questions !! "4"))
  = true.
Proof.
  apply (build_choice_label_to_id_map_ids_nonempty sample_questions "4").
  vm_compute. reflexivity.
Defined.

(** X8: the handset field and the generic choice columns read the same
    table for question ["159"] when each of its choices has a non-empty
    label and an id. *)
Theorem handset_table_is_choice_table (questions : gmap string question) :
  forallb usable (handset_choices questions) = true ->
  handset_table questions
  = default [] (build_choice_label_to_id_map questions !! "159").
Proof.
  unfold handset_choices. intros Hu.
  rewrite choice_map_table_of. unfold handset_table.
  destruct (questions !! "159") as [q|]; [|reflexivity].
  generalize (@nil (string * string)).
  induction (choices q) as [|ch chs IH]; intros acc; [reflexivity|].
  cbn [forallb] in Hu. apply andb_prop in Hu as [Hch Hu].
  cbn [handset_label_map choice_table].
  unfold usable in Hch. unfold str_id.
  destruct (label ch) as [lab|]; [|discriminate Hch]. cbn [truthy_str] in Hch.
  destruct (choice_id ch) as [cid|].
  - apply andb_prop in Hch as [-> _]. cbn [default]. apply IH. assumption.
  - rewrite bool_decide_eq_false_2 in Hch by (intros [? ?]; discriminate).
    rewrite andb_false_r in Hch. discriminate Hch.
Qed.

Lemma handset_table_is_choice_table_witness :
  handset_table sample_questions
  = default [] (build_choice_label_to_id_map sample_questions !! "159").
Proof.
  apply (handset_table_is_choice_table sample_questions).
  vm_compute. reflexivity.
Defined.

End ChoiceTables.

(** ** The filter, row by row *)

Section FilterRows.

Lemma filter_idem {A} (P : A -> bool) l :
  List.filter P (List.filter P l) = List.filter P l.
Proof.
  induction l as [|x l IH]; [reflexivity|].
  cbn. destruct (P x) eqn:HP; cbn; rewrite ?HP, IH; reflexivity.
Qed.

Lemma sublist_List_filter {A} (P : A -> bool) l : sublist (List.filter P l) l.
Proof.
  induction l as [|x l IH]; cbn; [constructor|].
  destruct (P x); constructor; assumption.
Qed.

(** X9: the filter decides row by row: the selection from a batch is the
    concatenation of the selections from its parts (so two rows of one
    batch with the same key are both selected), what it returns is a
    sub-list of the batch in the batch's order, and filtering its result
    again changes nothing. *)
Theorem filter_rows_for_processing_rowwise
    (rows1 rows2 : list row) (ds : defaults) (t : tracking) :
  filter_rows_for_processing (rows1 ++ rows2) ds t
  = filter_rows_for_processing rows1 ds t ++ filter_rows_for_processing rows2 ds t
  /\ filter_rows_for_processing (filter_rows_for_processing rows1 ds t) ds t
     = filter_rows_for_processing rows1 ds t
  /\ sublist (filter_rows_for_processing rows1 ds t) rows1
  /\ filter_rows_for_processing (rows1 ++ rows1) ds t
     = filter_rows_for_processing rows1 ds t ++ filter_rows_for_processing rows1 ds t.
Proof.
  rewrite !filter_rows_for_processing_spec.
  split; [apply List.filter_app|]. split; [apply filter_idem|].
  split; [apply sublist_List_filter|apply List.filter_app].
Qed.

(** X10: the filter reads the watermark and the same-date keys as a set,
    and nothing else of the tracking state: neither the order or the
    repetitions of [processed_emails_same_date], nor [email_to_issue], nor
    [flagged_requests]. *)
Theorem filter_rows_for_processing_reads
    (rows : list row) (ds1 ds2 : defaults) (t1 t2 : tracking) :
  Tracking.watermark t1 = Tracking.watermark t2 ->
  list_to_set (C := gset string) (Tracking.processed ds1 t1)
  = list_to_set (Tracking.processed ds2 t2) ->
  filter_rows_for_processing rows ds1 t1 = filter_rows_for_processing rows ds2 t2.
Proof.
  intros Hw Hp. unfold filter_rows_for_processing. rewrite Hw, Hp. reflexivity.
Qed.

Lemma filter_rows_for_processing_reads_witness :
  filter_rows_for_processing
    [sample_row "2024-05-01" (Some "a@x.com"); sample_row "2024-05-01" (Some "c@x.com")]
    DEFAULT_STATE (sample_tracking (Some "2024-05-01") ["a@x.com"; "b@x.com"])
  = filter_rows_for_processing
      [sample_row "2024-05-01" (Some "a@x.com"); sample_row "2024-05-01" (Some "c@x.com")]
      DEFAULT_STATE
      (mkTracking (Some (Some "2024-05-01"))
         (Some (Own ["b@x.com"; "a@x.com"; "b@x.com"]))
         (Some (Own {[ "c@x.com" := "KEY-3" ]})) None ∅).
Proof.
  apply (filter_rows_for_processing_reads _ DEFAULT_STATE DEFAULT_STATE
           (sample_tracking (Some "2024-05-01") ["a@x.com"; "b@x.com"])
           (mkTracking (Some (Some "2024-05-01"))
              (Some (Own ["b@x.com"; "a@x.com"; "b@x.com"]))
              (Some (Own {[ "c@x.com" := "KEY-3" ]})) None ∅));
    vm_compute; reflexivity.
Defined.

(** X11: what the filter selects after a finalisation. With the state a
    run leaves behind on day [today], a row is selected exactly when its
    creation date parses and is later than [today], or is [today] and the
    row has a non-empty key that is not among the keys the run recorded. *)
Theorem filter_after_finalize
    (rows : list row) (ds : defaults) (t : tracking) (today : date)
    (emails : gset string) (r : row) :
  r ∈ filter_rows_for_processing rows ds
        (finalize_tracking_after_run today t emails)
  <-> r ∈ rows
      /\ exists rd, to_date_obj (row_get r "createdat") = Some rd
           /\ (Date.gtb rd today = true
               \/ (rd = today
                   /\ exists e, get_email r = Some e /\ Py.nonempty e = true
                        /\ e ∉ emails)).
Proof.
  rewrite elem_of_filter_rows. apply and_iff_compat_l.
  unfold row_selected. cbn [finalize_tracking_after_run Tracking.watermark
    Tracking.processed last_run_date processed_emails_same_date].
  destruct (to_date_obj (row_get r "createdat")) as [rd|].
  2:{ split; [discriminate|]. intros (rd & H & _). discriminate H. }
  rewrite str_gt_isoformat, str_eqb_isoformat.
  destruct (date_order_cases rd today) as [(_ & He & Hg)|[(_ & He & Hg)|(_ & He & Hg)]];
    rewrite He, Hg.
  - split; [discriminate|]. intros (rd' & [= <-] & [H|[E _]]); [congruence|].
    subst rd.
    assert (Date.eqb today today = true) as E by (apply date_eqb_eq; reflexivity).
    congruence.
  - apply date_eqb_eq in He. subst rd.
    destruct (get_email r) as [e|].
    + destruct (Py.nonempty e) eqn:Hn; cbn [negb].
      * rewrite negb_true_iff, bool_decide_eq_false, elem_of_list_to_set, elem_of_sorted.
        split.
        -- intros H. exists today. split; [reflexivity|]. right. split; [reflexivity|].
           exists e. auto.
        -- intros (rd' & [= <-] & [H|(_ & e' & [= <-] & _ & H)]); [congruence|assumption].
      * split; [discriminate|].
        intros (rd' & [= <-] & [H|(_ & e' & [= <-] & H & _)]); congruence.
    + split; [discriminate|].
      intros (rd' & [= <-] & [H|(_ & e' & H & _)]); congruence.
  - split; [|reflexivity]. intros _. exists rd. auto.
Qed.

End FilterRows.

(** ** Writing the tracking file and loading it again *)

Section Persistence.

Lemma json_key_Some_inj (m : gmap (option string) string) k1 k2 :
  m !! None = None -> is_Some (m !! k1) -> is_Some (m !! k2) ->
  json_key k1 = json_key k2 -> k1 = k2.
Proof.
  intros Hn [v1 H1] [v2 H2].
  destruct k1 as [s1|]; [|congruence]. destruct k2 as [s2|]; [|congruence].
  cbn. congruence.
Qed.

Lemma lookup_kmap_json_key (m : gmap (option string) string) s :
  m !! None = None ->
  (kmap json_key m : gmap string string) !! s = m !! Some s.
Proof.
  intros Hn. unfold kmap.
  set (l := prod_map json_key id <$> map_to_list m).
  assert (NoDup l.*1) as Hnd.
  { unfold l. rewrite <- list_fmap_compose.
    replace (fst ∘ prod_map json_key id) with (json_key ∘ (fst : option string * string -> _))
      by reflexivity.
    rewrite list_fmap_compose. apply NoDup_fmap_2_strong; [|apply NoDup_fst_map_to_list].
    intros k1 k2 H1 H2. apply (json_key_Some_inj m); [assumption| |].
    - apply list_elem_of_fmap in H1 as ([k v] & -> & H). exists v.
      apply elem_of_map_to_list. assumption.
    - apply list_elem_of_fmap in H2 as ([k v] & -> & H). exists v.
      apply elem_of_map_to_list. assumption. }
  destruct (m !! Some s) as [v|] eqn:Hs.
  - apply elem_of_list_to_map_1; [assumption|].
    unfold l. apply list_elem_of_fmap. exists (Some s, v). split; [reflexivity|].
    apply elem_of_map_to_list. assumption.
  - apply not_elem_of_list_to_map_1. intros Hin.
    apply list_elem_of_fmap in Hin as ([k' v'] & -> & Hin).
    unfold l in Hin. apply list_elem_of_fmap in Hin as ([k v] & [= -> ->] & Hin).
    apply elem_of_map_to_list in Hin.
    destruct k as [s'|]; [|congruence]. cbn in Hs. congruence.
Qed.

Lemma kmap_json_key_round_trip (m : gmap (option string) string) :
  m !! None = None -> kmap Some (kmap json_key m : gmap string string) = m.
Proof.
  intros Hn. apply map_eq. intros [s|].
  - rewrite (lookup_kmap Some). apply lookup_kmap_json_key. assumption.
  - rewrite Hn. apply lookup_kmap_None; [apply _|]. intros s H. discriminate H.
Qed.

Lemma issues_snapshot ds ds' t :
  Tracking.watermark (snapshot ds t) = Tracking.watermark t
  /\ Tracking.processed ds' (snapshot ds t) = Tracking.processed ds t
  /\ Tracking.issues ds' (snapshot ds t) = Tracking.issues ds t
  /\ Tracking.flagged ds' (snapshot ds t) = Tracking.flagged ds t.
Proof.
  destruct t as [lr [[|l]|] [[|m]|] [[|fl]|] ok]; repeat split; reflexivity.
Qed.

Lemma read_written_snapshot (ds ds' : defaults) (t : tracking) :
  has_all_keys t = true ->
  Tracking.flagged ds t !! None = None ->
  read_tracking ds' (written ds t) = Returned (snapshot ds t).
Proof.
  intros Hk Hf.
  unfold written, read_tracking, read_tracking_try, fill_defaults, dump, snapshot.
  unfold has_all_keys in Hk.
  destruct t as [[lr|] [pe|] [ei|] [fl|] ok]; cbn in Hk; try discriminate Hk.
  cbn [last_run_date processed_emails_same_date email_to_issue flagged_requests
       other_keys doc_last_run_date doc_processed doc_issue doc_flagged doc_other].
  rewrite kmap_json_key_round_trip by assumption. reflexivity.
Qed.

(** X12: a tracking dict that has the four documented keys and no flag
    filed under [None], written by [write_tracking] and loaded again by
    [read_tracking] (in any later process, whatever [DEFAULT_STATE] holds
    then), comes back with the same watermark, same-date keys, tickets,
    flags and other keys, as objects of its own. *)
Theorem read_tracking_written (ds ds' : defaults) (t : tracking) :
  has_all_keys t = true ->
  flagged_keys_are_text ds t = true ->
  read_tracking ds' (written ds t) = Returned (snapshot ds t)
  /\ Tracking.watermark (snapshot ds t) = Tracking.watermark t
  /\ Tracking.processed ds' (snapshot ds t) = Tracking.processed ds t
  /\ Tracking.issues ds' (snapshot ds t) = Tracking.issues ds t
  /\ Tracking.flagged ds' (snapshot ds t) = Tracking.flagged ds t.
Proof.
  intros Hk Hf. split; [|apply issues_snapshot].
  unfold flagged_keys_are_text in Hf. apply bool_decide_eq_true in Hf.
  apply read_written_snapshot; assumption.
Qed.

Lemma read_tracking_written_witness :
  let t := mkTracking (Some (Some "2024-05-02")) (Some (Own ["a@x.com"]))
             (Some Dflt) (Some (Own {[ Some "d@x.com" := flag_missing_dates ]})) ∅ in
  let ds := mkDefaults [] {[ "a@x.com" := "KEY-1" ]} ∅ in
  read_tracking DEFAULT_STATE (written ds t) = Returned (snapshot ds t)
  /\ Tracking.watermark (snapshot ds t) = Tracking.watermark t
  /\ Tracking.processed DEFAULT_STATE (snapshot ds t) = Tracking.processed ds t
  /\ Tracking.issues DEFAULT_STATE (snapshot ds t) = Tracking.issues ds t
  /\ Tracking.flagged DEFAULT_STATE (snapshot ds t) = Tracking.flagged ds t.
Proof.
  intros t ds.
  apply (read_tracking_written ds DEFAULT_STATE t); vm_compute; reflexivity.
Defined.

Lemma read_tracking_keys (ds : defaults) (f : file_cond) :
  exists t, read_tracking ds f = Returned t
    /\ has_all_keys t = true
    /\ (d_flagged ds !! None = None -> Tracking.flagged ds t !! None = None).
Proof.
  destruct f as [| |[d|]]; try (exists default_copy; repeat split; auto; fail).
  exists (fill_defaults ds d). split; [reflexivity|].
  split; [destruct d as [[w|] [l|] [m|] [fl|] o]; reflexivity|].
  intros Hn. unfold fill_defaults, Tracking.flagged. cbn.
  destruct (doc_flagged d) as [fl|]; [|assumption].
  apply lookup_kmap_None; [apply _|]. intros s H. discriminate H.
Qed.

(** X13: whatever the condition of the backing file, the dict that
    [read_tracking] returns has the four documented keys, and it files no
    flag under [None] unless [DEFAULT_STATE] already does; a document's own
    members are kept as they are. *)
Theorem read_tracking_has_all_keys (ds : defaults) (f : file_cond) :
  exists t, read_tracking ds f = Returned t
    /\ has_all_keys t = true
    /\ (d_flagged ds !! None = None -> Tracking.flagged ds t !! None = None)
    /\ (forall d m, f = FileJSON (JObject d) -> doc_issue d = Some m ->
          Tracking.issues ds t = m).
Proof.
  destruct (read_tracking_keys ds f) as (t & Hr & Hk & Hf).
  exists t. split; [assumption|]. split; [assumption|]. split; [assumption|].
  intros d m -> Hm. cbn in Hr. injection Hr as <-.
  unfold fill_defaults, Tracking.issues. cbn. rewrite Hm. reflexivity.
Qed.

End Persistence.

(** ** One row: what [process_row] can do *)

Section RowCases.

Context (DB_TO_QID : ODict.t string).
Context (repr_list : list (option string) -> string).
Context {World : Type}.
Context (clock : World -> date).
Context (create_request_on_jira : World -> request -> World * option string).

Local Abbreviation build := (build_form_answers DB_TO_QID repr_list).
Local Abbreviation process := (process_row DB_TO_QID repr_list create_request_on_jira).
Local Abbreviation loop := (process_rows DB_TO_QID repr_list clock create_request_on_jira).

(** The three ways [build_form_answers] ends. *)
Lemma build_form_answers_outcome r questions choice_map ds t :
  match build r questions choice_map ds t with
  | Raised => ODict.get "timeframe" DB_TO_QID = None
  | Returned (Some answers, st) =>
      is_Some (ODict.get "timeframe" DB_TO_QID) /\ st = (ds, t)
  | Returned (None, st) =>
      is_Some (ODict.get "timeframe" DB_TO_QID)
      /\ exists reason,
           st = Tracking.set_flagged (get_email r) reason ds t
           /\ (reason = flag_missing_dates \/ reason = flag_date_order
               \/ reason = flag_invalid_timeframe
                    (Py.strip (str repr_list
                       (Value.or (row_get r "timeframe") (VStr EmptyString)))))
  end.
Proof.
  unfold build_form_answers.
  destruct (ODict.get "timeframe" DB_TO_QID) as [tq|]; [|reflexivity].
  assert (is_Some (Some tq)) as Htq by (eexists; reflexivity).
  destruct (negb (truthy_str _)).
  { split; [assumption|]. eexists. split; [reflexivity|]. auto. }
  destruct (String.eqb _ "temporary").
  - destruct (to_date_obj (row_get r "dateneededby")) as [dn|].
    + destruct (to_date_obj (row_get r "approximateendingdate")) as [ae|].
      * destruct (negb (Date.gtb ae dn)).
        -- split; [assumption|]. eexists. split; [reflexivity|]. auto.
        -- split; [assumption|reflexivity].
      * split; [assumption|]. eexists. split; [reflexivity|]. auto.
    + split; [assumption|]. eexists. split; [reflexivity|]. auto.
  - split; [assumption|reflexivity].
Qed.

(** Every way a call of [process_row] can go. Without a create-request
    call: it raised; or the row has no key; or the key has a ticket; or the
    row was rejected and flagged. With a call: the call failed and the
    state is as before, or it gave a key, which is recorded. *)
Lemma process_row_cases r ds t questions choice_map w :
  let res := process r ds t questions choice_map w in
  (res.1.1 = w /\ res.1.2 = []
   /\ (res.2 = Raised
       \/ (truthy_str (get_email r) = false
           /\ res.2 = Returned (mkRowResult ds t false None None))
       \/ (exists e k, get_email r = Some e /\ Py.nonempty e = true
             /\ Tracking.issues ds t !! e = Some k
             /\ res.2 = Returned (mkRowResult ds t false None (Some e)))
       \/ (exists e reason, get_email r = Some e /\ Py.nonempty e = true
             /\ Tracking.issues ds t !! e = None
             /\ res.2 = Returned
                  (mkRowResult (Tracking.set_flagged (Some e) reason ds t).1
                               (Tracking.set_flagged (Some e) reason ds t).2
                               false (created_iso r) (Some e)))))
  \/ (exists e req, get_email r = Some e /\ Py.nonempty e = true
        /\ Tracking.issues ds t !! e = None
        /\ res.1.2 = [EvPost e req]
        /\ res.1.1 = (create_request_on_jira w req).1
        /\ res.2
           = Returned
               match (create_request_on_jira w req).2 with
               | None => mkRowResult ds t false (created_iso r) (Some e)
               | Some key =>
                   mkRowResult (Tracking.set_issue e key ds t).1
                               (Tracking.set_issue e key ds t).2
                               true (created_iso r) (Some e)
               end).
Proof.
  cbv zeta. unfold process_row.
  destruct (get_email r) as [email|] eqn:He.
  2:{ left. cbn. repeat split. right. left. split; reflexivity. }
  destruct (Py.nonempty email) eqn:Hne; cbn [negb].
  2:{ left. cbn. repeat split. right. left. rewrite Hne. split; reflexivity. }
  destruct (bool_decide (is_Some (Tracking.issues ds t !! email))) eqn:Hknown.
  { apply bool_decide_eq_true in Hknown as [k Hk].
    left. cbn. repeat split. right. right. left. exists email, k. auto. }
  apply bool_decide_eq_false in Hknown.
  assert (Tracking.issues ds t !! email = None) as Hnone.
  { destruct (Tracking.issues ds t !! email) eqn:E; [|reflexivity].
    exfalso. apply Hknown. eexists. reflexivity. }
  pose proof (build_form_answers_outcome r questions choice_map ds t) as Hb.
  destruct (build r questions choice_map ds t) as [|[[answers|] [ds1 t1]]].
  - left. cbn. repeat split. left. reflexivity.
  - destruct Hb as [_ [= -> ->]].
    match goal with
    | |- context [match ?o with Raised => _ | Returned _ => _ end] =>
        destruct o as [|form_answers]
    end.
    { left. cbn. repeat split. left. reflexivity. }
    right.
    match goal with
    | |- context [create_request_on_jira w ?rq] => exists email, rq
    end.
    split; [reflexivity|]. split; [assumption|]. split; [assumption|].
    destruct (create_request_on_jira w _) as [w1 [issue_key|]]; cbn [fst snd].
    + destruct (Tracking.set_issue email issue_key ds t) as [ds2 t2].
      cbn. repeat split; reflexivity.
    + cbn. repeat split; reflexivity.
  - destruct Hb as [_ (reason & Hst & _)]. rewrite He in Hst.
    left. cbn. repeat split. right. right. right.
    exists email, reason. rewrite <- Hst. cbn. auto.
Qed.

Lemma flagged_set_issue email key ds t :
  Tracking.flagged (Tracking.set_issue email key ds t).1
                   (Tracking.set_issue email key ds t).2
  = Tracking.flagged ds t.
Proof.
  unfold Tracking.set_issue, Tracking.flagged.
  destruct t as [lr pe [[|m]|] [[|fl]|] ok]; cbn; reflexivity.
Qed.

Lemma flagged_set_flagged_insert email reason ds t :
  Tracking.flagged (Tracking.set_flagged email reason ds t).1
                   (Tracking.set_flagged email reason ds t).2
  = <[ email := reason ]> (Tracking.flagged ds t).
Proof.
  unfold Tracking.set_flagged, Tracking.flagged.
  destruct t as [lr pe ei [[|fl]|] ok]; cbn; reflexivity.
Qed.

(** X14: [process_row] makes at most one create-request call, for the
    row's key, and the call alone decides what happens to the tickets: when
    it fails, the tracking dict and the objects of [DEFAULT_STATE] stay
    exactly as they were and the row is reported as not processed; when it
    gives a key, that key is recorded under the row's identity key, nothing
    else changes in [email_to_issue], no flag changes, and the row is
    reported as processed. *)
Theorem process_row_call_decides
    (r : row) (ds : defaults) (t : tracking) (questions : gmap string question)
    (choice_map : gmap string (ODict.t string)) (w w' : World)
    (e : string) (req : request) (posts : list event) (res : row_result) :
  process r ds t questions choice_map w = (w', EvPost e req :: posts, Returned res) ->
  posts = [] /\ get_email r = Some e /\ rr_email res = Some e
  /\ Tracking.issues ds t !! e = None
  /\ w' = (create_request_on_jira w req).1
  /\ match (create_request_on_jira w req).2 with
     | None =>
         rr_processed res = false /\ rr_defaults res = ds /\ rr_tracking res = t
     | Some key =>
         rr_processed res = true
         /\ Tracking.issues (rr_defaults res) (rr_tracking res)
            = <[ e := key ]> (Tracking.issues ds t)
         /\ Tracking.flagged (rr_defaults res) (rr_tracking res)
            = Tracking.flagged ds t
     end.
Proof.
  intros H.
  pose proof (process_row_cases r ds t questions choice_map w) as Hc.
  cbv zeta in Hc. rewrite H in Hc. cbn [fst snd] in Hc.
  destruct Hc as [(_ & Hp & _)|(e' & req' & He & Hne & Hn & Hp & Hw & Hres)];
    [discriminate Hp|].
  simplify_eq. clear H.
  split; [reflexivity|]. split; [assumption|].
  destruct (create_request_on_jira w req') as [w1 [key|]]; cbn [fst snd] in *.
  - repeat split; auto.
    + apply issues_set_issue.
    + apply flagged_set_issue.
  - repeat split; auto.
Qed.

(** X15: a row with a non-empty key that has no ticket yet is either
    submitted (one create-request call) or rejected: when [process_row]
    returns for such a row without having made a call, the row's key is
    filed in [flagged_requests] with the reason, the tickets are untouched
    and the row is reported as not processed. *)
Theorem process_row_rejected_is_flagged
    (r : row) (ds : defaults) (t : tracking) (questions : gmap string question)
    (choice_map : gmap string (ODict.t string)) (w w' : World)
    (e : string) (res : row_result) :
  get_email r = Some e -> Py.nonempty e = true ->
  Tracking.issues ds t !! e = None ->
  process r ds t questions choice_map w = (w', [], Returned res) ->
  w' = w /\ rr_processed res = false
  /\ is_Some (Tracking.flagged (rr_defaults res) (rr_tracking res) !! Some e)
  /\ Tracking.issues (rr_defaults res) (rr_tracking res) = Tracking.issues ds t
  /\ (forall k, k ≠ Some e ->
        Tracking.flagged (rr_defaults res) (rr_tracking res) !! k
        = Tracking.flagged ds t !! k).
Proof.
  intros He Hne Hn H.
  pose proof (process_row_cases r ds t questions choice_map w) as Hc.
  cbv zeta in Hc. rewrite H in Hc. cbn [fst snd] in Hc.
  destruct Hc as [(-> & _ & [Hr|[[Ht _]|[(e' & k & He' & _ & Hk & _)|
                    (e' & reason & He' & _ & _ & Hr)]]])
                 |(e' & req' & _ & _ & _ & Hp & _)].
  - discriminate Hr.
  - rewrite He in Ht. cbn in Ht. congruence.
  - congruence.
  - injection Hr as ->. cbn [rr_defaults rr_tracking rr_processed].
    assert (e' = e) as -> by congruence.
    split; [reflexivity|]. split; [reflexivity|].
    rewrite flagged_set_flagged_insert, issues_set_flagged.
    split; [rewrite lookup_insert_eq; eexists; reflexivity|].
    split; [reflexivity|]. intros k Hk. apply lookup_insert_ne. congruence.
  - discriminate Hp.
Qed.

(** ** The loop over the rows *)

Lemma turns_from_app p a b :
  turns_from p a = true -> turns_from p (a ++ b) = turns_from false b.
Proof.
  revert p. induction a as [|ev a IH]; intros p H.
  - destruct p; [discriminate H|reflexivity].
  - destruct ev; cbn in *; try discriminate H.
    + apply andb_prop in H as [Hp H]. rewrite Hp. cbn. apply IH. assumption.
    + apply IH. assumption.
Qed.

Lemma turns_from_post p l1 e req l2 :
  turns_from p (l1 ++ EvPost e req :: l2) = true ->
  exists s l3, l2 = EvWrite s :: l3.
Proof.
  revert p. induction l1 as [|ev l1 IH]; intros p H.
  - cbn in H. apply andb_prop in H as [_ H].
    destruct l2 as [|[] l3]; cbn in H; try discriminate H. eauto.
  - destruct ev; cbn in H; try discriminate H.
    + apply andb_prop in H as [_ H]. eapply IH. eassumption.
    + eapply IH. eassumption.
Qed.

Lemma issues_snapshot_own ds ds0 t :
  Tracking.issues ds0 (snapshot ds t) = Tracking.issues ds t.
Proof. destruct t as [lr pe [[|m]|] fl ok]; reflexivity. Qed.

(** The state after one row, in the three ways it can differ from the
    state before. *)
Lemma process_row_state r ds t questions choice_map w w' posts res :
  process r ds t questions choice_map w = (w', posts, Returned res) ->
  (rr_defaults res = ds /\ rr_tracking res = t)
  \/ (exists e reason,
        (rr_defaults res, rr_tracking res) = Tracking.set_flagged (Some e) reason ds t)
  \/ (exists e key,
        (rr_defaults res, rr_tracking res) = Tracking.set_issue e key ds t).
Proof.
  intros H.
  pose proof (process_row_cases r ds t questions choice_map w) as Hc.
  cbv zeta in Hc. rewrite H in Hc. cbn [fst snd] in Hc.
  destruct Hc as [(_ & _ & [Hr|[[_ Hr]|[(e & k & _ & _ & _ & Hr)|
                    (e & reason & _ & _ & _ & Hr)]]])
                 |(e & req & _ & _ & _ & _ & _ & Hr)].
  - discriminate Hr.
  - injection Hr as ->. left. auto.
  - injection Hr as ->. left. auto.
  - injection Hr as ->. right. left. exists e, reason. cbn.
    symmetry. apply surjective_pairing.
  - injection Hr as ->.
    destruct (create_request_on_jira w req).2 as [key|].
    + right. right. exists e, key. cbn. symmetry. apply surjective_pairing.
    + left. auto.
Qed.

(** A property of the state that recording a ticket and flagging a key
    keep is kept by the loop. *)
Lemma process_rows_preserves (P : defaults -> tracking -> Prop) :
  (forall e key ds t, P ds t ->
     P (Tracking.set_issue e key ds t).1 (Tracking.set_issue e key ds t).2) ->
  (forall e reason ds t, P ds t ->
     P (Tracking.set_flagged (Some e) reason ds t).1
       (Tracking.set_flagged (Some e) reason ds t).2) ->
  forall rows questions choice_map ds t emails w log w' log' ds' t' emails',
  loop rows questions choice_map ds t emails w log = (w', log', (ds', t'), emails') ->
  P ds t -> P ds' t'.
Proof.
  intros Hi Hf rows questions choice_map.
  induction rows as [|r rows IH]; intros ds t emails w log w' log' ds' t' emails' H HP.
  - cbn in H. simplify_eq. assumption.
  - cbn [process_rows] in H.
    destruct (process r ds t questions choice_map w) as [[w1 posts] [|res]] eqn:Hp.
    + eapply IH; eassumption.
    + eapply IH; [eassumption|].
      destruct (process_row_state _ _ _ _ _ _ _ _ _ Hp)
        as [[-> ->]|[(e & reason & E)|(e & key & E)]]; [assumption| |].
      * specialize (Hf e reason ds t HP). rewrite <- E in Hf. exact Hf.
      * specialize (Hi e key ds t HP). rewrite <- E in Hi. exact Hi.
Qed.

(** The log of the loop. *)
Lemma process_rows_log rows questions choice_map :
  forall ds t emails w log w' log' ds' t' emails',
  loop rows questions choice_map ds t emails w log = (w', log', (ds', t'), emails') ->
  exists new, log' = log ++ new
    /\ turns new = true
    /\ ((new = [] /\ ds' = ds /\ t' = t)
        \/ exists l, new = l ++ [EvWrite (snapshot ds' t')])
    /\ (length (List.filter is_post new) <= length rows)%nat
    /\ (forall s, EvWrite s ∈ new -> forall ds0 e k,
          (Tracking.issues ds t !! e = Some k -> Tracking.issues ds0 s !! e = Some k)
          /\ (Tracking.issues ds0 s !! e = Some k ->
              Tracking.issues ds' t' !! e = Some k)).
Proof.
  induction rows as [|r rows IH]; intros ds t emails w log w' log' ds' t' emails' H.
  - cbn in H. simplify_eq. exists []. rewrite app_nil_r.
    split; [reflexivity|]. split; [reflexivity|]. split; [left; auto|].
    split; [cbn; lia|]. intros s Hs. inversion Hs.
  - cbn [process_rows] in H.
    destruct (process r ds t questions choice_map w) as [[w1 posts] [|res]] eqn:Hp.
    + apply (process_row_raises DB_TO_QID repr_list create_request_on_jira) in Hp
        as [-> ->].
      apply IH in H as (new & -> & Ht & Hlast & Hlen & Hs).
      exists new. rewrite app_nil_r.
      split; [reflexivity|]. split; [assumption|]. split; [assumption|].
      split; [cbn [length]; lia|]. exact Hs.
    + pose proof (process_row_returns DB_TO_QID repr_list create_request_on_jira
                    _ _ _ _ _ _ _ _ _ Hp) as (Hkeep1 & _ & Hposts & _).
      pose proof (process_rows_inv DB_TO_QID repr_list clock create_request_on_jira
                    _ _ _ _ _ _ _ _ _ _ _ _ _ H) as (Hkeep2 & _).
      apply IH in H as (new & -> & Ht & Hlast & Hlen & Hs).
      set (wr := write_tracking (rr_defaults res) (rr_tracking res)) in *.
      exists (posts ++ [wr] ++ new).
      split; [rewrite <- !app_assoc; reflexivity|].
      assert (turns_from false (posts ++ [wr]) = true) as Hturn.
      { destruct Hposts as [->|(e & req & -> & _)]; reflexivity. }
      split.
      { unfold turns. rewrite app_assoc.
        rewrite (turns_from_app _ _ _ Hturn). exact Ht. }
      split.
      { right. destruct Hlast as [(-> & -> & ->)|[l ->]].
        - exists posts. rewrite app_nil_r. reflexivity.
        - exists (posts ++ [wr] ++ l). rewrite <- !app_assoc. reflexivity. }
      split.
      { rewrite !List.filter_app, !length_app. cbn [List.filter is_post wr write_tracking length].
        destruct Hposts as [->|(e & req & -> & _)]; cbn; lia. }
      intros s Hin ds0 e k. rewrite !elem_of_app in Hin.
      destruct Hin as [Hin|[Hin|Hin]].
      * destruct Hposts as [->|(e0 & req & -> & _)]; [inversion Hin|].
        apply list_elem_of_singleton in Hin. discriminate Hin.
      * apply list_elem_of_singleton in Hin. injection Hin as ->.
        rewrite issues_snapshot_own. split; [apply Hkeep1|apply Hkeep2].
      * destruct (Hs s Hin ds0 e k) as [H1 H2]. split; [|assumption].
        intros Hk. apply H1, Hkeep1, Hk.
Qed.

(** X16: the loop of [main] persists each turn. Its log is a sequence of
    turns, each a create-request call, if one is made, followed at once by
    a write of the tracking file; so every call is directly followed by a
    write. When the loop ends, either it has logged nothing and the state
    is untouched, or the last thing it did was to write exactly the state
    it ends with. There are at most as many calls as rows, and a ticket
    that is in a written state is in the final state. *)
Theorem process_rows_persists_each_turn
    (rows : list row) (questions : gmap string question)
    (choice_map : gmap string (ODict.t string))
    (ds : defaults) (t : tracking) (emails : gset string) (w : World) :
  let out := loop rows questions choice_map ds t emails w [] in
  let new := out.1.1.2 in
  let ds' := out.1.2.1 in
  let t' := out.1.2.2 in
  turns new = true
  /\ (forall l1 e req l2, new = l1 ++ EvPost e req :: l2 ->
        exists s l3, l2 = EvWrite s :: l3)
  /\ ((new = [] /\ ds' = ds /\ t' = t)
      \/ exists l, new = l ++ [EvWrite (snapshot ds' t')])
  /\ (length (List.filter is_post new) <= length rows)%nat
  /\ (forall s ds0 e k, EvWrite s ∈ new ->
        Tracking.issues ds0 s !! e = Some k ->
        Tracking.issues ds' t' !! e = Some k).
Proof.
  cbv zeta.
  destruct (loop rows questions choice_map ds t emails w [])
    as [[[w' log'] [ds' t']] emails'] eqn:H.
  cbn [fst snd].
  apply process_rows_log in H as (new & E & Ht & Hlast & Hlen & Hs).
  cbn [app] in E. subst log'.
  split; [assumption|]. split.
  { intros l1 e req l2 ->. apply (turns_from_post false l1 e req l2). exact Ht. }
  split; [assumption|]. split; [assumption|].
  intros s ds0 e k Hin. apply (Hs s Hin ds0 e k).
Qed.

End RowCases.

(** ** The run as a whole *)

Section MainRuns.

Context (DB_TO_QID : ODict.t string).
Context (repr_list : list (option string) -> string).
Context (CLOUD_ID SERVICE_DESK_ID REQUEST_TYPE_ID : string).
Context {World : Type}.
Context (clock : World -> date).
Context (http_get : World -> string -> World * http_result).
Context (create_request_on_jira : World -> request -> World * option string).
Context (fetch_rows_on_or_after : World -> option string -> World * list row).

Local Abbreviation loop := (process_rows DB_TO_QID repr_list clock create_request_on_jira).
Local Abbreviation run_main :=
  (main DB_TO_QID repr_list CLOUD_ID SERVICE_DESK_ID REQUEST_TYPE_ID
        clock http_get create_request_on_jira fetch_rows_on_or_after).
Local Abbreviation loaded ds f :=
  (match read_tracking ds f with
   | Returned t => t
   | Raised => default_copy
   end).
Local Abbreviation gets_log n :=
  (repeat (EvGet (form_url CLOUD_ID SERVICE_DESK_ID REQUEST_TYPE_ID)) n).

Lemma fetch_loop_gets attempts url w g :
  ((fetch_loop http_get attempts url w g).2 <= g + length attempts)%nat.
Proof.
  revert w g. induction attempts as [|a attempts IH]; intros w g; cbn; [lia|].
  destruct (http_get w url) as [w1 [|status body]].
  - specialize (IH w1 (S g)). lia.
  - destruct ((status =? 200) || (status =? 201)).
    + destruct body; cbn; lia.
    + specialize (IH w1 (S g)). lia.
Qed.

Lemma fetch_gets w :
  ((fetch_form_definition_cloud http_get CLOUD_ID SERVICE_DESK_ID REQUEST_TYPE_ID w).2
   <= 3)%nat.
Proof.
  unfold fetch_form_definition_cloud.
  destruct (_ || _); [cbn; lia|].
  etransitivity; [apply fetch_loop_gets|]. cbn. lia.
Qed.

(** The three ways a run goes. *)
Lemma main_shape ds f w :
  let t0 := loaded ds f in
  let fetched :=
    fetch_form_definition_cloud http_get CLOUD_ID SERVICE_DESK_ID REQUEST_TYPE_ID w in
  match fetched.1.2 with
  | FetchOk form =>
      let questions := extract_questions_from_form form in
      let choice_map := build_choice_label_to_id_map questions in
      let q := fetch_rows_on_or_after fetched.1.1 (Tracking.watermark t0) in
      let selected := filter_rows_for_processing q.2 ds t0 in
      (selected = []
       /\ run_main ds f w = mkRun ExitNoRows (gets_log fetched.2) ds t0 q.1)
      \/ (selected ≠ []
          /\ let out :=
               loop selected questions choice_map ds t0 ∅ q.1 (gets_log fetched.2) in
             let t2 :=
               finalize_tracking_after_run (clock out.1.1.1) out.1.2.2 out.2 in
             run_main ds f w
             = mkRun ExitComplete
                 (out.1.1.2 ++ [EvFinalize; write_tracking out.1.2.1 t2])
                 out.1.2.1 t2 out.1.1.1)
  | _ => run_main ds f w = mkRun ExitFetchError (gets_log fetched.2) ds t0 fetched.1.1
  end.
Proof.
  cbv zeta. unfold main.
  destruct (fetch_form_definition_cloud http_get CLOUD_ID SERVICE_DESK_ID
              REQUEST_TYPE_ID w) as [[w1 res] gets].
  cbn [fst snd]. destruct res as [| |form]; [reflexivity|reflexivity|].
  destruct (fetch_rows_on_or_after w1 _) as [w2 rows]. cbn [fst snd].
  destruct (filter_rows_for_processing rows ds (loaded ds f)) as [|r0 sel] eqn:Hsel.
  - left. split; reflexivity.
  - right. split; [discriminate|].
    destruct (loop (r0 :: sel) _ _ ds _ ∅ w2 _) as [[[w3 log] [ds' t']] emails].
    reflexivity.
Qed.

Lemma posted_app e l1 l2 : posted e (l1 ++ l2) = posted e l1 || posted e l2.
Proof. apply existsb_app. Qed.

Lemma posted_gets e url n : posted e (repeat (EvGet url) n) = false.
Proof. induction n as [|n IH]; [reflexivity|exact IH]. Qed.

Lemma posted_elem_of e log : posted e log = true <-> exists req, EvPost e req ∈ log.
Proof.
  unfold posted. rewrite existsb_exists. split.
  - intros ([] & Hin & H); try discriminate H.
    apply String.eqb_eq in H. subst. eexists. apply list_elem_of_In. eassumption.
  - intros (req & Hin). exists (EvPost e req). split; [apply list_elem_of_In; assumption|].
    apply String.eqb_refl.
Qed.

Lemma is_get_repeat url n : forallb is_get (repeat (EvGet url) n) = true.
Proof. induction n as [|n IH]; [reflexivity|exact IH]. Qed.

Lemma turns_from_no_get p new :
  turns_from p new = true -> forall ev, ev ∈ new -> is_get ev = false.
Proof.
  revert p. induction new as [|ev new IH]; intros p H ev' Hin.
  - inversion Hin.
  - apply elem_of_cons in Hin as [->|Hin].
    + destruct ev; try reflexivity. discriminate H.
    + destruct ev; cbn in H; try discriminate H.
      * apply andb_prop in H as [_ H]. eapply IH; eassumption.
      * eapply IH; eassumption.
Qed.

(** X17: a ticket that the tracking file holds when a run starts is still
    there, unchanged, when the run ends, however it ends, and the run makes
    no create-request call for that key. *)
Theorem main_keeps_tickets_on_file
    (ds : defaults) (d : document) (w : World)
    (m : gmap string string) (e k : string) :
  doc_issue d = Some m -> m !! e = Some k ->
  let r := run_main ds (FileJSON (JObject d)) w in
  Tracking.issues (run_defaults r) (run_tracking r) !! e = Some k
  /\ posted e (run_events r) = false.
Proof.
  intros Hd Hm. cbv zeta.
  assert (Tracking.issues ds (loaded ds (FileJSON (JObject d))) !! e = Some k) as H0.
  { cbn. unfold fill_defaults, Tracking.issues. cbn. rewrite Hd. assumption. }
  pose proof (main_shape ds (FileJSON (JObject d)) w) as Hs. cbv zeta in Hs.
  destruct (fetch_form_definition_cloud http_get CLOUD_ID SERVICE_DESK_ID
              REQUEST_TYPE_ID w) as [[w1 res] gets].
  cbn [fst snd] in Hs.
  destruct res as [| |form].
  1,2: rewrite Hs; cbn [run_defaults run_tracking run_events];
       split; [exact H0|apply posted_gets].
  destruct Hs as [[_ ->]|[_ Hs]].
  { cbn [run_defaults run_tracking run_events]. split; [exact H0|apply posted_gets]. }
  destruct (loop _ _ _ ds _ ∅ _ _) as [[[w3 log] [ds' t']] emails] eqn:Hl.
  cbn [fst snd] in Hs. rewrite Hs. cbn [run_defaults run_tracking run_events].
  apply (process_rows_inv DB_TO_QID repr_list clock create_request_on_jira) in Hl
    as (Hkeep & new & -> & Hev & _).
  split.
  - change (Tracking.issues ds' t' !! e = Some k). apply Hkeep. exact H0.
  - rewrite !posted_app, posted_gets. cbn [orb].
    rewrite orb_false_r.
    destruct (posted e new) eqn:Hp; [|reflexivity]. exfalso.
    apply posted_elem_of in Hp as (req & Hin).
    destruct (Hev _ Hin) as [(e' & req' & E & Hn & _)|[s E]]; [|discriminate E].
    injection E as <- <-. congruence.
Qed.

(** X18: the shape of the log of a run. First come the GET calls for the
    form definition, at most three; a run that does not complete does
    nothing else: no create-request call, no write of the tracking file,
    and the loaded state is what it ends with. A run that completes goes on
    with the turns of the row loop, none of them a GET, and ends with the
    finalisation and one write of the state it returns. *)
Theorem main_log_shape (ds : defaults) (f : file_cond) (w : World) :
  let r := run_main ds f w in
  exists gets rest,
    run_events r = gets_log gets ++ rest
    /\ (gets <= 3)%nat
    /\ (run_exit r ≠ ExitComplete ->
        rest = [] /\ run_defaults r = ds /\ run_tracking r = loaded ds f)
    /\ (run_exit r = ExitComplete ->
        exists new,
          rest = new ++ [EvFinalize;
                         EvWrite (snapshot (run_defaults r) (run_tracking r))]
          /\ turns new = true
          /\ forall ev, ev ∈ new -> is_get ev = false).
Proof.
  cbv zeta.
  pose proof (main_shape ds f w) as Hs. cbv zeta in Hs.
  pose proof (fetch_gets w) as Hg.
  destruct (fetch_form_definition_cloud http_get CLOUD_ID SERVICE_DESK_ID
              REQUEST_TYPE_ID w) as [[w1 res] gets].
  cbn [fst snd] in Hs, Hg.
  exists gets.
  destruct res as [| |form].
  1,2: rewrite Hs; exists []; rewrite app_nil_r; cbn;
       split; [reflexivity|]; split; [assumption|];
       split; [auto|discriminate].
  destruct Hs as [[_ ->]|[_ Hs]].
  { exists []. rewrite app_nil_r. cbn. split; [reflexivity|]. split; [assumption|].
    split; [auto|discriminate]. }
  destruct (loop _ _ _ ds _ ∅ _ _) as [[[w3 log] [ds' t']] emails] eqn:Hl.
  cbn [fst snd] in Hs. rewrite Hs. cbn [run_defaults run_tracking run_events run_exit].
  apply (process_rows_log DB_TO_QID repr_list clock create_request_on_jira) in Hl
    as (new & -> & Ht & _).
  exists (new ++ [EvFinalize;
                  write_tracking ds' (finalize_tracking_after_run (clock w3) t' emails)]).
  split; [rewrite <- app_assoc; reflexivity|]. split; [assumption|].
  split; [intros H; contradiction|]. intros _.
  exists new. split; [reflexivity|]. split; [assumption|].
  apply (turns_from_no_get false). assumption.
Qed.

(** X19: a run makes a create-request call only for the key of a row that
    the query returned and the filter selected, so a row whose creation
    date parses, and only when the loaded state has no ticket for that
    key. *)
Theorem main_posts_for_selected_rows
    (ds : defaults) (f : file_cond) (w : World) (e : string) :
  let r := run_main ds f w in
  let t0 := loaded ds f in
  let fetched :=
    fetch_form_definition_cloud http_get CLOUD_ID SERVICE_DESK_ID REQUEST_TYPE_ID w in
  let q := fetch_rows_on_or_after fetched.1.1 (Tracking.watermark t0) in
  posted e (run_events r) = true ->
  run_exit r = ExitComplete
  /\ Tracking.issues ds t0 !! e = None
  /\ exists row, row ∈ q.2 /\ get_email row = Some e
       /\ row ∈ filter_rows_for_processing q.2 ds t0
       /\ is_Some (to_date_obj (row_get row "createdat")).
Proof.
  cbv zeta. intros Hposted.
  pose proof (main_shape ds f w) as Hs. cbv zeta in Hs.
  destruct (fetch_form_definition_cloud http_get CLOUD_ID SERVICE_DESK_ID
              REQUEST_TYPE_ID w) as [[w1 res] gets].
  cbn [fst snd] in Hs |- *.
  destruct res as [| |form].
  1,2: rewrite Hs in Hposted; cbn [run_events] in Hposted;
       rewrite posted_gets in Hposted; discriminate Hposted.
  destruct Hs as [[_ Hs]|[_ Hs]].
  { rewrite Hs in Hposted. cbn [run_events] in Hposted.
    rewrite posted_gets in Hposted. discriminate Hposted. }
  destruct (loop _ _ _ ds _ ∅ _ _) as [[[w3 log] [ds' t']] emails] eqn:Hl.
  cbn [fst snd] in Hs. rewrite Hs in Hposted |- *.
  cbn [run_events run_exit] in Hposted |- *.
  apply (process_rows_inv DB_TO_QID repr_list clock create_request_on_jira) in Hl
    as (_ & new & -> & Hev & _).
  rewrite !posted_app, posted_gets in Hposted. cbn [orb] in Hposted.
  rewrite orb_false_r in Hposted.
  apply posted_elem_of in Hposted as (req & Hin).
  destruct (Hev _ Hin) as [(e' & req' & E & Hn & row & Hrow & Hmail)|[s E]];
    [|discriminate E].
  injection E as <- <-.
  split; [reflexivity|]. split; [assumption|].
  exists row. pose proof Hrow as Hsel.
  apply elem_of_filter_rows in Hsel as [Hq Hsel].
  split; [assumption|]. split; [assumption|]. split; [assumption|].
  unfold row_selected in Hsel.
  destruct (to_date_obj (row_get row "createdat")); [eexists; reflexivity|discriminate Hsel].
Qed.

Lemma has_all_keys_set_issue e key ds t :
  has_all_keys t = true -> has_all_keys (Tracking.set_issue e key ds t).2 = true.
Proof. destruct t as [[?|] [?|] [[|?]|] [?|] ?]; intros H; try discriminate H; reflexivity. Qed.

Lemma has_all_keys_set_flagged e reason ds t :
  has_all_keys t = true -> has_all_keys (Tracking.set_flagged e reason ds t).2 = true.
Proof. destruct t as [[?|] [?|] [?|] [[|?]|] ?]; intros H; try discriminate H; reflexivity. Qed.

(** What the loop keeps: the four keys, and no flag under [None]. *)
Lemma process_rows_keys rows questions choice_map ds t emails w log w' log' ds' t' emails' :
  loop rows questions choice_map ds t emails w log = (w', log', (ds', t'), emails') ->
  has_all_keys t = true /\ Tracking.flagged ds t !! None = None ->
  has_all_keys t' = true /\ Tracking.flagged ds' t' !! None = None.
Proof.
  apply (process_rows_preserves DB_TO_QID repr_list clock create_request_on_jira
           (fun ds t => has_all_keys t = true /\ Tracking.flagged ds t !! None = None)).
  - intros e key ds0 t0 [Hk Hf]. split; [apply has_all_keys_set_issue; assumption|].
    rewrite flagged_set_issue. assumption.
  - intros e reason ds0 t0 [Hk Hf]. split; [apply has_all_keys_set_flagged; assumption|].
    rewrite flagged_set_flagged_insert, lookup_insert_ne by discriminate. assumption.
Qed.

(** X20: what a completed run leaves in the tracking file is what the next
    run loads. When [DEFAULT_STATE] files no flag under [None] (as in a
    fresh process), the state a completed run returns has the four keys and
    only text keys in [flagged_requests], the last event of the run writes
    it, and [read_tracking], in any later process, returns from that file
    the same watermark, same-date keys, tickets and flags. *)
Theorem main_state_reads_back
    (ds ds2 : defaults) (f : file_cond) (w : World) :
  d_flagged ds !! None = None ->
  let r := run_main ds f w in
  run_exit r = ExitComplete ->
  (exists log,
      run_events r
      = log ++ [EvWrite (snapshot (run_defaults r) (run_tracking r))])
  /\ has_all_keys (run_tracking r) = true
  /\ read_tracking ds2 (written (run_defaults r) (run_tracking r))
     = Returned (snapshot (run_defaults r) (run_tracking r))
  /\ Tracking.watermark (snapshot (run_defaults r) (run_tracking r))
     = Some (Date.isoformat (clock (run_world r)))
  /\ Tracking.issues ds2 (snapshot (run_defaults r) (run_tracking r))
     = Tracking.issues (run_defaults r) (run_tracking r)
  /\ Tracking.flagged ds2 (snapshot (run_defaults r) (run_tracking r))
     = Tracking.flagged (run_defaults r) (run_tracking r).
Proof.
  intros Hds. cbv zeta.
  pose proof (main_shape ds f w) as Hs. cbv zeta in Hs.
  destruct (read_tracking_keys ds f) as (t0 & Hr & Hk0 & Hf0).
  rewrite Hr in Hs.
  destruct (fetch_form_definition_cloud http_get CLOUD_ID SERVICE_DESK_ID
              REQUEST_TYPE_ID w) as [[w1 res] gets].
  cbn [fst snd] in Hs.
  destruct res as [| |form]; try (rewrite Hs; discriminate).
  destruct Hs as [[_ ->]|[_ Hs]]; [discriminate|].
  destruct (loop _ _ _ ds _ ∅ _ _) as [[[w3 log] [ds' t']] emails] eqn:Hl.
  cbn [fst snd] in Hs. rewrite Hs.
  cbn [run_defaults run_tracking run_events run_exit run_world]. intros _.
  apply process_rows_keys in Hl as [Hk Hf]; [|split; auto].
  set (t2 := finalize_tracking_after_run (clock w3) t' emails).
  assert (has_all_keys t2 = true) as Hk2.
  { destruct t' as [[?|] [?|] [?|] [?|] ?]; try discriminate Hk. reflexivity. }
  assert (Tracking.flagged ds' t2 !! None = None) as Hf2 by exact Hf.
  split; [exists (log ++ [EvFinalize]); rewrite <- app_assoc; reflexivity|].
  split; [assumption|].
  split; [apply read_written_snapshot; assumption|].
  destruct (issues_snapshot ds' ds2 t2) as (Hw & _ & Hi & Hfl).
  split; [rewrite Hw; reflexivity|]. split; assumption.
Qed.

End MainRuns.

(** ** The create-request call over HTTP *)

Section JiraCall.

Context (DB_TO_QID : ODict.t string).
Context (repr_list : list (option string) -> string).
Context {World : Type}.
Context (http_post : World -> string -> Jira.payload -> World * Jira.post_result).
Context (SITE_DOMAIN SERVICE_DESK_ID REQUEST_TYPE_ID : string).

Local Abbreviation call := (Jira.create_request_on_jira http_post).
Local Abbreviation submit :=
  (Jira.submit http_post SITE_DOMAIN SERVICE_DESK_ID REQUEST_TYPE_ID).

(** The call in one formula: the test against 200 and 201 does not show. *)
Lemma create_request_result
    (site_domain service_desk_id request_type_id summary description : string)
    (form_answers : gmap string answer) (w : World) :
  let sent :=
    http_post w (Jira.request_url site_domain)
      (Jira.mkPayload form_answers false summary description
                      request_type_id service_desk_id) in
  call site_domain service_desk_id request_type_id summary description form_answers w
  = (sent.1,
     match sent.2 with
     | Jira.PostException => Raised
     | Jira.PostResponse status body =>
         if (400 <=? status) && (status <? 600) then Raised
         else match body with Some j => Returned j | None => Raised end
     end).
Proof.
  cbv zeta. unfold Jira.create_request_on_jira, Jira.raise_for_status.
  destruct (http_post w _ _) as [w1 [|status body]]; cbn [fst snd]; [reflexivity|].
  destruct (negb ((status =? 200) || (status =? 201))) eqn:Hok.
  - destruct ((400 <=? status) && (status <? 600)); reflexivity.
  - apply negb_false_iff, orb_prop in Hok.
    replace ((400 <=? status) && (status <? 600)) with false; [reflexivity|].
    symmetry. apply andb_false_iff. left. apply Z.leb_gt.
    destruct Hok as [H|H]; apply Z.eqb_eq in H; lia.
Qed.

(** X21: [create_request_on_jira] sends one POST, to the request endpoint
    of the site, and what it does with the answer depends on the status
    only through the range 400 to 599: it returns the body exactly when an
    answer came, its status is outside that range and its body is JSON; it
    raises on a transport error, on a status from 400 to 599, and on a body
    that is not JSON. The test of the status against 200 and 201 decides
    what is logged, not the result. *)
Theorem create_request_on_jira_outcome
    (site_domain service_desk_id request_type_id summary description : string)
    (form_answers : gmap string answer) (w : World) :
  let out := call site_domain service_desk_id request_type_id
                  summary description form_answers w in
  let sent :=
    http_post w (Jira.request_url site_domain)
      (Jira.mkPayload form_answers false summary description
                      request_type_id service_desk_id) in
  out.1 = sent.1
  /\ (forall j, out.2 = Returned j
        <-> exists status, sent.2 = Jira.PostResponse status (Some j)
              /\ (status < 400 \/ 600 <= status))
  /\ (out.2 = Raised
      <-> sent.2 = Jira.PostException
          \/ exists status body, sent.2 = Jira.PostResponse status body
               /\ (400 <= status < 600 \/ body = None)).
Proof.
  cbv zeta. rewrite create_request_result. cbn [fst snd].
  destruct (http_post w _ _) as [w1 [|status body]]; cbn [fst snd].
  - split; [reflexivity|]. split.
    + intros j. split; [discriminate|]. intros (s & H & _). discriminate H.
    + split; [auto|reflexivity].
  - split; [reflexivity|].
    destruct ((400 <=? status) && (status <? 600)) eqn:Herr.
    + apply andb_prop in Herr as [H1 H2].
      apply Z.leb_le in H1. apply Z.ltb_lt in H2. split.
      * intros j. split; [discriminate|]. intros (s & [= <- _] & Hs). lia.
      * split; [|reflexivity]. intros _. right. exists status, body.
        split; [reflexivity|]. left. lia.
    + assert (status < 400 \/ 600 <= status) as Hs.
      { apply andb_false_iff in Herr as [H|H];
          [apply Z.leb_gt in H|apply Z.ltb_ge in H]; lia. }
      split.
      * intros j. split.
        -- destruct body as [j'|]; [|discriminate]. intros [= ->]. eauto.
        -- intros (s & [= <- ->] & _). reflexivity.
      * split.
        -- destruct body; [discriminate|]. intros _. right. eauto.
        -- intros [H|(s & b & [= <- <-] & [H| ->])]; [discriminate H|lia|reflexivity].
Qed.

Lemma length_take n s : (String.length (Py.take n s) <= n)%nat.
Proof.
  unfold Py.take. revert s. induction n as [|n IH]; intros s.
  - destruct s; cbn; lia.
  - destruct s as [|c s]; cbn; [lia|]. specialize (IH s). lia.
Qed.

Lemma issue_key_nonempty resp k :
  Jira.issue_key resp = Returned k -> Py.nonempty k = true.
Proof.
  unfold Jira.issue_key. destruct resp as [r|]; [|discriminate].
  assert (forall a : option string,
    Py.nonempty (if truthy_str a then default EmptyString a
                 else Py.take 200 (Jira.repr r)) = true) as Hk.
  { intros [s|]; cbn; [|reflexivity].
    destruct (Py.nonempty s) eqn:E; [assumption|reflexivity]. }
  destruct (truthy_str (Jira.resp_issueKey r)).
  - intros [= <-]. apply Hk.
  - destruct (Jira.resp_request r); [| |discriminate]; intros [= <-]; apply Hk.
Qed.

(** X22: the issue key that [process_row] takes from the response is never
    the empty text. It is the response's [issueKey] when that is non-empty;
    with no usable member at all it is the rendering of the response cut
    to 200 characters. The extraction fails only when the response is not
    an object, or when it has no [issueKey] of its own and its [request]
    member is a truthy value that is not an object. *)
Theorem issue_key_extraction (resp : Jira.json) :
  (forall k, Jira.issue_key resp = Returned k -> Py.nonempty k = true)
  /\ (Jira.issue_key resp = Raised
      <-> resp = Jira.JNotDict
          \/ exists r, resp = Jira.JDict r
               /\ truthy_str (Jira.resp_issueKey r) = false
               /\ Jira.resp_request r = Jira.MemberOther)
  /\ (forall r k, resp = Jira.JDict r -> Jira.resp_issueKey r = Some k ->
        Py.nonempty k = true -> Jira.issue_key resp = Returned k)
  /\ (forall r, resp = Jira.JDict r ->
        Jira.resp_issueKey r = None -> Jira.resp_request r = Jira.MemberFalsy ->
        Jira.resp_key r = None -> Jira.resp_requestNumber r = None ->
        Jira.issue_key resp = Returned (Py.take 200 (Jira.repr r))
        /\ (String.length (Py.take 200 (Jira.repr r)) <= 200)%nat).
Proof.
  split; [intros k; apply issue_key_nonempty|]. split; [|split].
  - unfold Jira.issue_key. destruct resp as [r|]; [|split; auto].
    destruct (truthy_str (Jira.resp_issueKey r)) eqn:Ht.
    + split; [discriminate|]. intros [H|(r' & [= <-] & H & _)]; [discriminate H|congruence].
    + destruct (Jira.resp_request r) eqn:Hr.
      * split; [discriminate|]. intros [H|(r' & [= <-] & _ & H)]; [discriminate H|congruence].
      * split; [discriminate|]. intros [H|(r' & [= <-] & _ & H)]; [discriminate H|congruence].
      * split; [|reflexivity]. intros _. right. exists r. auto.
  - intros r k -> Hk Hne. unfold Jira.issue_key, or_str. rewrite Hk.
    cbn [truthy_str]. rewrite !Hne. cbn [truthy_str default]. rewrite Hne.
    reflexivity.
  - intros r -> H1 H2 H3 H4. unfold Jira.issue_key. rewrite H1, H2, H3, H4.
    split; [reflexivity|apply length_take].
Qed.

(** X23: with the create-request call made over HTTP, a row is reported as
    processed only when the endpoint answered with a status outside 400 to
    599 and a JSON object; the ticket reference then recorded under the
    row's key is the key extracted from that object, and it is not empty.
    When the endpoint answers every request with a status from 400 to 599,
    or not at all, no row is ever reported as processed and no ticket is
    recorded. *)
Theorem process_row_over_http
    (r : row) (ds : defaults) (t : tracking) (questions : gmap string question)
    (choice_map : gmap string (ODict.t string)) (w : World) :
  let out := process_row DB_TO_QID repr_list submit r ds t questions choice_map w in
  forall res, out.2 = Returned res ->
  (rr_processed res = true ->
   exists e p status j key,
     get_email r = Some e
     /\ http_post w (Jira.request_url SITE_DOMAIN) p
        = (out.1.1, Jira.PostResponse status (Some j))
     /\ (status < 400 \/ 600 <= status)
     /\ Jira.issue_key j = Returned key
     /\ Py.nonempty key = true
     /\ Tracking.issues (rr_defaults res) (rr_tracking res)
        = <[ e := key ]> (Tracking.issues ds t))
  /\ ((forall p, match (http_post w (Jira.request_url SITE_DOMAIN) p).2 with
                 | Jira.PostException => True
                 | Jira.PostResponse status _ => 400 <= status < 600
                 end) ->
      rr_processed res = false
      /\ Tracking.issues (rr_defaults res) (rr_tracking res) = Tracking.issues ds t).
Proof.
  cbv zeta. intros res Hres.
  pose proof (process_row_cases DB_TO_QID repr_list submit r ds t questions choice_map w)
    as Hc.
  cbv zeta in Hc. rewrite Hres in Hc.
  destruct Hc as [(_ & _ & [Hr|[[_ Hr]|[(e & k & _ & _ & _ & Hr)|
                    (e & reason & _ & _ & _ & Hr)]]])
                 |(e & req & He & _ & _ & _ & Hw & Hr)].
  - discriminate Hr.
  - injection Hr as ->. cbn. split; [discriminate|auto].
  - injection Hr as ->. cbn. split; [discriminate|auto].
  - injection Hr as ->. cbn. split; [discriminate|].
    intros _. split; [reflexivity|]. apply issues_set_flagged.
  - injection Hr as ->. rewrite Hw. clear Hw Hres.
    unfold Jira.submit.
    rewrite create_request_result. cbn [fst snd].
    set (p := Jira.mkPayload _ _ _ _ _ _).
    destruct (http_post w (Jira.request_url SITE_DOMAIN) p) as [w1 sent] eqn:Hsent.
    cbn [fst snd].
    assert (forall s b, sent = Jira.PostResponse s b ->
              (400 <=? s) && (s <? 600) = false -> s < 400 \/ 600 <= s) as Hrange.
    { intros s b _ H. apply andb_false_iff in H as [H|H];
        [apply Z.leb_gt in H|apply Z.ltb_ge in H]; lia. }
    destruct sent as [|status body].
    + cbn. split; [discriminate|auto].
    + destruct ((400 <=? status) && (status <? 600)) eqn:Herr.
      * cbn. split; [discriminate|auto].
      * destruct body as [j|]; [|cbn; split; [discriminate|auto]].
        destruct (Jira.issue_key j) as [|key] eqn:Hkey; cbn.
        -- split; [discriminate|auto].
        -- split.
           ++ intros _. exists e, p, status, j, key.
              split; [assumption|]. split; [exact Hsent|].
              split; [eapply Hrange; [reflexivity|assumption]|].
              split; [assumption|].
              split; [eapply issue_key_nonempty; eassumption|].
              apply issues_set_issue.
           ++ intros Hall. specialize (Hall p). rewrite Hsent in Hall.
              cbn in Hall. specialize (Hrange status (Some j) eq_refl Herr). lia.
Qed.

End JiraCall.

(** ** The answers payload *)

Section Answers.

Context (DB_TO_QID : ODict.t string).
Context (repr_list : list (option string) -> string).

Local Abbreviation build := (build_form_answers DB_TO_QID repr_list).
Local Abbreviation step := (map_column repr_list).

(** X24: how [build_form_answers] ends. It raises (a [KeyError]) exactly
    when [DB_TO_QID] has no entry for the timeframe column, whatever the
    row. Otherwise it returns, and never touches a ticket: with answers,
    the tracking state is exactly as before; with [None], exactly one entry
    of [flagged_requests] is written, the one of the row's key, replacing
    an earlier reason if there was one, and the reason is one of the three
    texts of the validation. *)
Theorem build_form_answers_outcomes
    (r : row) (questions : gmap string question)
    (choice_map : gmap string (ODict.t string)) (ds : defaults) (t : tracking) :
  (build r questions choice_map ds t = Raised
   <-> ODict.get "timeframe" DB_TO_QID = None)
  /\ forall a ds' t',
       build r questions choice_map ds t = Returned (a, (ds', t')) ->
       Tracking.issues ds' t' = Tracking.issues ds t
       /\ match a with
          | Some _ => ds' = ds /\ t' = t
          | None =>
              exists reason,
                Tracking.flagged ds' t'
                = <[ get_email r := reason ]> (Tracking.flagged ds t)
                /\ (reason = flag_missing_dates \/ reason = flag_date_order
                    \/ reason = flag_invalid_timeframe
                         (Py.strip (str repr_list
                            (Value.or (row_get r "timeframe") (VStr EmptyString)))))
          end.
Proof.
  pose proof (build_form_answers_outcome DB_TO_QID repr_list r questions choice_map ds t)
    as Hb.
  split.
  - destruct (build r questions choice_map ds t) as [|[[a|] st]].
    + split; [intros _; assumption|reflexivity].
    + destruct Hb as [[tq Htq] _]. split; [discriminate|congruence].
    + destruct Hb as [[tq Htq] _]. split; [discriminate|congruence].
  - intros a ds' t' H. rewrite H in Hb. destruct a as [answers|].
    + destruct Hb as [_ [= -> ->]]. auto.
    + destruct Hb as [_ (reason & Hst & Hreason)].
      pose proof (issues_set_flagged (get_email r) reason ds t) as Hi.
      pose proof (flagged_set_flagged_insert (get_email r) reason ds t) as Hf.
      rewrite <- Hst in Hi, Hf. cbn [fst snd] in Hi, Hf.
      split; [assumption|]. exists reason. auto.
Qed.

Lemma fold_map_column_keys r questions choice_map entries answers k :
  is_Some (fold_left (step r questions choice_map) entries answers !! k) ->
  is_Some (answers !! k) \/ exists col, (col, k) ∈ entries.
Proof.
  revert answers. induction entries as [|[col qid] entries IH]; intros answers H.
  - left. assumption.
  - cbn [fold_left] in H. apply IH in H as [H|(c & Hc)].
    + destruct (decide (k = qid)) as [->|Hne].
      * right. exists col. apply list_elem_of_here.
      * rewrite map_column_other in H by assumption. left. assumption.
    + right. exists c. apply elem_of_cons. right. assumption.
Qed.

(** X25: every key of the answers that [build_form_answers] returns is a
    question id that [DB_TO_QID] assigns to some column: the payload never
    answers a question outside the configuration. *)
Theorem build_form_answers_keys
    (r : row) (questions : gmap string question)
    (choice_map : gmap string (ODict.t string)) (ds : defaults) (t : tracking)
    (answers : gmap string answer) (st : defaults * tracking) (qid : string) :
  build r questions choice_map ds t = Returned (Some answers, st) ->
  is_Some (answers !! qid) ->
  exists col, (col, qid) ∈ DB_TO_QID.
Proof.
  intros H Hq.
  pose proof (build_form_answers_outcome DB_TO_QID repr_list r questions choice_map ds t)
    as Hb.
  rewrite H in Hb. destruct Hb as [[tq Htq] _].
  destruct (build_form_answers_accepted DB_TO_QID repr_list _ _ _ _ _ _ _ _ Htq H)
    as [_ ->].
  apply fold_map_column_keys in Hq as [Hq|Hq]; [|assumption].
  destruct (decide (qid = tq)) as [->|Hne].
  - exists "timeframe". apply ODict_get_elem_of. assumption.
  - rewrite lookup_insert_ne, lookup_empty in Hq by congruence.
    destruct Hq as [? Hq]. discriminate Hq.
Qed.

(** X26: a date question gets the day the row's value denotes. For a
    column mapped to a question of type [da], whenever the value converts
    to a date (a date, a timestamp, or a text that starts with an ISO
    date), the answer stored is the ISO text of that date, and this text
    converts back to the same date; a value that does not convert is
    stored as its own text. *)
Theorem map_column_date_answer
    (r : row) (questions : gmap string question)
    (choice_map : gmap string (ODict.t string)) (answers : gmap string answer)
    (col qid : string) (q : question) :
  String.eqb col "timeframe" = false ->
  String.eqb col "handsetsandheadsets" = false ->
  questions !! qid = Some q -> qtype q = "da" ->
  (forall d, to_date_obj (row_get r col) = Some d ->
     step r questions choice_map answers (col, qid)
     = <[ qid := ADate (Date.isoformat d) ]> answers
     /\ to_date_obj (VStr (Date.isoformat d)) = Some d)
  /\ (to_date_obj (row_get r col) = None -> row_get r col ≠ VNone ->
      step r questions choice_map answers (col, qid)
      = <[ qid := ADate (str repr_list (row_get r col)) ]> answers)
  /\ (row_get r col = VNone ->
      step r questions choice_map answers (col, qid) = answers).
Proof.
  intros Hc1 Hc2 Hq Ht.
  apply String.eqb_neq in Hc1, Hc2.
  split; [|split].
  - intros d Hd.
    assert (row_get r col ≠ VNone) as Hv by (intros E; rewrite E in Hd; discriminate Hd).
    rewrite map_column_answer,
      (column_answer_date repr_list r questions choice_map col qid q Hc1 Hc2 Hv Hq Ht), Hd.
    split; [reflexivity|].
    unfold to_date_obj. rewrite take_isoformat_whole. apply strptime_ymd_isoformat.
  - intros Hd Hv.
    rewrite map_column_answer,
      (column_answer_date repr_list r questions choice_map col qid q Hc1 Hc2 Hv Hq Ht), Hd.
    reflexivity.
  - intros Hv. unfold map_column.
    apply String.eqb_neq in Hc1, Hc2. rewrite Hc1, Hc2, Hv. reflexivity.
Qed.

End Answers.

(** ** What is sent, and what a completed run records *)

Section Requests.

Context (DB_TO_QID : ODict.t string).
Context (repr_list : list (option string) -> string).
Context (CLOUD_ID SERVICE_DESK_ID REQUEST_TYPE_ID : string).
Context {World : Type}.
Context (clock : World -> date).
Context (http_get : World -> string -> World * http_result).
Context (create_request_on_jira : World -> request -> World * option string).
Context (fetch_rows_on_or_after : World -> option string -> World * list row).

Local Abbreviation build := (build_form_answers DB_TO_QID repr_list).
Local Abbreviation process := (process_row DB_TO_QID repr_list create_request_on_jira).
Local Abbreviation loop := (process_rows DB_TO_QID repr_list clock create_request_on_jira).
Local Abbreviation run_main :=
  (main DB_TO_QID repr_list CLOUD_ID SERVICE_DESK_ID REQUEST_TYPE_ID
        clock http_get create_request_on_jira fetch_rows_on_or_after).

(** The request of a create-request call, read off [process_row]. *)
Lemma process_row_request r ds t questions choice_map w w' e req posts out :
  process r ds t questions choice_map w = (w', EvPost e req :: posts, out) ->
  req_summary req
  = "Phone equipment request - "
    +:+ str repr_list (Value.or (row_get r "newusername") (VStr e))
  /\ req_description req = build_description repr_list r
  /\ exists answers,
       build r questions choice_map ds t = Returned (Some answers, (ds, t))
       /\ (req_answers req = answers
           \/ exists hq raw,
                ODict.get "handsetsandheadsets" DB_TO_QID = Some hq
                /\ row_get r "handsetsandheadsets" = VStr raw
                /\ map_handsets_field_dynamic (Some raw) questions ≠ []
                /\ req_answers req
                   = <[ hq := AChoices (map_handsets_field_dynamic (Some raw) questions) ]>
                       answers).
Proof.
  unfold process_row.
  destruct (get_email r) as [email|]; [|discriminate].
  destruct (negb (Py.nonempty email)); [discriminate|].
  destruct (bool_decide _); [discriminate|].
  pose proof (build_form_answers_outcome DB_TO_QID repr_list r questions choice_map ds t)
    as Hb.
  destruct (build r questions choice_map ds t) as [|[[answers|] [ds1 t1]]];
    [discriminate| |discriminate].
  destruct Hb as [_ [= -> ->]].
  destruct (ODict.get "handsetsandheadsets" DB_TO_QID) as [hq|] eqn:Hhq.
  2:{ destruct (create_request_on_jira w _) as [w1 [key|]];
        [destruct (Tracking.set_issue _ _ _ _)|];
        intros [= <- <- <- <- <-]; cbn; repeat split; eauto. }
  destruct (Py.nonempty hq).
  2:{ destruct (create_request_on_jira w _) as [w1 [key|]];
        [destruct (Tracking.set_issue _ _ _ _)|];
        intros [= <- <- <- <- <-]; cbn; repeat split; eauto. }
  destruct (Value.truthy (row_get r "handsetsandheadsets")).
  2:{ destruct (create_request_on_jira w _) as [w1 [key|]];
        [destruct (Tracking.set_issue _ _ _ _)|];
        intros [= <- <- <- <- <-]; cbn; repeat split; eauto. }
  destruct (row_get r "handsetsandheadsets") as [|raw| | | |] eqn:Hraw; try discriminate.
  destruct (map_handsets_field_dynamic (Some raw) questions) as [|i ids] eqn:Hm.
  { destruct (create_request_on_jira w _) as [w1 [key|]];
      [destruct (Tracking.set_issue _ _ _ _)|];
      intros [= <- <- <- <- <-]; cbn; repeat split; eauto. }
  destruct (create_request_on_jira w _) as [w1 [key|]];
    [destruct (Tracking.set_issue _ _ _ _)|];
    intros [= <- <- <- <- <-]; cbn [req_summary req_description req_answers];
    (split; [reflexivity|]); (split; [reflexivity|]);
    exists answers; (split; [reflexivity|]); right; exists hq, raw;
    (split; [reflexivity|]); (split; [reflexivity|]);
    rewrite Hm; (split; [discriminate|reflexivity]).
Qed.

Lemma build_description_nonempty r :
  Py.nonempty (build_description repr_list r) = true.
Proof.
  unfold build_description.
  destruct (Py.nonempty (Py.join _ _)) eqn:E; [assumption|reflexivity].
Qed.

(** X27: what [process_row] sends. The request of a create-request call
    has the summary made of the fixed prefix and the new user's name, or
    the row's key when the row has no name; a description that is never
    empty; and answers whose keys are all question ids of [DB_TO_QID]:
    those [build_form_answers] returned and, when the handset column is
    mapped and gives ids, the handset question. *)
Theorem process_row_request_payload
    (r : row) (ds : defaults) (t : tracking) (questions : gmap string question)
    (choice_map : gmap string (ODict.t string)) (w w' : World)
    (e : string) (req : request) (posts : list event) (out : outcome row_result) :
  process r ds t questions choice_map w = (w', EvPost e req :: posts, out) ->
  req_summary req
  = "Phone equipment request - "
    +:+ str repr_list (Value.or (row_get r "newusername") (VStr e))
  /\ req_description req = build_description repr_list r
  /\ Py.nonempty (req_description req) = true
  /\ (forall qid, is_Some (req_answers req !! qid) ->
        exists col, (col, qid) ∈ DB_TO_QID)
  /\ (is_Some (ODict.get "timeframe" DB_TO_QID)).
Proof.
  intros H.
  destruct (process_row_request _ _ _ _ _ _ _ _ _ _ _ H)
    as (Hs & Hd & answers & Hb & Ha).
  split; [assumption|]. split; [assumption|].
  split; [rewrite Hd; apply build_description_nonempty|].
  pose proof (build_form_answers_outcome DB_TO_QID repr_list r questions choice_map ds t)
    as Ho.
  rewrite Hb in Ho. destruct Ho as [Htq _].
  split; [|assumption].
  assert (forall qid, is_Some (answers !! qid) -> exists col, (col, qid) ∈ DB_TO_QID)
    as Hkeys.
  { intros qid Hq. destruct Htq as [tq Htq].
    destruct (build_form_answers_accepted DB_TO_QID repr_list _ _ _ _ _ _ _ _ Htq Hb)
      as [_ ->].
    apply fold_map_column_keys in Hq as [Hq|Hq]; [|assumption].
    destruct (decide (qid = tq)) as [->|Hne].
    - exists "timeframe". apply ODict_get_elem_of. assumption.
    - rewrite lookup_insert_ne, lookup_empty in Hq by congruence.
      destruct Hq as [? Hq]. discriminate Hq. }
  intros qid Hq.
  destruct Ha as [Ha|(hq & raw & Hhq & _ & _ & Ha)]; rewrite Ha in Hq; [auto|].
  destruct (decide (qid = hq)) as [->|Hne].
  - exists "handsetsandheadsets". apply ODict_get_elem_of. assumption.
  - rewrite lookup_insert_ne in Hq by congruence. auto.
Qed.

(** X28: after a completed run, every key listed in
    [processed_emails_same_date] has a ticket in [email_to_issue], the run
    made a create-request call for it, and the loaded state had no ticket
    for it: the same-date list only names keys submitted with success in
    this very run. *)
Theorem main_processed_keys_have_tickets
    (ds : defaults) (f : file_cond) (w : World) (e : string) :
  let r := run_main ds f w in
  let t0 := match read_tracking ds f with
            | Returned t => t
            | Raised => default_copy
            end in
  run_exit r = ExitComplete ->
  e ∈ Tracking.processed (run_defaults r) (run_tracking r) ->
  is_Some (Tracking.issues (run_defaults r) (run_tracking r) !! e)
  /\ posted e (run_events r) = true
  /\ Tracking.issues ds t0 !! e = None.
Proof.
  cbv zeta.
  pose proof (main_shape DB_TO_QID repr_list CLOUD_ID SERVICE_DESK_ID REQUEST_TYPE_ID
                clock http_get create_request_on_jira fetch_rows_on_or_after ds f w)
    as Hs.
  cbv zeta in Hs.
  destruct (fetch_form_definition_cloud http_get CLOUD_ID SERVICE_DESK_ID
              REQUEST_TYPE_ID w) as [[w1 res] gets].
  cbn [fst snd] in Hs.
  destruct res as [| |form]; try (rewrite Hs; discriminate).
  destruct Hs as [[_ ->]|[_ Hs]]; [discriminate|].
  destruct (loop _ _ _ ds _ ∅ _ _) as [[[w3 log] [ds' t']] emails] eqn:Hl.
  cbn [fst snd] in Hs. rewrite Hs.
  cbn [run_defaults run_tracking run_events run_exit]. intros _ He.
  change (e ∈ sorted emails) in He. apply elem_of_sorted in He.
  apply (process_rows_inv DB_TO_QID repr_list clock create_request_on_jira) in Hl
    as (_ & new & -> & _ & Hem).
  destruct (Hem e He) as [H|(Hpost & Hn & Hsome & _)].
  { apply not_elem_of_empty in H. contradiction. }
  split; [exact Hsome|]. split; [|assumption].
  rewrite !posted_app.
  assert (posted e new = true) as -> by (apply posted_elem_of; assumption).
  rewrite orb_true_r. reflexivity.
Qed.

End Requests.

(** ** The statements above on the sample configuration *)

Lemma process_row_call_decides_witness :
  exists w' req res,
    process_row sample_DB_TO_QID sample_repr script_jira_create
      (sample_permanent "a@x.com" "2024-05-02") DEFAULT_STATE
      (sample_tracking None []) sample_questions sample_choice_map sample_world
    = (w', [EvPost "a@x.com" req], Returned res)
    /\ get_email (sample_permanent "a@x.com" "2024-05-02") = Some "a@x.com"
    /\ rr_email res = Some "a@x.com".
Proof.
  eexists _, _, _.
  match goal with
  | |- ?L = ?R /\ _ => assert (L = R) as H by (vm_compute; reflexivity)
  end.
  split; [exact H|].
  destruct (process_row_call_decides sample_DB_TO_QID sample_repr script_jira_create
              _ _ _ _ _ _ _ _ _ _ _ H) as (_ & He & Hr & _).
  split; [exact He|exact Hr].
Defined.

Lemma process_row_rejected_is_flagged_witness :
  exists res,
    process_row sample_DB_TO_QID sample_repr script_jira_create
      (sample_undated "d@x.com" "2024-05-02") DEFAULT_STATE
      (sample_tracking None []) sample_questions sample_choice_map sample_world
    = (sample_world, [], Returned res)
    /\ rr_processed res = false
    /\ is_Some (Tracking.flagged (rr_defaults res) (rr_tracking res)
                  !! Some "d@x.com").
Proof.
  eexists.
  match goal with
  | |- ?L = ?R /\ _ => assert (L = R) as H by (vm_compute; reflexivity)
  end.
  split; [exact H|].
  destruct (process_row_rejected_is_flagged sample_DB_TO_QID sample_repr
              script_jira_create
              (sample_undated "d@x.com" "2024-05-02") DEFAULT_STATE
              (sample_tracking None []) sample_questions sample_choice_map
              sample_world sample_world "d@x.com" _
              eq_refl eq_refl eq_refl H) as (_ & Hp & Hf & _).
  split; [exact Hp|exact Hf].
Defined.

Lemma main_keeps_tickets_on_file_witness :
  let doc :=
    mkDocument (Some (Some "2024-05-02")) (Some ["a@x.com"])
      (Some {[ "a@x.com" := "KEY-1"; "b@x.com" := "KEY-2" ]})
      (Some {[ "d@x.com" := flag_missing_dates ]}) ∅ in
  let w := mkScript 0 [Response 200 (Some sample_form)] [Some "KEY-9"]
             (sc_table sample_world) D(2024, 5, 2) in
  let r := sample_main DEFAULT_STATE (FileJSON (JObject doc)) w in
  Tracking.issues (run_defaults r) (run_tracking r) !! "b@x.com" = Some "KEY-2"
  /\ posted "b@x.com" (run_events r) = false.
Proof.
  intros doc w.
  apply (main_keeps_tickets_on_file sample_DB_TO_QID sample_repr "cloud-1" "7" "42"
           script_clock script_http_get script_jira_create script_db_rows
           DEFAULT_STATE doc w
           {[ "a@x.com" := "KEY-1"; "b@x.com" := "KEY-2" ]} "b@x.com" "KEY-2");
    reflexivity.
Defined.

Lemma main_posts_for_selected_rows_witness :
  let r := sample_main DEFAULT_STATE FileMissing sample_world in
  run_exit r = ExitComplete
  /\ Tracking.issues DEFAULT_STATE default_copy !! "a@x.com" = None.
Proof.
  intros r.
  destruct (main_posts_for_selected_rows sample_DB_TO_QID sample_repr
              "cloud-1" "7" "42"
              script_clock script_http_get script_jira_create script_db_rows
              DEFAULT_STATE FileMissing sample_world "a@x.com")
    as (Hexit & Hnone & _).
  - vm_compute. reflexivity.
  - split; [exact Hexit|exact Hnone].
Defined.

Lemma main_state_reads_back_witness :
  let r := sample_main DEFAULT_STATE FileMissing sample_world in
  has_all_keys (run_tracking r) = true
  /\ read_tracking DEFAULT_STATE (written (run_defaults r) (run_tracking r))
     = Returned (snapshot (run_defaults r) (run_tracking r)).
Proof.
  intros r.
  destruct (main_state_reads_back sample_DB_TO_QID sample_repr "cloud-1" "7" "42"
              script_clock script_http_get script_jira_create script_db_rows
              DEFAULT_STATE DEFAULT_STATE FileMissing sample_world)
    as (_ & Hk & Hr & _).
  - reflexivity.
  - vm_compute. reflexivity.
  - split; [exact Hk|exact Hr].
Defined.

Lemma process_row_over_http_witness :
  exists res,
    (process_row sample_DB_TO_QID sample_repr
       (Jira.submit (constant_post (Jira.PostResponse 503 None))
                    "example.atlassian.net" "7" "42")
       (sample_permanent "a@x.com" "2024-05-02") DEFAULT_STATE
       (sample_tracking None []) sample_questions sample_choice_map sample_world).2
    = Returned res
    /\ rr_processed res = false
    /\ Tracking.issues (rr_defaults res) (rr_tracking res) = ∅.
Proof.
  eexists.
  match goal with
  | |- ?L = ?R /\ _ => assert (L = R) as H by (vm_compute; reflexivity)
  end.
  split; [exact H|].
  destruct (process_row_over_http sample_DB_TO_QID sample_repr
              (constant_post (Jira.PostResponse 503 None))
              "example.atlassian.net" "7" "42"
              (sample_permanent "a@x.com" "2024-05-02") DEFAULT_STATE
              (sample_tracking None []) sample_questions sample_choice_map
              sample_world _ H) as [_ Hfail].
  apply Hfail. intros p. cbn. lia.
Defined.

Lemma build_form_answers_keys_witness :
  exists col, (col, "4") ∈ sample_DB_TO_QID.
Proof.
  eapply (build_form_answers_keys sample_DB_TO_QID sample_repr
            (sample_department_row "Human Resources") sample_questions
            sample_choice_map DEFAULT_STATE (sample_tracking None [])).
  - vm_compute. reflexivity.
  - vm_compute. eexists. reflexivity.
Defined.

Lemma map_column_date_answer_witness :
  map_column sample_repr (sample_request "Temporary" "2024-06-01 09:30:00" "2024-07-01")
    sample_questions sample_choice_map ∅ ("dateneededby", "2")
  = <[ "2" := ADate "2024-06-01" ]> ∅.
Proof.
  destruct (map_column_date_answer sample_repr
              (sample_request "Temporary" "2024-06-01 09:30:00" "2024-07-01")
              sample_questions sample_choice_map ∅ "dateneededby" "2"
              (mkQuestion "da" []) eq_refl eq_refl eq_refl eq_refl) as (Hdate & _).
  destruct (Hdate D(2024, 6, 1) eq_refl) as [E _]. exact E.
Defined.

Lemma process_row_request_payload_witness :
  exists w' req out,
    process_row sample_DB_TO_QID sample_repr script_jira_create
      (sample_permanent "a@x.com" "2024-05-02") DEFAULT_STATE
      (sample_tracking None []) sample_questions sample_choice_map sample_world
    = (w', [EvPost "a@x.com" req], out)
    /\ req_summary req = "Phone equipment request - New User"
    /\ Py.nonempty (req_description req) = true.
Proof.
  eexists _, _, _.
  match goal with
  | |- ?L = ?R /\ _ => assert (L = R) as H by (vm_compute; reflexivity)
  end.
  split; [exact H|].
  destruct (process_row_request_payload sample_DB_TO_QID sample_repr script_jira_create
              _ _ _ _ _ _ _ _ _ _ _ H) as (Hs & _ & Hd & _).
  split; [exact Hs|exact Hd].
Defined.

Lemma main_processed_keys_have_tickets_witness :
  let r := sample_main DEFAULT_STATE FileMissing sample_world in
  is_Some (Tracking.issues (run_defaults r) (run_tracking r) !! "a@x.com")
  /\ posted "a@x.com" (run_events r) = true.
Proof.
  intros r.
  destruct (main_processed_keys_have_tickets sample_DB_TO_QID sample_repr
              "cloud-1" "7" "42"
              script_clock script_http_get script_jira_create script_db_rows
              DEFAULT_STATE FileMissing sample_world "a@x.com")
    as (Hsome & Hposted & _).
  - vm_compute. reflexivity.
  - vm_compute. apply list_elem_of_here.
  - split; [exact Hsome|exact Hposted].
Defined.
